(** * PR Reporter: a shallow embedding of the Go sources and its checked properties

    The development follows the layout of the repository:

    - [Strings]     the functions of Go's [strings], [fmt] and [regexp] packages
                    that the program calls, over byte strings;
    - [Jira]        [internal/jira/jira.go]       ([FetchTicketInfo], [FetchTicketsInfo]);
    - [Github]      [internal/github/github.go]   ([FetchPRs]);
    - [Slack]       the [slack] package           ([SendPRReport], [MapGitHubUserToMention]);
    - [Middletier]  [cmd/middletier/main.go]      ([main] and the join of PRs and ticket info);
    - [Main]        the single-file program       ([GetSlackChannelUsers], [FetchPullRequests],
                    [UpdateJiraInfo], [SendSlackMessage], [RunReport]).

    The modules [JiraSpec], [ExtractSpec], [CollectorSpec], [ReportSpec],
    [MainSpec] and [MiddletierSpec] hold the vocabulary of the statements and
    the sample inputs; the properties come last.

    Conventions.  A Go [string] is a Rocq [string], a sequence of bytes; case
    mapping and white space are those of the ASCII range.  A pointer field
    that the code tests against [nil] or dereferences is an [option];
    dereferencing [None] is the outcome [Panic].  A Go result pair [(v, err)]
    is a [result].  The three remote services are records of oracles passed
    explicitly.  What the program writes is a trace of [Event]s: the lines
    given to [log] and the messages handed to the chat service.  [log.Printf]
    calls that sit under [if DebugMode] are diagnostics and are not recorded
    in the trace; what [DebugMode] changes in the control flow (the
    authentication probes, the extra dereferences) is modelled. *)

From Stdlib Require Import ZArith Ascii String List Bool Lia DecimalString.
From stdpp Require Import base gmap strings list.

Local Open Scope Z_scope.

(** ** Outcomes and the output trace *)

Inductive result (A : Type) : Type :=
| Ok (a : A)
| Err (msg : string)
| Panic.
Arguments Ok {A} a.
Arguments Err {A} msg.
Arguments Panic {A}.

#[global] Instance result_ret : MRet result := fun A a => Ok a.

#[global] Instance result_bind : MBind result := fun A B k r =>
  match r with
  | Ok a => k a
  | Err m => Err m
  | Panic => Panic
  end.

(** [*p] for a pointer field [p]. *)
Definition deref {A} (p : option A) : result A :=
  match p with
  | Some a => Ok a
  | None => Panic
  end.

(** [LogLine]: a line written by [log].  [SlackPost]: a call of
    [PostMessage] with the channel and the text. *)
Inductive Event : Type :=
| LogLine (line : string)
| SlackPost (channel text : string).

(** A computation that writes to the trace and ends in a [result]. *)
Record prog (A : Type) : Type := Prog { trace : list Event; outcome : result A }.
Arguments Prog {A} trace outcome.
Arguments trace {A} p.
Arguments outcome {A} p.

#[global] Instance prog_ret : MRet prog := fun A a => Prog [] (Ok a).

#[global] Instance prog_bind : MBind prog := fun A B k p =>
  match outcome p with
  | Ok a => Prog (trace p ++ trace (k a)) (outcome (k a))
  | Err m => Prog (trace p) (Err m)
  | Panic => Prog (trace p) Panic
  end.

(** [log.Println] and [log.Printf], after formatting. *)
Definition log (line : string) : prog unit := Prog [LogLine line] (Ok tt).

Definition lift {A} (r : result A) : prog A := Prog [] r.

(** [log.Fatalf]: the line is written and the process exits with status 1. *)
Definition fatal {A} (line : string) : prog A := Prog [LogLine line] (Err line).

(** ** Go's string functions *)

Module Strings.

Definition is_upper (c : ascii) : bool :=
  let n := N_of_ascii c in ((65 <=? n) && (n <=? 90))%N.

(** Case mapping of one byte.  Bytes outside [A-Z] are kept: the model
    covers the ASCII range of Go's Unicode case mapping. *)
Definition lower_byte (c : ascii) : ascii :=
  if is_upper c then ascii_of_N (N_of_ascii c + 32) else c.

Fixpoint ToLower (s : string) : string :=
  match s with
  | EmptyString => EmptyString
  | String c r => String (lower_byte c) (ToLower r)
  end.

Fixpoint EqualFold (s t : string) : bool :=
  match s, t with
  | EmptyString, EmptyString => true
  | String a s', String b t' =>
      Ascii.eqb (lower_byte a) (lower_byte b) && EqualFold s' t'
  | _, _ => false
  end.

Fixpoint HasPrefix (s prefix : string) {struct prefix} : bool :=
  match prefix, s with
  | EmptyString, _ => true
  | String a p', String b s' => Ascii.eqb a b && HasPrefix s' p'
  | String _ _, EmptyString => false
  end.

Fixpoint Contains (s substr : string) : bool :=
  HasPrefix s substr ||
  match s with
  | EmptyString => false
  | String _ s' => Contains s' substr
  end.

(** [s[n:]] *)
Fixpoint slice_from (n : nat) (s : string) : string :=
  match n, s with
  | O, _ => s
  | S n', String _ s' => slice_from n' s'
  | S _, EmptyString => EmptyString
  end.

Definition TrimPrefix (s prefix : string) : string :=
  if HasPrefix s prefix then slice_from (String.length prefix) s else s.

Definition is_empty (s : string) : bool :=
  match s with EmptyString => true | _ => false end.

Fixpoint TrimLeft (s : string) : string :=
  match s with
  | EmptyString => EmptyString
  | String c r => if Ascii.is_space c then TrimLeft r else s
  end.

Fixpoint TrimRight (s : string) : string :=
  match s with
  | EmptyString => EmptyString
  | String c r =>
      let r' := TrimRight r in
      if Ascii.is_space c && is_empty r' then EmptyString else String c r'
  end.

(** [strings.TrimSpace], for the white space of the ASCII range: tab, line
    feed, vertical tab, form feed, carriage return and space. *)
Definition TrimSpace (s : string) : string := TrimRight (TrimLeft s).

(** [strings.Split(s, sep)] for a one-byte separator; [Split("", sep)] is
    the one-element slice holding the empty string. *)
Fixpoint Split (s : string) (sep : ascii) : list string :=
  match s with
  | EmptyString => [EmptyString]
  | String c r =>
      if Ascii.eqb c sep then EmptyString :: Split r sep
      else match Split r sep with
           | h :: t => String c h :: t
           | [] => [String c EmptyString]
           end
  end.

Fixpoint Join (elems : list string) (sep : string) : string :=
  match elems with
  | [] => EmptyString
  | [x] => x
  | x :: rest => x +:+ sep +:+ Join rest sep
  end.

(** The string ["\n"]. *)
Definition newline : string := String (ascii_of_nat 10) EmptyString.

(** The verb [%d] of [fmt]. *)
Definition Itoa (n : Z) : string := NilZero.string_of_int (Z.to_int n).

(** *** [regexp]: the pattern [PREFIX-\d+]

    [FindStringSubmatch] returns the leftmost match, and [\d+] is greedy;
    [\d] is [0-9]. *)

Definition is_digit (c : ascii) : bool :=
  let n := N_of_ascii c in ((48 <=? n) && (n <=? 57))%N.

Fixpoint take_digits (s : string) : string :=
  match s with
  | EmptyString => EmptyString
  | String c r => if is_digit c then String c (take_digits r) else EmptyString
  end.

(** The match anchored at the first byte of [s], if there is one. *)
Definition match_here (literal s : string) : option string :=
  if HasPrefix s literal then
    match take_digits (slice_from (String.length literal) s) with
    | EmptyString => None
    | ds => Some (literal +:+ ds)
    end
  else None.

(** [regexp.MustCompile(literal + `\d+`).FindStringSubmatch(s)]: the slice
    holds the whole match (the pattern has no group), or is empty. *)
Fixpoint FindStringSubmatch (literal s : string) : list string :=
  match match_here literal s with
  | Some m => [m]
  | None =>
      match s with
      | EmptyString => []
      | String _ r => FindStringSubmatch literal r
      end
  end.

End Strings.


(** ** internal/jira/jira.go *)

Module Jira.
Import Strings.

(** FetchOptions contains options for fetching JIRA ticket information *)
Record FetchOptions : Type := {
  URL : string;
  Username : string;
  APIToken : string;
  UsePAT : bool;
  DebugMode : bool
}.

(** TicketInfo represents information about a JIRA ticket *)
Record TicketInfo : Type := {
  TicketID : string;
  Status : string;
  Summary : string;
  IsBlocked : bool
}.

#[global] Instance TicketInfo_eq_dec : EqDecision TicketInfo.
Proof. solve_decision. Defined.

(** *** The tracker, as the [go-jira] client shows it

    [jira.Issue] with the fields the program reads, the HTTP response with
    its status code, and the two transports. *)
Record IssueStatus : Type := { Name : string }.

Record IssueFields : Type := {
  FieldStatus : option IssueStatus;
  FieldSummary : string;
  FieldLabels : list string
}.

Record Issue : Type := { Fields : option IssueFields }.

Record Response : Type := { StatusCode : Z }.

Inductive Transport : Type :=
| PATAuthTransport (Token : string)
| BasicAuthTransport (User Password : string).

Record Client : Type := { transport : Transport; baseURL : string }.

(** The reply of [Issue.Get]: [(issue, resp, err)]. *)
Record GetReply : Type := {
  issue : option Issue;
  resp : option Response;
  err : option string
}.

Record Tracker : Type := {
  (** [jira.NewClient] fails on a base URL it cannot parse. *)
  NewClient : string → option string;
  (** [User.GetSelf]: the error, if the credentials are rejected. *)
  GetSelf : Client → option string;
  IssueGet : Client → string → GetReply
}.

Definition is_blocking_text (lowered : string) : bool :=
  Contains lowered "block" ||
  Contains lowered "impediment" ||
  Contains lowered "pause".

Definition set_blocked (ticketInfo : TicketInfo) : TicketInfo :=
  {| TicketID := TicketID ticketInfo;
     Status := Status ticketInfo;
     Summary := Summary ticketInfo;
     IsBlocked := true |}.

(** "Check if blocked by status name" *)
Definition check_status (st : option IssueStatus) (ticketInfo : TicketInfo)
  : TicketInfo :=
  match st with
  | Some s =>
      if negb (is_empty (Name s)) then
        if is_blocking_text (ToLower (Name s)) then set_blocked ticketInfo
        else ticketInfo
      else ticketInfo
  | None => ticketInfo
  end.

(** "Check if blocked by labels": the [for] loop, left at the first match. *)
Fixpoint check_labels (labels : list string) (ticketInfo : TicketInfo)
  : TicketInfo :=
  match labels with
  | [] => ticketInfo
  | label :: rest =>
      if is_blocking_text (ToLower label) then set_blocked ticketInfo
      else check_labels rest ticketInfo
  end.

(** The body that runs after a successful [Issue.Get]. *)
Definition ticket_of_issue (ticketID : string) (iss : option Issue)
  : TicketInfo :=
  let ticketInfo :=
    {| TicketID := ticketID; Status := "Unknown"; Summary := "";
       IsBlocked := false |} in
  match iss ≫= Fields with
  | Some fields =>
      let status :=
        match FieldStatus fields with
        | Some s => if negb (is_empty (Name s)) then Name s else "No Status"
        | None => "No Status"
        end in
      let summary :=
        if negb (is_empty (FieldSummary fields)) then FieldSummary fields
        else "No Description" in
      let ticketInfo :=
        {| TicketID := ticketID; Status := status; Summary := summary;
           IsBlocked := false |} in
      let ticketInfo := check_status (FieldStatus fields) ticketInfo in
      check_labels (FieldLabels fields) ticketInfo
  | None =>
      {| TicketID := ticketID; Status := "No Data"; Summary := "";
         IsBlocked := false |}
  end.

Definition not_found (r : option Response) : bool :=
  match r with
  | Some r => StatusCode r =? 404
  | None => false
  end.

Definition credentials_missing (opts : FetchOptions) : bool :=
  is_empty (Username opts) || is_empty (APIToken opts) || is_empty (URL opts).

Definition new_client (tr : Tracker) (opts : FetchOptions) : result Client :=
  if UsePAT opts then
    match NewClient tr (URL opts) with
    | Some e => Err ("error creating JIRA client with PAT: " +:+ e)
    | None =>
        Ok {| transport := PATAuthTransport (APIToken opts);
              baseURL := URL opts |}
    end
  else
    match NewClient tr (URL opts) with
    | Some e => Err ("error creating JIRA client with Basic auth: " +:+ e)
    | None =>
        Ok {| transport := BasicAuthTransport (Username opts) (APIToken opts);
              baseURL := URL opts |}
    end.

(** FetchTicketInfo fetches information for a single JIRA ticket *)
Definition FetchTicketInfo (tr : Tracker) (opts : FetchOptions)
    (ticketID : string) : result TicketInfo :=
  if is_empty ticketID then Err "ticket ID is required"
  else if credentials_missing opts then
    Err "JIRA credentials not fully configured"
  else
    jiraClient ← new_client tr opts;
    let reply := IssueGet tr jiraClient ticketID in
    match err reply with
    | Some e =>
        if not_found (resp reply) then
          Ok {| TicketID := ticketID; Status := "Not Found";
                Summary := "Ticket not found"; IsBlocked := false |}
        else
          Err ("error fetching JIRA ticket " +:+ ticketID +:+ ": " +:+ e)
    | None => Ok (ticket_of_issue ticketID (issue reply))
    end.

Definition error_info (ticketID e : string) : TicketInfo :=
  {| TicketID := ticketID; Status := "Error";
     Summary := "Error: " +:+ e; IsBlocked := false |}.

Fixpoint tickets_loop (tr : Tracker) (opts : FetchOptions)
    (ticketIDs : list string) (results : gmap string TicketInfo)
  : prog (gmap string TicketInfo) :=
  match ticketIDs with
  | [] => mret results
  | ticketID :: rest =>
      if is_empty ticketID then tickets_loop tr opts rest results
      else
        match FetchTicketInfo tr opts ticketID with
        | Err e =>
            _ ← log ("Warning: Error fetching JIRA ticket " +:+ ticketID
                     +:+ ": " +:+ e);
            tickets_loop tr opts rest
              (<[ticketID := error_info ticketID e]> results)
        | Ok ticketInfo =>
            tickets_loop tr opts rest (<[ticketID := ticketInfo]> results)
        | Panic => lift Panic
        end
  end.

(** FetchTicketsInfo fetches information for multiple JIRA tickets *)
Definition FetchTicketsInfo (tr : Tracker) (opts : FetchOptions)
    (ticketIDs : list string) : prog (gmap string TicketInfo) :=
  tickets_loop tr opts ticketIDs ∅.

End Jira.

(** ** internal/github/github.go *)

Module Github.
Import Strings.

(** FetchOptions contains options for fetching PRs from GitHub *)
Record FetchOptions : Type := {
  Token : string;
  Owner : string;
  Repo : string;
  Labels : list string;
  AllowedUsers : list string;
  DebugMode : bool
}.

(** PRResult represents a single PR fetched from GitHub.  (The field
    [Labels] of the source is [PRLabels] here: [Labels] is taken by
    [FetchOptions].) *)
Record PRResult : Type := {
  Number : Z;
  Title : string;
  URL : string;
  Assignee : string;
  JiraTicket : string;
  IsDraft : bool;
  PRLabels : list string;
  Author : string
}.

#[global] Instance PRResult_eq_dec : EqDecision PRResult.
Proof. solve_decision. Defined.

(** *** The code host, as the [go-github] client shows it

    Every scalar field of [github.PullRequest] is a pointer. *)
Record User : Type := { Login : option string }.

Record Label : Type := { Name : option string }.

Record PullRequest : Type := {
  pr_Number : option Z;
  pr_Title : option string;
  pr_HTMLURL : option string;
  pr_Draft : option bool;
  pr_User : option User;
  pr_Assignee : option User;
  pr_Labels : list Label
}.

Record ListOptions : Type := { Page : nat; PerPage : nat }.

Record Host : Type := {
  (** [Users.Get(ctx, "")]: the authenticated user. *)
  UsersGet : string → result User;
  (** The open pull requests of [owner/repo], in listing order, or the
      error the host answers the listing with. *)
  OpenPulls : string → string → string → result (list PullRequest)
}.

(** One page of a listing, by the host's pagination contract: pages are
    numbered from 1, an absent page number means the first page, an absent
    page size means 30 and the page size is capped at 100. *)
Definition page_of {A} (all : list A) (lo : ListOptions) : list A :=
  let per := if Nat.eqb (PerPage lo) 0 then 30%nat
             else Nat.min (PerPage lo) 100 in
  let page := if Nat.eqb (Page lo) 0 then 1%nat else Page lo in
  take per (drop ((page - 1) * per) all).

(** [client.PullRequests.List(ctx, owner, repo, opts)] with [State: "open"];
    the next-page number of the response is not part of the value, the
    callers discard the response. *)
Definition PullRequestsList (host : Host) (token owner repo : string)
    (lo : ListOptions) : result (list PullRequest) :=
  all ← OpenPulls host token owner repo;
  mret (page_of all lo).

(** "Verify authentication": runs under [DebugMode] only. *)
Definition verify_authentication (host : Host) (token : string)
  : result unit :=
  match UsersGet host token with
  | Err e => Err ("error verifying GitHub authentication: " +:+ e)
  | Ok user => _ ← deref (Login user); mret tt
  | Panic => Panic
  end.

Fixpoint deref_names (labels : list Label) : result unit :=
  match labels with
  | [] => mret tt
  | label :: rest => _ ← deref (Name label); deref_names rest
  end.

(** The dereferences of the "Debug PR info" block. *)
Definition debug_pr_info (pr : PullRequest) : result unit :=
  _ ← deref (pr_Number pr);
  _ ← deref (pr_Title pr);
  user ← deref (pr_User pr);
  _ ← deref (Login user);
  _ ← deref (pr_Draft pr);
  deref_names (pr_Labels pr).

(** "Filter by allowed users if specified": the inner [for] loop. *)
Fixpoint userFound (allowedUsers : list string) (login : string) : bool :=
  match allowedUsers with
  | [] => false
  | allowedUser :: rest =>
      let allowedUser := TrimSpace allowedUser in
      if is_empty allowedUser then userFound rest login
      else if EqualFold allowedUser login then true
      else userFound rest login
  end.

Fixpoint matches_filter (filterLabels : list string) (name : string) : bool :=
  match filterLabels with
  | [] => false
  | filterLabel :: rest =>
      if Contains (ToLower name) (ToLower filterLabel) then true
      else matches_filter rest name
  end.

(** "Filter by labels if specified": the two nested [for] loops. *)
Fixpoint hasMatchingLabel (labels : list Label) (filterLabels : list string)
  : bool :=
  match labels with
  | [] => false
  | label :: rest =>
      match Name label with
      | Some name =>
          if matches_filter filterLabels name then true
          else hasMatchingLabel rest filterLabels
      | None => hasMatchingLabel rest filterLabels
      end
  end.

(** "Extract JIRA ticket from PR title", for the pattern [literal\d+]. *)
Definition extract_ticket (literal : string) (title : option string) : string :=
  match title with
  | Some t =>
      match FindStringSubmatch literal t with
      | m :: _ => m
      | [] => ""
      end
  | None => ""
  end.

Definition jiraRegex : string := "POKER-".

Fixpoint label_names (labels : list Label) : list string :=
  match labels with
  | [] => []
  | label :: rest =>
      match Name label with
      | Some name => name :: label_names rest
      | None => label_names rest
      end
  end.

Definition login_of (u : option User) : option string := u ≫= Login.

(** [len(s) > 0] *)
Definition nonempty {A} (s : list A) : bool := Nat.ltb 0 (length s).

(** One iteration of [for _, pr := range allPRs]: [None] is [continue]. *)
Definition examine (opts : FetchOptions) (pr : PullRequest)
  : result (option PRResult) :=
  _ ← (if DebugMode opts then debug_pr_info pr else mret tt);
  match login_of (pr_User pr) with
  | None => mret None
  | Some login =>
      if nonempty (AllowedUsers opts)
         && negb (userFound (AllowedUsers opts) login) then mret None
      else if nonempty (Labels opts)
              && negb (hasMatchingLabel (pr_Labels pr) (Labels opts))
      then mret None
      else
        let jiraTicket := extract_ticket jiraRegex (pr_Title pr) in
        let prLabels := label_names (pr_Labels pr) in
        let assignee := default "" (login_of (pr_Assignee pr)) in
        number ← deref (pr_Number pr);
        title ← deref (pr_Title pr);
        url ← deref (pr_HTMLURL pr);
        draft ← deref (pr_Draft pr);
        mret (Some {| Number := number; Title := title; URL := url;
                      Assignee := assignee; JiraTicket := jiraTicket;
                      IsDraft := draft; PRLabels := prLabels;
                      Author := login |})
  end.

Fixpoint filter_loop (opts : FetchOptions) (allPRs : list PullRequest)
    (filteredPRs : list PRResult) : result (list PRResult) :=
  match allPRs with
  | [] => mret filteredPRs
  | pr :: rest =>
      r ← examine opts pr;
      match r with
      | Some prResult => filter_loop opts rest (filteredPRs ++ [prResult])
      | None => filter_loop opts rest filteredPRs
      end
  end.

(** FetchPRs fetches pull requests from a GitHub repository based on
    provided options.  If no labels are specified, it fetches all open PRs
    from the repo.  If labels are specified, it only fetches PRs with at
    least one matching label. *)
Definition FetchPRs (host : Host) (opts : FetchOptions)
  : result (list PRResult) :=
  if is_empty (Token opts) then Err "GitHub token is required"
  else if is_empty (Owner opts) then Err "repository owner is required"
  else if is_empty (Repo opts) then Err "repository name is required"
  else
    _ ← (if DebugMode opts then verify_authentication host (Token opts)
         else mret tt);
    let listOpts := {| Page := 0; PerPage := 100 |} in
    allPRs ← match PullRequestsList host (Token opts) (Owner opts)
                     (Repo opts) listOpts with
             | Err e => Err ("error fetching PRs from " +:+ Owner opts +:+ "/"
                             +:+ Repo opts +:+ ": " +:+ e)
             | r => r
             end;
    filter_loop opts allPRs [].

End Github.

(** ** The [slack] package *)

Module Slack.
Import Strings.

(** MessageOptions contains options for sending a PR report to Slack *)
Record MessageOptions : Type := {
  Token : string;
  Channel : string;
  GithubOwner : string;
  GithubRepo : string;
  JiraURL : string;
  TeamGroup : string;
  MentionUsers : string;
  ReportTitle : string;
  DebugMode : bool
}.

(** PRInfo represents PR information to be sent to Slack *)
Record PRInfo : Type := {
  Number : Z;
  Title : string;
  Assignee : string;
  JiraTicket : string;
  JiraStatus : string;
  Description : string;
  IsDraft : bool;
  IsBlocked : bool
}.

#[global] Instance PRInfo_eq_dec : EqDecision PRInfo.
Proof. solve_decision. Defined.

(** *** The chat service, as the [slack-go] client shows it *)
Record Conversation : Type := { ConvID : string; ConvName : string }.

Record SlackUser : Type := {
  UserID : string;
  UserName : string;
  IsBot : bool;
  Deleted : bool
}.

Record API : Type := {
  (** [AuthTest]: the error, if the token is rejected. *)
  AuthTest : string → option string;
  (** [GetConversations] with the given [Types] (and [Limit: 1000]). *)
  GetConversations : string → list string → result (list Conversation);
  GetUsersInConversation : string → string → result (list string);
  GetUserInfo : string → string → result SlackUser;
  (** [PostMessage token channel text]: the error, if the post is rejected. *)
  PostMessage : string → string → string → option string
}.

(** [<https://github.com/%s/%s/pull/%d|PR-%d>] *)
Definition pr_link (owner repo : string) (number : Z) : string :=
  "<https://github.com/" +:+ owner +:+ "/" +:+ repo +:+ "/pull/"
    +:+ Itoa number +:+ "|PR-" +:+ Itoa number +:+ ">".

(** The variables the loop over [prs] appends to. *)
Record Summary : Type := {
  lines : list string;
  blockedPRs : list string;
  draftPRs : list string
}.

(** "Track blocked and draft PRs for end summary with links" *)
Definition track (opts : MessageOptions) (pr : PRInfo) (acc : Summary)
  : Summary :=
  let link := pr_link (GithubOwner opts) (GithubRepo opts) (Number pr) in
  if IsBlocked pr && IsDraft pr then
    {| lines := lines acc;
       blockedPRs := blockedPRs acc ++ [link +:+ " (Blocked & Draft)"];
       draftPRs := draftPRs acc |}
  else if IsBlocked pr then
    {| lines := lines acc;
       blockedPRs := blockedPRs acc ++ [link];
       draftPRs := draftPRs acc |}
  else if IsDraft pr then
    {| lines := lines acc;
       blockedPRs := blockedPRs acc;
       draftPRs := draftPRs acc ++ [link] |}
  else acc.

(** "Format the PR line", for the PR at index [i]. *)
Definition prLine (opts : MessageOptions) (i : nat) (pr : PRInfo) : string :=
  let statusPart :=
    if is_empty (JiraStatus pr) then "Unknown" else JiraStatus pr in
  let assigneeText :=
    if is_empty (Assignee pr) then "unassigned" else Assignee pr in
  let jiraLink :=
    if negb (is_empty (JiraTicket pr)) && negb (is_empty (JiraURL opts)) then
      "<" +:+ JiraURL opts +:+ "/browse/" +:+ JiraTicket pr +:+ "|"
        +:+ JiraTicket pr +:+ ">"
    else if is_empty (JiraTicket pr) then "N/A"
    else JiraTicket pr in
  let description :=
    if is_empty (Description pr) then "No description" else Description pr in
  Itoa (Z.of_nat i + 1) +:+ ". *"
    +:+ pr_link (GithubOwner opts) (GithubRepo opts) (Number pr)
    +:+ "* assigned to " +:+ assigneeText
    +:+ " | Jira: " +:+ jiraLink
    +:+ " | " +:+ description
    +:+ " | *" +:+ statusPart +:+ "*".

(** [for i, pr := range prs] *)
Fixpoint pr_loop (opts : MessageOptions) (i : nat) (prs : list PRInfo)
    (acc : Summary) : Summary :=
  match prs with
  | [] => acc
  | pr :: rest =>
      let acc := track opts pr acc in
      let acc := {| lines := lines acc ++ [prLine opts i pr];
                    blockedPRs := blockedPRs acc;
                    draftPRs := draftPRs acc |} in
      pr_loop opts (S i) rest acc
  end.

Definition title_line (title : string) : string := "📋 *" +:+ title +:+ "*".
Definition blocked_line (blocked : list string) : string :=
  "🚫 *Blocked:* " +:+ Join blocked ", ".
Definition draft_line (draft : list string) : string :=
  "📝 *Draft:* " +:+ Join draft ", ".
Definition na_line : string := "✅ *Blocked/Draft:* N/A".

Definition review_request : string :=
  " Please make sure to review these pull requests!".

(** "Add blocked/draft summary at the end" *)
Definition summary_lines (blockedPRs draftPRs : list string) : list string :=
  if Nat.ltb 0 (length blockedPRs) || Nat.ltb 0 (length draftPRs) then
    (if Nat.ltb 0 (length blockedPRs) then [blocked_line blockedPRs] else [])
    ++ (if Nat.ltb 0 (length draftPRs) then [draft_line draftPRs] else [])
  else [na_line].

Fixpoint mentions_of (userIDs : list string) : list string :=
  match userIDs with
  | [] => []
  | userID :: rest =>
      let userID := TrimSpace userID in
      if negb (is_empty userID) then
        ("<@" +:+ userID +:+ ">") :: mentions_of rest
      else mentions_of rest
  end.

Definition team_line (teamGroup : string) : string :=
  "<!subteam^" +:+ teamGroup +:+ ">" +:+ review_request.

(** "Add team mention or individual user mentions if provided" *)
Definition mention_lines (opts : MessageOptions) : list string :=
  if negb (is_empty (MentionUsers opts)) then
    let mentions := mentions_of (Split (MentionUsers opts) ",") in
    "" :: match mentions with
          | [] => []
          | _ => [Join mentions " " +:+ review_request]
          end
  else if negb (is_empty (TeamGroup opts)) then
    [""; team_line (TeamGroup opts)]
  else [].

Definition date_line (currentDate : string) : string :=
  ":date: *" +:+ currentDate +:+ "*".

(** The slice [lines] when it is joined; [currentDate] is
    [time.Now().Format("2006-01-02")]. *)
Definition report_lines (currentDate : string) (opts : MessageOptions)
    (prs : list PRInfo) : list string :=
  let dateText := date_line currentDate in
  let totalText :=
    ":bar_chart: *Total Open PRs: " +:+ Itoa (Z.of_nat (length prs)) +:+ "*" in
  let lines0 :=
    if negb (is_empty (ReportTitle opts)) then
      [title_line (ReportTitle opts); ""]
    else [] in
  let lines0 := lines0 ++ [dateText; ""; totalText; ""] in
  let acc := pr_loop opts 0 prs
               {| lines := lines0; blockedPRs := []; draftPRs := [] |} in
  (lines acc ++ [""])
    ++ summary_lines (blockedPRs acc) (draftPRs acc)
    ++ mention_lines opts.

Definition message (currentDate : string) (opts : MessageOptions)
    (prs : list PRInfo) : string :=
  Join (report_lines currentDate opts prs) newline.

(** SendPRReport formats and sends a PR report message to Slack *)
Definition SendPRReport (api : API) (currentDate : string)
    (opts : MessageOptions) (prs : list PRInfo) : prog unit :=
  if is_empty (Token opts) then lift (Err "Slack token is required")
  else if is_empty (Channel opts) then lift (Err "Slack channel is required")
  else if is_empty (GithubOwner opts) || is_empty (GithubRepo opts) then
    lift (Err "GitHub owner and repo are required")
  else
    _ ← (if DebugMode opts then
           match AuthTest api (Token opts) with
           | Some e => lift (Err ("Slack authentication failed: " +:+ e))
           | None => mret tt
           end
         else mret tt);
    let text := message currentDate opts prs in
    Prog [SlackPost (Channel opts) text]
      (match PostMessage api (Token opts) (Channel opts) text with
       | Some e => Err ("error posting message to Slack: " +:+ e)
       | None => Ok tt
       end).

(** MapGitHubUserToMention converts GitHub username to Slack mention format *)
Definition MapGitHubUserToMention (githubToSlackMap : gmap string string)
    (githubUsername : string) : string :=
  if is_empty githubUsername then ""
  else match githubToSlackMap !! githubUsername with
       | Some slackUserID => "<@" +:+ slackUserID +:+ ">"
       | None => "@" +:+ githubUsername
       end.

End Slack.

(** ** cmd/middletier/main.go *)

Module Middletier.
Import Strings.

(** The process environment: [os.Getenv] and the outcome of
    [godotenv.Load]. *)
Record Env : Type := {
  Getenv : string → string;
  dotenv_error : bool
}.

Fixpoint parse_labels (parts : list string) : list string :=
  match parts with
  | [] => []
  | label :: rest =>
      let label := TrimSpace label in
      if negb (is_empty label) then label :: parse_labels rest
      else parse_labels rest
  end.

(** "Collect all JIRA ticket IDs" *)
Fixpoint collect_ticket_ids (githubPRs : list Github.PRResult) : list string :=
  match githubPRs with
  | [] => []
  | pr :: rest =>
      if negb (is_empty (Github.JiraTicket pr)) then
        Github.JiraTicket pr :: collect_ticket_ids rest
      else collect_ticket_ids rest
  end.

(** "Build GitHub username to Slack user ID mapping" *)
Fixpoint parse_user_mapping (pairs : list string)
    (githubToSlackMap : gmap string string) : gmap string string :=
  match pairs with
  | [] => githubToSlackMap
  | pair_ :: rest =>
      match Split (TrimSpace pair_) ":" with
      | [p0; p1] =>
          let slackUserID := TrimSpace p0 in
          let githubUser := TrimSpace p1 in
          parse_user_mapping rest (<[githubUser := slackUserID]> githubToSlackMap)
      | _ => parse_user_mapping rest githubToSlackMap
      end
  end.

(** "Convert GitHub PR results to Slack PR format": one element.
    [jiraInfo] is [None] for the [nil] map. *)
Definition to_slack_pr (jiraInfo : option (gmap string Jira.TicketInfo))
    (githubToSlackMap : gmap string string) (pr : Github.PRResult)
  : Slack.PRInfo :=
  let ticket :=
    if negb (is_empty (Github.JiraTicket pr)) then
      jiraInfo ≫= (fun m => m !! Github.JiraTicket pr)
    else None in
  let jiraStatus := from_option Jira.Status "" ticket in
  let jiraDescription := from_option Jira.Summary (Github.Title pr) ticket in
  let isBlocked := from_option Jira.IsBlocked false ticket in
  let assignee :=
    if negb (is_empty (Github.Assignee pr)) then
      Slack.MapGitHubUserToMention githubToSlackMap (Github.Assignee pr)
    else Github.Assignee pr in
  {| Slack.Number := Github.Number pr;
     Slack.Title := Github.Title pr;
     Slack.Assignee := assignee;
     Slack.JiraTicket := Github.JiraTicket pr;
     Slack.JiraStatus := jiraStatus;
     Slack.Description := jiraDescription;
     Slack.IsDraft := Github.IsDraft pr;
     Slack.IsBlocked := isBlocked |}.

Definition is_true (v : string) : bool := String.eqb (ToLower v) "true".

(** "Fetch JIRA information if we have tickets" *)
Definition fetch_jira_info (tr : Jira.Tracker) (jiraOpts : Jira.FetchOptions)
    (jiraTicketIDs : list string)
  : prog (option (gmap string Jira.TicketInfo)) :=
  match jiraTicketIDs with
  | [] => mret None
  | _ =>
      _ ← log ("Fetching JIRA info for "
               +:+ Itoa (Z.of_nat (length jiraTicketIDs)) +:+ " tickets");
      let p := Jira.FetchTicketsInfo tr jiraOpts jiraTicketIDs in
      match outcome p with
      | Ok jiraInfo => Prog (trace p) (Ok (Some jiraInfo))
      | Err e =>
          Prog (trace p ++ [LogLine ("Warning: Error fetching JIRA info: " +:+ e)])
               (Ok (Some ∅))
      | Panic => Prog (trace p) Panic
      end
  end.

(** The report of one run: from the fetched PRs to the PRs handed to
    [SendPRReport]. *)
Definition enrich (tr : Jira.Tracker) (env : Env)
    (githubPRs : list Github.PRResult) : prog (list Slack.PRInfo) :=
  let jiraOpts :=
    {| Jira.URL := Getenv env "JIRA_URL";
       Jira.Username := Getenv env "JIRA_USERNAME";
       Jira.APIToken := Getenv env "JIRA_API_TOKEN";
       Jira.UsePAT := is_true (Getenv env "JIRA_USE_PAT");
       Jira.DebugMode := is_true (Getenv env "DEBUG") |} in
  jiraInfo ← fetch_jira_info tr jiraOpts (collect_ticket_ids githubPRs);
  let usersStr := Getenv env "USER_MAPPING" in
  let githubToSlackMap :=
    if negb (is_empty usersStr) then parse_user_mapping (Split usersStr ",") ∅
    else ∅ in
  mret (map (to_slack_pr jiraInfo githubToSlackMap) githubPRs).

(** [main].  The fields [ShowAssignee] and [UseCheckmark] that the source
    sets in [slackOpts] have no counterpart in [Slack.MessageOptions] and
    are left out. *)
Definition main (host : Github.Host) (tr : Jira.Tracker) (api : Slack.API)
    (currentDate : string) (env : Env) : prog unit :=
  _ ← (if dotenv_error env then
         log "Warning: .env file not found or could not be loaded. Using system environment variables."
       else mret tt);
  _ ← log "Starting Middletier PR Report...";
  let debugMode := is_true (Getenv env "DEBUG") in
  let customLabels := Getenv env "MIDDLETIER_LABELS" in
  let labels :=
    if negb (is_empty customLabels) then parse_labels (Split customLabels ",")
    else [] in
  let owner := Getenv env "GITHUB_OWNER" in
  let repo := "fips-poker-web-mt" in
  let token := Getenv env "GITHUB_TOKEN" in
  _ ← (match labels with
       | [] => log ("Fetching all PRs from " +:+ owner +:+ "/" +:+ repo
                    +:+ " (no label filter)")
       | _ => log ("Fetching PRs from " +:+ owner +:+ "/" +:+ repo
                   +:+ " with labels: [" +:+ Join labels " " +:+ "]")
       end);
  let githubOpts :=
    {| Github.Token := token; Github.Owner := owner; Github.Repo := repo;
       Github.Labels := labels; Github.AllowedUsers := [];
       Github.DebugMode := debugMode |} in
  githubPRs ← match Github.FetchPRs host githubOpts with
              | Ok prs => mret prs
              | Err e => fatal ("Error fetching PRs from " +:+ owner +:+ "/"
                                +:+ repo +:+ ": " +:+ e)
              | Panic => lift Panic
              end;
  _ ← log ("Fetched " +:+ Itoa (Z.of_nat (length githubPRs)) +:+ " PRs from "
           +:+ owner +:+ "/" +:+ repo);
  slackPRs ← enrich tr env githubPRs;
  let channel :=
    if is_empty (Getenv env "MIDDLETIER_SLACK_CHANNEL") then
      Getenv env "SLACK_CHANNEL"
    else Getenv env "MIDDLETIER_SLACK_CHANNEL" in
  let slackOpts :=
    {| Slack.Token := Getenv env "SLACK_TOKEN";
       Slack.Channel := channel;
       Slack.GithubOwner := owner;
       Slack.GithubRepo := repo;
       Slack.JiraURL := Getenv env "JIRA_URL";
       Slack.TeamGroup := Getenv env "MIDDLETIER_TEAM_GROUP";
       Slack.MentionUsers := Getenv env "MIDDLETIER_MENTION_USERS";
       Slack.ReportTitle := "Middletier Report";
       Slack.DebugMode := debugMode |} in
  _ ← log ("Sending Middletier report to Slack channel: " +:+ channel);
  let p := Slack.SendPRReport api currentDate slackOpts slackPRs in
  match outcome p with
  | Ok _ =>
      Prog (trace p
            ++ [LogLine "Middletier PR report sent to Slack successfully!"])
           (Ok tt)
  | Err e =>
      Prog (trace p ++ [LogLine ("Error sending message to Slack: " +:+ e)])
           (Err ("Error sending message to Slack: " +:+ e))
  | Panic => Prog (trace p) Panic
  end.

End Middletier.

(** ** The single-file program (package [main]) *)

Module Main.
Import Strings.

(** Configuration struct to hold all app settings *)
Record Config : Type := {
  GithubToken : string;
  GithubOwner : string;
  GithubRepo : string;
  DebugMode : bool;
  JiraURL : string;
  JiraUsername : string;
  JiraAPIToken : string;
  SlackToken : string;
  SlackChannel : string;
  TeamGroup : string;
  UserMapping : gmap string string
}.

(** PullRequestInfo holds the formatted information about a PR *)
Record PullRequestInfo : Type := {
  Number : Z;
  Title : string;
  URL : string;
  Assignee : string;
  JiraTicket : string;
  JiraStatus : string;
  JiraStatusID : string;
  Description : string;
  IsDraft : bool;
  IsBlocked : bool
}.

#[global] Instance PullRequestInfo_eq_dec : EqDecision PullRequestInfo.
Proof. solve_decision. Defined.

(** The three remote services and the clock of one run. *)
Record World : Type := {
  github : Github.Host;
  jira : Jira.Tracker;
  slack : Slack.API;
  (** [time.Now().Format("2006-01-02")] *)
  currentDate : string
}.

(** The error of a callee, wrapped by [fmt.Errorf(prefix + "%v", err)]. *)
Definition wrap {A} (prefix : string) (r : result A) : result A :=
  match r with
  | Err e => Err (prefix +:+ e)
  | _ => r
  end.

(** *** GetSlackChannelUsers *)

(** "Look for our channel in this type": the channel ID that the inner loop
    leaves, [""] when no conversation has the name. *)
Fixpoint find_channel (conversations : list Slack.Conversation)
    (channelName : string) : string :=
  match conversations with
  | [] => ""
  | conv :: rest =>
      if String.eqb (Slack.ConvName conv) channelName then Slack.ConvID conv
      else find_channel rest channelName
  end.

Fixpoint search_types (api : Slack.API) (token : string)
    (conversationTypes : list string) (channelName : string) : result string :=
  match conversationTypes with
  | [] => mret ""
  | convType :: rest =>
      match Slack.GetConversations api token [convType] with
      | Err _ => search_types api token rest channelName
      | Panic => Panic
      | Ok conversations =>
          let channelID := find_channel conversations channelName in
          if negb (is_empty channelID) then mret channelID
          else search_types api token rest channelName
      end
  end.

(** "Get user info for each member to get their usernames and IDs" *)
Fixpoint members_loop (api : Slack.API) (config : Config)
    (members : list string) (allowedUsers : list string)
    (slackUserMap : gmap string string)
  : result (list string * gmap string string) :=
  match members with
  | [] => mret (allowedUsers, slackUserMap)
  | memberID :: rest =>
      match Slack.GetUserInfo api (SlackToken config) memberID with
      | Err _ => members_loop api config rest allowedUsers slackUserMap
      | Panic => Panic
      | Ok user =>
          if Slack.IsBot user || Slack.Deleted user then
            members_loop api config rest allowedUsers slackUserMap
          else
            let slackUserMap :=
              <[Slack.UserName user := Slack.UserID user]> slackUserMap in
            let githubUser :=
              default (Slack.UserName user)
                      (UserMapping config !! Slack.UserName user) in
            members_loop api config rest (allowedUsers ++ [githubUser])
              slackUserMap
      end
  end.

(** GetSlackChannelUsers fetches the list of users from the specified Slack
    channel *)
Definition GetSlackChannelUsers (api : Slack.API) (config : Config)
  : result (list string * gmap string string) :=
  _ ← (if DebugMode config then
         match Slack.AuthTest api (SlackToken config) with
         | Some e => Err ("Slack authentication failed: " +:+ e)
         | None => mret tt
         end
       else mret tt);
  let channelName := TrimPrefix (SlackChannel config) "#" in
  channelID ← search_types api (SlackToken config)
                ["public_channel"; "private_channel"] channelName;
  channelID ←
    (if is_empty channelID then
       conversations ←
         wrap "error fetching conversations - ensure your bot has 'channels:read' and 'groups:read' scopes: "
              (Slack.GetConversations api (SlackToken config) []);
       mret (find_channel conversations channelName)
     else mret channelID);
  if is_empty channelID then
    Err ("channel #" +:+ channelName +:+ " not found. Make sure the bot is added to the channel and has proper permissions (channels:read, groups:read)")
  else
    members ←
      wrap "error fetching channel members - ensure your bot has 'channels:read' and 'groups:read' scopes: "
           (Slack.GetUsersInConversation api (SlackToken config) channelID);
    members_loop api config members [] ∅.

(** *** FetchPullRequests *)

(** "Check for "Poker" label (case insensitive)" *)
Fixpoint hasPokerLabel (labels : list Github.Label) : bool :=
  match labels with
  | [] => false
  | label :: rest =>
      match Github.Name label with
      | Some name =>
          if EqualFold name "Poker" then true else hasPokerLabel rest
      | None => hasPokerLabel rest
      end
  end.

(** "Get assignee and convert to proper Slack mention format" *)
Definition assignee_of (githubToSlackMap slackUserMap : gmap string string)
    (pr : Github.PullRequest) : string :=
  match Github.login_of (Github.pr_Assignee pr) with
  | Some githubUsername =>
      match githubToSlackMap !! githubUsername with
      | Some slackUsername =>
          match slackUserMap !! slackUsername with
          | Some userID => "<@" +:+ userID +:+ ">"
          | None => "@" +:+ slackUsername
          end
      | None =>
          match slackUserMap !! githubUsername with
          | Some userID => "<@" +:+ userID +:+ ">"
          | None => "@" +:+ githubUsername
          end
      end
  | None => "unassigned"
  end.

Definition jiraRegex : string := "SCRUM-".

(** One iteration of [for _, pr := range allPRs]: [None] is [continue]. *)
Definition examine (config : Config) (allowedUsers : list string)
    (githubToSlackMap slackUserMap : gmap string string)
    (pr : Github.PullRequest) : result (option PullRequestInfo) :=
  _ ← (if DebugMode config then Github.debug_pr_info pr else mret tt);
  match Github.login_of (Github.pr_User pr) with
  | None => mret None
  | Some login =>
      if negb (Github.userFound allowedUsers login) then mret None
      else if negb (hasPokerLabel (Github.pr_Labels pr)) then mret None
      else
        let jiraTicket :=
          Github.extract_ticket jiraRegex (Github.pr_Title pr) in
        let assignee := assignee_of githubToSlackMap slackUserMap pr in
        number ← deref (Github.pr_Number pr);
        title ← deref (Github.pr_Title pr);
        url ← deref (Github.pr_HTMLURL pr);
        draft ← deref (Github.pr_Draft pr);
        mret (Some {| Number := number; Title := title; URL := url;
                      Assignee := assignee; JiraTicket := jiraTicket;
                      JiraStatus := ""; JiraStatusID := "";
                      Description := ""; IsDraft := draft;
                      IsBlocked := false |})
  end.

Fixpoint filter_loop (config : Config) (allowedUsers : list string)
    (githubToSlackMap slackUserMap : gmap string string)
    (allPRs : list Github.PullRequest) (filteredPRs : list PullRequestInfo)
  : result (list PullRequestInfo) :=
  match allPRs with
  | [] => mret filteredPRs
  | pr :: rest =>
      r ← examine config allowedUsers githubToSlackMap slackUserMap pr;
      match r with
      | Some prInfo =>
          filter_loop config allowedUsers githubToSlackMap slackUserMap rest
            (filteredPRs ++ [prInfo])
      | None =>
          filter_loop config allowedUsers githubToSlackMap slackUserMap rest
            filteredPRs
      end
  end.

(** "Create reverse mapping: GitHub username -> Slack username".  Go ranges
    over the map in an unspecified order; the fold fixes one. *)
Definition reverse_mapping (userMapping : gmap string string)
  : gmap string string :=
  map_fold (fun slackUser githubUser githubToSlackMap =>
              <[githubUser := slackUser]> githubToSlackMap) ∅ userMapping.

(** FetchPullRequests fetches PRs from GitHub that match our criteria *)
Definition FetchPullRequests (w : World) (config : Config)
  : prog (list PullRequestInfo) :=
  '(allowedUsers, slackUserMap) ←
      lift (wrap "error getting Slack channel users: "
                 (GetSlackChannelUsers (slack w) config));
  match allowedUsers with
  | [] =>
      _ ← log "Warning: No users found in Slack channel, no PRs will be included";
      mret []
  | _ =>
      let githubToSlackMap := reverse_mapping (UserMapping config) in
      lift (
        _ ← (if DebugMode config then
               Github.verify_authentication (github w) (GithubToken config)
             else mret tt);
        let opts := {| Github.Page := 0; Github.PerPage := 100 |} in
        allPRs ← wrap "error fetching PRs: "
                   (Github.PullRequestsList (github w) (GithubToken config)
                      (GithubOwner config) (GithubRepo config) opts);
        filter_loop config allowedUsers githubToSlackMap slackUserMap
          allPRs [])
  end.

(** *** UpdateJiraInfo *)

Definition set_jira (pr : PullRequestInfo) (jiraStatus description : string)
    (isBlocked : bool) : PullRequestInfo :=
  {| Number := Number pr; Title := Title pr; URL := URL pr;
     Assignee := Assignee pr; JiraTicket := JiraTicket pr;
     JiraStatus := jiraStatus; JiraStatusID := JiraStatusID pr;
     Description := description; IsDraft := IsDraft pr;
     IsBlocked := isBlocked |}.

Definition blocked_by_status (st : option Jira.IssueStatus) (isBlocked : bool)
  : bool :=
  match st with
  | Some s =>
      if negb (is_empty (Jira.Name s)) then
        if Jira.is_blocking_text (ToLower (Jira.Name s)) then true
        else isBlocked
      else isBlocked
  | None => isBlocked
  end.

Fixpoint blocked_by_labels (labels : list string) (isBlocked : bool) : bool :=
  match labels with
  | [] => isBlocked
  | label :: rest =>
      if Jira.is_blocking_text (ToLower label) then true
      else blocked_by_labels rest isBlocked
  end.

(** The assignments to [pr] after a successful [Issue.Get]. *)
Definition apply_issue (iss : option Jira.Issue) (pr : PullRequestInfo)
  : PullRequestInfo :=
  match iss ≫= Jira.Fields with
  | Some fields =>
      let status :=
        match Jira.FieldStatus fields with
        | Some s =>
            if negb (is_empty (Jira.Name s)) then Jira.Name s else "No Status"
        | None => "No Status"
        end in
      let description :=
        if negb (is_empty (Jira.FieldSummary fields)) then
          Jira.FieldSummary fields
        else "No Description" in
      let isBlocked :=
        blocked_by_status (Jira.FieldStatus fields) (IsBlocked pr) in
      let isBlocked := blocked_by_labels (Jira.FieldLabels fields) isBlocked in
      set_jira pr status description isBlocked
  | None => set_jira pr "No Data" (Description pr) (IsBlocked pr)
  end.

(** One iteration of the loop of [UpdateJiraInfo]: the PR as the loop
    leaves it. *)
Definition update_pr (tr : Jira.Tracker) (jiraClient : Jira.Client)
    (pr : PullRequestInfo) : prog PullRequestInfo :=
  if is_empty (JiraTicket pr) then mret pr
  else
    let reply := Jira.IssueGet tr jiraClient (JiraTicket pr) in
    match Jira.err reply with
    | Some e =>
        if Jira.not_found (Jira.resp reply) then
          _ ← log ("Warning: JIRA ticket " +:+ JiraTicket pr
                   +:+ " not found (PR #" +:+ Itoa (Number pr) +:+ ")");
          mret (set_jira pr "Not Found" (Description pr) (IsBlocked pr))
        else
          _ ← log ("Error fetching JIRA ticket " +:+ JiraTicket pr
                   +:+ ": " +:+ e);
          mret (set_jira pr "Error" (Description pr) (IsBlocked pr))
    | None => mret (apply_issue (Jira.issue reply) pr)
    end.

Fixpoint update_loop (tr : Jira.Tracker) (jiraClient : Jira.Client)
    (prs : list PullRequestInfo) : prog (list PullRequestInfo) :=
  match prs with
  | [] => mret []
  | pr :: rest =>
      pr' ← update_pr tr jiraClient pr;
      rest' ← update_loop tr jiraClient rest;
      mret (pr' :: rest')
  end.

Fixpoint hasJiraTickets (prs : list PullRequestInfo) : bool :=
  match prs with
  | [] => false
  | pr :: rest =>
      if negb (is_empty (JiraTicket pr)) then true else hasJiraTickets rest
  end.

(** UpdateJiraInfo updates the PR info with JIRA ticket status.  The
    function writes through the pointers of [prs]; the value here is the PR
    list as the call leaves it.  The Go function returns [nil] on every
    path. *)
Definition UpdateJiraInfo (tr : Jira.Tracker) (config : Config)
    (prs : list PullRequestInfo) : prog (list PullRequestInfo) :=
  if negb (hasJiraTickets prs) then mret prs
  else if is_empty (JiraUsername config) || is_empty (JiraAPIToken config)
          || is_empty (JiraURL config) then
    _ ← log "Warning: JIRA credentials not fully configured, JIRA status will show as 'Unknown'";
    mret prs
  else
    match Jira.NewClient tr (JiraURL config) with
    | Some e =>
        _ ← log ("Error creating JIRA client: " +:+ e);
        mret prs
    | None =>
        let jiraClient :=
          {| Jira.transport :=
               Jira.BasicAuthTransport (JiraUsername config)
                                       (JiraAPIToken config);
             Jira.baseURL := JiraURL config |} in
        if DebugMode config && bool_decide (is_Some (Jira.GetSelf tr jiraClient))
        then mret prs
        else update_loop tr jiraClient prs
    end.

(** *** SendSlackMessage *)

Definition track (config : Config) (pr : PullRequestInfo)
    (acc : Slack.Summary) : Slack.Summary :=
  let link :=
    Slack.pr_link (GithubOwner config) (GithubRepo config) (Number pr) in
  if IsBlocked pr && IsDraft pr then
    {| Slack.lines := Slack.lines acc;
       Slack.blockedPRs := Slack.blockedPRs acc ++ [link +:+ " (Blocked & Draft)"];
       Slack.draftPRs := Slack.draftPRs acc |}
  else if IsBlocked pr then
    {| Slack.lines := Slack.lines acc;
       Slack.blockedPRs := Slack.blockedPRs acc ++ [link];
       Slack.draftPRs := Slack.draftPRs acc |}
  else if IsDraft pr then
    {| Slack.lines := Slack.lines acc;
       Slack.blockedPRs := Slack.blockedPRs acc;
       Slack.draftPRs := Slack.draftPRs acc ++ [link] |}
  else acc.

(** "Format the PR line without blocked/draft status" *)
Definition prLine (config : Config) (i : nat) (pr : PullRequestInfo) : string :=
  let statusPart :=
    if is_empty (JiraStatus pr) then "Unknown" else JiraStatus pr in
  Itoa (Z.of_nat i + 1) +:+ ". *"
    +:+ Slack.pr_link (GithubOwner config) (GithubRepo config) (Number pr)
    +:+ "* assigned to " +:+ Assignee pr
    +:+ " | Jira: <" +:+ (JiraURL config +:+ "/browse/" +:+ JiraTicket pr)
    +:+ "|" +:+ JiraTicket pr +:+ ">"
    +:+ " | " +:+ Description pr
    +:+ " | *" +:+ statusPart +:+ "*".

Fixpoint pr_loop (config : Config) (i : nat) (prs : list PullRequestInfo)
    (acc : Slack.Summary) : Slack.Summary :=
  match prs with
  | [] => acc
  | pr :: rest =>
      let acc := track config pr acc in
      let acc := {| Slack.lines := Slack.lines acc ++ [prLine config i pr];
                    Slack.blockedPRs := Slack.blockedPRs acc;
                    Slack.draftPRs := Slack.draftPRs acc |} in
      pr_loop config (S i) rest acc
  end.

Definition blocked_line (blockedPRs : list string) : string :=
  "üö´ *Blocked:* " +:+ Join blockedPRs ", ".
Definition draft_line (draftPRs : list string) : string :=
  "üìù *Draft:* " +:+ Join draftPRs ", ".
Definition na_line : string := "‚úÖ *Blocked/Draft:* N/A".

Definition summary_lines (blockedPRs draftPRs : list string) : list string :=
  if Nat.ltb 0 (length blockedPRs) || Nat.ltb 0 (length draftPRs) then
    (if Nat.ltb 0 (length blockedPRs) then [blocked_line blockedPRs] else [])
    ++ (if Nat.ltb 0 (length draftPRs) then [draft_line draftPRs] else [])
  else [na_line].

Definition report_lines (date : string) (config : Config)
    (prs : list PullRequestInfo) : list string :=
  let dateText := Slack.date_line date in
  let totalText :=
    ":bar_chart: *Total Open PRs: " +:+ Itoa (Z.of_nat (length prs)) +:+ "*" in
  let acc := pr_loop config 0 prs
               {| Slack.lines := [dateText; ""; totalText; ""];
                  Slack.blockedPRs := []; Slack.draftPRs := [] |} in
  (Slack.lines acc ++ [""])
    ++ summary_lines (Slack.blockedPRs acc) (Slack.draftPRs acc)
    ++ [""; Slack.team_line (TeamGroup config)].

Definition message (date : string) (config : Config)
    (prs : list PullRequestInfo) : string :=
  Join (report_lines date config prs) newline.

(** SendSlackMessage formats and sends a message to Slack *)
Definition SendSlackMessage (w : World) (config : Config)
    (prs : list PullRequestInfo) : prog unit :=
  let text := message (currentDate w) config prs in
  Prog [SlackPost (SlackChannel config) text]
    (match Slack.PostMessage (slack w) (SlackToken config)
             (SlackChannel config) text with
     | Some e => Err e
     | None => Ok tt
     end).

(** *** RunReport *)

Definition wrap_prog {A} (prefix : string) (p : prog A) : prog A :=
  Prog (trace p) (wrap prefix (outcome p)).

(** RunReport executes the main report generation and sending *)
Definition RunReport (w : World) (config : Config) : prog unit :=
  _ ← log "Starting PR report generation...";
  prs ← wrap_prog "error fetching pull requests: " (FetchPullRequests w config);
  _ ← log ("Found " +:+ Itoa (Z.of_nat (length prs)) +:+ " PRs matching criteria");
  prs ← UpdateJiraInfo (jira w) config prs;
  _ ← wrap_prog "error sending Slack message: " (SendSlackMessage w config prs);
  log "PR report sent successfully!".

End Main.

(** * Specification vocabulary and sample inputs *)

(** ** Ticket enrichment *)

Module JiraSpec.
Import Strings Jira.

(** The fixed vocabulary of the blocked flag. *)
Definition vocabulary : list string := ["block"; "impediment"; "pause"].

(** [text] contains, case-insensitively, a word of the vocabulary. *)
Definition mentions (text : string) : Prop :=
  ∃ w, w ∈ vocabulary ∧ Contains (ToLower text) w = true.

Definition status_name (fields : IssueFields) : string :=
  from_option Name "" (FieldStatus fields).

Definition initial_info (ticketID : string) (fields : IssueFields)
  : TicketInfo :=
  {| TicketID := ticketID;
     Status := if is_empty (status_name fields) then "No Status"
               else status_name fields;
     Summary := if is_empty (FieldSummary fields) then "No Description"
                else FieldSummary fields;
     IsBlocked := false |}.

(** The entry that the batch stores for a ticket: the info of the lookup,
    or the info that stands for its error. *)
Definition expected_info (tr : Tracker) (opts : FetchOptions)
    (ticketID : string) : TicketInfo :=
  match FetchTicketInfo tr opts ticketID with
  | Ok ticketInfo => ticketInfo
  | Err e => error_info ticketID e
  | Panic => error_info ticketID ""
  end.

(** A tracker with three tickets: one unknown to it, one it fails on with
    a server error, one blocked by a label. *)
Definition sample_reply (ticketID : string) : GetReply :=
  if String.eqb ticketID "POKER-1" then
    {| issue := None; resp := Some {| StatusCode := 404 |};
       err := Some "Issue Does Not Exist" |}
  else if String.eqb ticketID "POKER-2" then
    {| issue := None; resp := Some {| StatusCode := 500 |};
       err := Some "Internal Server Error" |}
  else
    {| issue := Some {| Fields := Some
         {| FieldStatus := Some {| Name := "In Review" |};
            FieldSummary := "Fix login";
            FieldLabels := ["backend"; "Blocked-by-QA"] |} |};
       resp := Some {| StatusCode := 200 |};
       err := None |}.

Definition sample_tracker : Tracker :=
  {| NewClient := fun _ => None;
     GetSelf := fun _ => None;
     IssueGet := fun _ ticketID => sample_reply ticketID |}.

Definition sample_opts : FetchOptions :=
  {| URL := "https://jira.example.com"; Username := "bot";
     APIToken := "secret"; UsePAT := false; DebugMode := false |}.

Definition sample_client : Client :=
  {| transport := BasicAuthTransport "bot" "secret";
     baseURL := "https://jira.example.com" |}.

End JiraSpec.

(** ** Ticket identifiers in titles *)

Module ExtractSpec.
Import Strings.

Fixpoint digits (s : string) : bool :=
  match s with
  | EmptyString => true
  | String c r => is_digit c && digits r
  end.

(** [m] matches the pattern [literal\d+]. *)
Definition is_match (literal m : string) : Prop :=
  ∃ ds, m = literal +:+ ds ∧ ds ≠ "" ∧ digits ds = true.

(** [m] is the substring of [t] that starts at byte [n]. *)
Definition occurs_at (m t : string) (n : nat) : Prop :=
  ∃ pre post, t = pre +:+ m +:+ post ∧ String.length pre = n.

Definition no_match (literal t : string) : Prop :=
  ∀ m n, is_match literal m → ¬ occurs_at m t n.

(** [m] is the first match in [t]: no match starts before it, and no match
    that starts with it is longer. *)
Definition first_match (literal t m : string) : Prop :=
  is_match literal m ∧
  ∃ n, occurs_at m t n ∧
    (∀ m' n', is_match literal m' → occurs_at m' t n' → (n ≤ n')%nat) ∧
    (∀ m', is_match literal m' → occurs_at m' t n →
           (String.length m' ≤ String.length m)%nat).

End ExtractSpec.

(** ** PR collection *)

Module CollectorSpec.
Import Strings Github.

(** The author condition in the words of the specification: the PR has an
    author, and the allow-list is empty or the author equals, ignoring
    case, some entry that is not blank. *)
Definition stated_author_ok (opts : FetchOptions) (pr : PullRequest) : Prop :=
  ∃ login, login_of (pr_User pr) = Some login ∧
    (AllowedUsers opts = [] ∨
     ∃ entry, entry ∈ AllowedUsers opts ∧ TrimSpace entry ≠ "" ∧
              EqualFold entry login = true).

(** The author condition of the code: the entry is compared after its
    surrounding white space is trimmed. *)
Definition author_ok (opts : FetchOptions) (pr : PullRequest) : Prop :=
  ∃ login, login_of (pr_User pr) = Some login ∧
    (AllowedUsers opts = [] ∨
     ∃ entry, entry ∈ AllowedUsers opts ∧ TrimSpace entry ≠ "" ∧
              EqualFold (TrimSpace entry) login = true).

(** The label condition: the filter is empty, or a label of the PR
    contains, ignoring case, a term of the filter. *)
Definition label_ok (opts : FetchOptions) (pr : PullRequest) : Prop :=
  Labels opts = [] ∨
  ∃ label name term,
    label ∈ pr_Labels pr ∧ Name label = Some name ∧ term ∈ Labels opts ∧
    Contains (ToLower name) (ToLower term) = true.

Definition stated_condition (opts : FetchOptions) (pr : PullRequest) : Prop :=
  stated_author_ok opts pr ∧ label_ok opts pr.

Definition condition (opts : FetchOptions) (pr : PullRequest) : Prop :=
  author_ok opts pr ∧ label_ok opts pr.

(** The decision of the loop body of [FetchPRs]: [true] when the body
    reaches "Extract JIRA ticket". *)
Definition passes (opts : FetchOptions) (pr : PullRequest) : bool :=
  match login_of (pr_User pr) with
  | None => false
  | Some login =>
      (match AllowedUsers opts with
       | [] => true
       | _ => userFound (AllowedUsers opts) login
       end) &&
      (match Labels opts with
       | [] => true
       | _ => hasMatchingLabel (pr_Labels pr) (Labels opts)
       end)
  end.

(** [kept] holds, in order, the elements of the list that satisfy [P] and
    no other. *)
Inductive selected {A} (P : A → Prop) : list A → list A → Prop :=
| selected_nil : selected P [] []
| selected_keep x l kept :
    P x → selected P l kept → selected P (x :: l) (x :: kept)
| selected_skip x l kept :
    ¬ P x → selected P l kept → selected P (x :: l) kept.

(** The pointer fields that the loop body dereferences are set; under
    [DebugMode] the body also dereferences the author and the label
    names. *)
Definition complete (debug : bool) (pr : PullRequest) : Prop :=
  is_Some (pr_Number pr) ∧ is_Some (pr_Title pr) ∧
  is_Some (pr_HTMLURL pr) ∧ is_Some (pr_Draft pr) ∧
  (debug = true →
   is_Some (login_of (pr_User pr)) ∧
   Forall (λ label, is_Some (Name label)) (pr_Labels pr)).

(** [r] is the [PRResult] built from [pr]. *)
Definition represents (pr : PullRequest) (r : PRResult) : Prop :=
  pr_Number pr = Some (Number r) ∧
  pr_Title pr = Some (Title r) ∧
  pr_HTMLURL pr = Some (URL r) ∧
  pr_Draft pr = Some (IsDraft r) ∧
  login_of (pr_User pr) = Some (Author r) ∧
  Assignee r = default "" (login_of (pr_Assignee pr)) ∧
  PRLabels r = label_names (pr_Labels pr) ∧
  JiraTicket r = extract_ticket jiraRegex (pr_Title pr).

Definition first_page : ListOptions := {| Page := 0; PerPage := 100 |}.

(** *** Sample inputs *)

Definition open_pr (number : Z) (title login : string)
    (labels : list string) : PullRequest :=
  {| pr_Number := Some number;
     pr_Title := Some title;
     pr_HTMLURL := Some ("https://github.com/acme/app/pull/" +:+ Itoa number);
     pr_Draft := Some false;
     pr_User := Some {| Login := Some login |};
     pr_Assignee := None;
     pr_Labels := map (λ name, {| Name := Some name |}) labels |}.

Definition host_of (open_pulls : list PullRequest) : Host :=
  {| UsersGet := fun _ => Ok {| Login := Some "reporter-bot" |};
     OpenPulls := fun _ _ _ => Ok open_pulls |}.

Definition sample_pr : PullRequest :=
  open_pr 7 "Fix login bug POKER-42" "alice" ["poker"; "bug"].

Definition sample_opts : FetchOptions :=
  {| Token := "ghp_token"; Owner := "acme"; Repo := "app";
     Labels := ["poker"]; AllowedUsers := []; DebugMode := false |}.

(** An allow-list whose one entry has a leading blank. *)
Definition padded_opts : FetchOptions :=
  {| Token := "ghp_token"; Owner := "acme"; Repo := "app";
     Labels := []; AllowedUsers := [" alice"]; DebugMode := false |}.

Definition plain_opts : FetchOptions :=
  {| Token := "ghp_token"; Owner := "acme"; Repo := "app";
     Labels := []; AllowedUsers := []; DebugMode := false |}.

(** A repository with 101 open pull requests, numbered 1 to 101. *)
Definition crowded : list PullRequest :=
  map (λ n, open_pr (Z.of_nat n) "Work in progress" "alice" ["Poker"])
      (seq 1 101).

Definition last_of_crowded : PullRequest :=
  open_pr 101 "Work in progress" "alice" ["Poker"].

End CollectorSpec.

(** ** Report rendering *)

Module ReportSpec.
Import Strings Slack.

Definition link_of (opts : MessageOptions) (pr : PRInfo) : string :=
  pr_link (GithubOwner opts) (GithubRepo opts) (Number pr).

(** The entry of a blocked PR in the blocked-items summary. *)
Definition blocked_entry (opts : MessageOptions) (pr : PRInfo) : string :=
  if IsDraft pr then link_of opts pr +:+ " (Blocked & Draft)"
  else link_of opts pr.

(** The PRs listed in the blocked-items summary. *)
Definition blocked_of (prs : list PRInfo) : list PRInfo :=
  List.filter IsBlocked prs.

(** The PRs listed in the draft-items summary. *)
Definition draft_of (prs : list PRInfo) : list PRInfo :=
  List.filter (λ pr, IsDraft pr && negb (IsBlocked pr)) prs.

Fixpoint pr_lines (opts : MessageOptions) (i : nat) (prs : list PRInfo)
  : list string :=
  match prs with
  | [] => []
  | pr :: rest => prLine opts i pr :: pr_lines opts (S i) rest
  end.

Definition total_line (prs : list PRInfo) : string :=
  ":bar_chart: *Total Open PRs: " +:+ Itoa (Z.of_nat (length prs)) +:+ "*".

(** The lines before and after the date line. *)
Definition before_date (opts : MessageOptions) : list string :=
  if is_empty (ReportTitle opts) then []
  else [title_line (ReportTitle opts); ""].

Definition footer (opts : MessageOptions) (prs : list PRInfo) : list string :=
  summary_lines (map (blocked_entry opts) (blocked_of prs))
                (map (link_of opts) (draft_of prs))
  ++ mention_lines opts.

(** The closing line for an explicit list of chat user IDs, if the list
    names any. *)
Definition explicit_mention (mentionUsers : string) : list string :=
  match mentions_of (Split mentionUsers ",") with
  | [] => []
  | mentions => [Join mentions " " +:+ review_request]
  end.

Definition after_date (opts : MessageOptions) (prs : list PRInfo)
  : list string :=
  [""; total_line prs; ""] ++ pr_lines opts 0 prs ++ [""] ++ footer opts prs.

(** *** Sample inputs *)

Definition sample_pr (number : Z) (draft blocked : bool) : PRInfo :=
  {| Number := number; Title := "Fix login bug POKER-42";
     Assignee := "@alice"; JiraTicket := "POKER-42";
     JiraStatus := "In Review"; Description := "Fix login";
     IsDraft := draft; IsBlocked := blocked |}.

Definition sample_opts (teamGroup mentionUsers : string) : MessageOptions :=
  {| Token := "xoxb-token"; Channel := "#reviews"; GithubOwner := "acme";
     GithubRepo := "app"; JiraURL := "https://jira.example.com";
     TeamGroup := teamGroup; MentionUsers := mentionUsers;
     ReportTitle := ""; DebugMode := false |}.

End ReportSpec.

(** ** The single-file program *)

Module MainSpec.
Import Strings Main.

Definition link_of (config : Config) (pr : PullRequestInfo) : string :=
  Slack.pr_link (GithubOwner config) (GithubRepo config) (Number pr).

Definition blocked_entry (config : Config) (pr : PullRequestInfo) : string :=
  if IsDraft pr then link_of config pr +:+ " (Blocked & Draft)"
  else link_of config pr.

Definition blocked_of (prs : list PullRequestInfo) : list PullRequestInfo :=
  List.filter IsBlocked prs.

Definition draft_of (prs : list PullRequestInfo) : list PullRequestInfo :=
  List.filter (λ pr, IsDraft pr && negb (IsBlocked pr)) prs.

Fixpoint pr_lines (config : Config) (i : nat) (prs : list PullRequestInfo)
  : list string :=
  match prs with
  | [] => []
  | pr :: rest => prLine config i pr :: pr_lines config (S i) rest
  end.

Definition total_line (prs : list PullRequestInfo) : string :=
  ":bar_chart: *Total Open PRs: " +:+ Itoa (Z.of_nat (length prs)) +:+ "*".

Definition footer (config : Config) (prs : list PullRequestInfo)
  : list string :=
  summary_lines (map (blocked_entry config) (blocked_of prs))
                (map (link_of config) (draft_of prs))
  ++ [""; Slack.team_line (TeamGroup config)].

Definition after_date (config : Config) (prs : list PullRequestInfo)
  : list string :=
  [""; total_line prs; ""] ++ pr_lines config 0 prs ++ [""]
    ++ footer config prs.

(** The messages posted to the chat service, in order. *)
Fixpoint published (events : list Event) : list (string * string) :=
  match events with
  | [] => []
  | SlackPost channel text :: rest => (channel, text) :: published rest
  | LogLine _ :: rest => published rest
  end.

Definition empty_channel_warning : string :=
  "Warning: No users found in Slack channel, no PRs will be included".

Definition missing_credentials_warning : string :=
  "Warning: JIRA credentials not fully configured, JIRA status will show as 'Unknown'".

(** The outcome of [PostMessage] for the report of [prs]. *)
Definition post_error (w : World) (config : Config)
    (prs : list PullRequestInfo) : option string :=
  Slack.PostMessage (slack w) (SlackToken config) (SlackChannel config)
    (message (currentDate w) config prs).

(** *** Sample inputs *)

Definition sample_config : Config :=
  {| GithubToken := "ghp_token"; GithubOwner := "acme"; GithubRepo := "app";
     DebugMode := false;
     JiraURL := "https://jira.example.com"; JiraUsername := "bot";
     JiraAPIToken := "secret";
     SlackToken := "xoxb-token"; SlackChannel := "#reviews";
     TeamGroup := "S0REVIEW"; UserMapping := ∅ |}.

(** A chat service with one channel, [reviews], and the given members. *)
Definition chat (members : list Slack.SlackUser) : Slack.API :=
  {| Slack.AuthTest := fun _ => None;
     Slack.GetConversations := fun _ types =>
       match types with
       | ["public_channel"] =>
           Ok [{| Slack.ConvID := "C01"; Slack.ConvName := "reviews" |}]
       | _ => Ok []
       end;
     Slack.GetUsersInConversation := fun _ _ =>
       Ok (map Slack.UserID members);
     Slack.GetUserInfo := fun _ memberID =>
       match List.find (λ u, String.eqb (Slack.UserID u) memberID) members with
       | Some u => Ok u
       | None => Err "user_not_found"
       end;
     Slack.PostMessage := fun _ _ _ => None |}.

Definition bot : Slack.SlackUser :=
  {| Slack.UserID := "UBOT"; Slack.UserName := "reporter";
     Slack.IsBot := true; Slack.Deleted := false |}.

Definition alice : Slack.SlackUser :=
  {| Slack.UserID := "U01"; Slack.UserName := "alice";
     Slack.IsBot := false; Slack.Deleted := false |}.

(** A run whose channel has the reporting bot as its only member. *)
Definition quiet_world : World :=
  {| github := CollectorSpec.host_of [CollectorSpec.sample_pr];
     jira := JiraSpec.sample_tracker;
     slack := chat [bot];
     currentDate := "2024-05-06" |}.

(** A run on the repository with 101 open pull requests. *)
Definition crowded_world : World :=
  {| github := CollectorSpec.host_of CollectorSpec.crowded;
     jira := JiraSpec.sample_tracker;
     slack := chat [alice];
     currentDate := "2024-05-06" |}.

Definition sample_info (number : Z) (ticket : string) (draft blocked : bool)
  : PullRequestInfo :=
  {| Number := number; Title := "Fix login bug"; URL := "";
     Assignee := "unassigned"; JiraTicket := ticket; JiraStatus := "";
     JiraStatusID := ""; Description := ""; IsDraft := draft;
     IsBlocked := blocked |}.

(** A configuration without tracker credentials. *)
Definition no_jira_config : Config :=
  {| GithubToken := "ghp_token"; GithubOwner := "acme"; GithubRepo := "app";
     DebugMode := false;
     JiraURL := ""; JiraUsername := ""; JiraAPIToken := "";
     SlackToken := "xoxb-token"; SlackChannel := "#reviews";
     TeamGroup := "S0REVIEW"; UserMapping := ∅ |}.

End MainSpec.

(** ** cmd/middletier *)

Module MiddletierSpec.
Import Strings Middletier.

(** An environment in which no tracker variable is set. *)
Definition bare_env : Env :=
  {| Getenv := fun name =>
       if String.eqb name "GITHUB_OWNER" then "acme"
       else if String.eqb name "GITHUB_TOKEN" then "ghp_token"
       else if String.eqb name "SLACK_TOKEN" then "xoxb-token"
       else if String.eqb name "SLACK_CHANNEL" then "#reviews"
       else "";
     dotenv_error := false |}.

Definition fetched_pr : Github.PRResult :=
  {| Github.Number := 7; Github.Title := "Fix login bug POKER-42";
     Github.URL := "https://github.com/acme/app/pull/7";
     Github.Assignee := ""; Github.JiraTicket := "POKER-42";
     Github.IsDraft := false; Github.PRLabels := ["poker"; "bug"];
     Github.Author := "alice" |}.

End MiddletierSpec.

(** ** The [slack] package: GetChannelUsers *)

Module SlackUsers.
Import Strings.

(** The inner loop over one listing: the ID of the first conversation with
    the name, [""] when there is none. *)
Fixpoint find_channel (conversations : list Slack.Conversation)
    (channelName : string) : string :=
  match conversations with
  | [] => ""
  | conv :: rest =>
      if String.eqb (Slack.ConvName conv) channelName then Slack.ConvID conv
      else find_channel rest channelName
  end.

(** [for _, convType := range conversationTypes] *)
Fixpoint search_types (api : Slack.API) (token : string)
    (conversationTypes : list string) (channelName : string) : result string :=
  match conversationTypes with
  | [] => mret ""
  | convType :: rest =>
      match Slack.GetConversations api token [convType] with
      | Err _ => search_types api token rest channelName
      | Panic => Panic
      | Ok conversations =>
          let channelID := find_channel conversations channelName in
          if negb (is_empty channelID) then mret channelID
          else search_types api token rest channelName
      end
  end.

Definition with_prefix {A} (prefix : string) (r : result A) : result A :=
  match r with
  | Err e => Err (prefix +:+ e)
  | _ => r
  end.

(** GetChannelUsers fetches the list of users from a specified Slack channel *)
Definition GetChannelUsers (api : Slack.API) (token channelName : string)
    (debugMode : bool) : result (list string) :=
  _ ← (if debugMode then
         match Slack.AuthTest api token with
         | Some e => Err ("Slack authentication failed: " +:+ e)
         | None => mret tt
         end
       else mret tt);
  let channelName := TrimPrefix channelName "#" in
  channelID ← search_types api token
                ["public_channel"; "private_channel"] channelName;
  channelID ←
    (if is_empty channelID then
       conversations ← with_prefix "error fetching conversations: "
                         (Slack.GetConversations api token []);
       mret (find_channel conversations channelName)
     else mret channelID);
  if is_empty channelID then
    Err ("channel #" +:+ channelName +:+ " not found")
  else
    with_prefix "error fetching channel members: "
      (Slack.GetUsersInConversation api token channelID).

End SlackUsers.

(** ** The single-file program: LoadConfig *)

Module Startup.
Import Strings.

(** "Parse user mapping if provided": the loop over the pairs. *)
Fixpoint load_user_mapping (pairs : list string)
    (userMapping : gmap string string) : gmap string string :=
  match pairs with
  | [] => userMapping
  | pair_ :: rest =>
      match Split (TrimSpace pair_) ":" with
      | [p0; p1] =>
          let slackUser := TrimSpace p0 in
          let githubUser := TrimSpace p1 in
          load_user_mapping rest (<[slackUser := githubUser]> userMapping)
      | _ => load_user_mapping rest userMapping
      end
  end.

(** LoadConfig loads configuration from environment variables;
    [getenv] is [os.Getenv]. *)
Definition LoadConfig (getenv : string → string) : result Main.Config :=
  let userMappingStr := getenv "USER_MAPPING" in
  let userMapping :=
    if negb (is_empty userMappingStr) then
      load_user_mapping (Split userMappingStr ",") ∅
    else ∅ in
  let config :=
    {| Main.GithubToken := getenv "TOKEN";
       Main.GithubOwner := getenv "OWNER";
       Main.GithubRepo := getenv "REPO";
       Main.DebugMode := String.eqb (ToLower (getenv "DEBUG")) "true";
       Main.JiraURL := getenv "JIRA_URL";
       Main.JiraUsername := getenv "JIRA_USERNAME";
       Main.JiraAPIToken := getenv "JIRA_API_TOKEN";
       Main.SlackToken := getenv "SLACK_TOKEN";
       Main.SlackChannel := getenv "SLACK_CHANNEL";
       Main.TeamGroup := getenv "TEAM_GROUP";
       Main.UserMapping := userMapping |} in
  if is_empty (Main.GithubToken config) || is_empty (Main.SlackToken config)
  then Err "required environment variables are not set"
  else Ok config.

End Startup.

(** ** Vocabulary of the further properties *)

Module CoverSpec.
Import Strings.

(** The pointer fields that the "Debug PR info" block dereferences. *)
Definition debug_readable (pr : Github.PullRequest) : Prop :=
  is_Some (Github.pr_Number pr) ∧ is_Some (Github.pr_Title pr) ∧
  is_Some (Github.login_of (Github.pr_User pr)) ∧
  is_Some (Github.pr_Draft pr) ∧
  Forall (λ label, is_Some (Github.Name label)) (Github.pr_Labels pr).

(** The pointer fields that the [PRResult] literal dereferences. *)
Definition result_readable (pr : Github.PullRequest) : Prop :=
  is_Some (Github.pr_Number pr) ∧ is_Some (Github.pr_Title pr) ∧
  is_Some (Github.pr_HTMLURL pr) ∧ is_Some (Github.pr_Draft pr).

(** No dereference of the loop body of [FetchPRs] meets [nil] on [pr]. *)
Definition readable (opts : Github.FetchOptions) (pr : Github.PullRequest)
  : Prop :=
  (Github.DebugMode opts = true → debug_readable pr) ∧
  (CollectorSpec.passes opts pr = true → result_readable pr).

(** The options with [DebugMode] off. *)
Definition quiet (opts : Github.FetchOptions) : Github.FetchOptions :=
  {| Github.Token := Github.Token opts; Github.Owner := Github.Owner opts;
     Github.Repo := Github.Repo opts; Github.Labels := Github.Labels opts;
     Github.AllowedUsers := Github.AllowedUsers opts;
     Github.DebugMode := false |}.

(** A pull request without author, and options that differ in [DebugMode]. *)
Definition orphan_pr : Github.PullRequest :=
  {| Github.pr_Number := Some 9;
     Github.pr_Title := Some "Bump dependency";
     Github.pr_HTMLURL := Some "https://github.com/acme/app/pull/9";
     Github.pr_Draft := Some false;
     Github.pr_User := None;
     Github.pr_Assignee := None;
     Github.pr_Labels := [] |}.

Definition debug_opts : Github.FetchOptions :=
  {| Github.Token := "ghp_token"; Github.Owner := "acme"; Github.Repo := "app";
     Github.Labels := []; Github.AllowedUsers := []; Github.DebugMode := true |}.

(** The warnings of a batch lookup: one for every occurrence of an
    identifier whose lookup fails, in the order of the list. *)
Fixpoint warnings (tr : Jira.Tracker) (opts : Jira.FetchOptions)
    (ticketIDs : list string) : list Event :=
  match ticketIDs with
  | [] => []
  | ticketID :: rest =>
      (if is_empty ticketID then []
       else match Jira.FetchTicketInfo tr opts ticketID with
            | Err e => [LogLine ("Warning: Error fetching JIRA ticket "
                                 +:+ ticketID +:+ ": " +:+ e)]
            | _ => []
            end) ++ warnings tr opts rest
  end.

(** The options of the modular lookup that correspond to a configuration of
    the single-file program, and the client that [UpdateJiraInfo] builds. *)
Definition jira_opts (config : Main.Config) : Jira.FetchOptions :=
  {| Jira.URL := Main.JiraURL config;
     Jira.Username := Main.JiraUsername config;
     Jira.APIToken := Main.JiraAPIToken config;
     Jira.UsePAT := false;
     Jira.DebugMode := Main.DebugMode config |}.

Definition basic_client (config : Main.Config) : Jira.Client :=
  {| Jira.transport :=
       Jira.BasicAuthTransport (Main.JiraUsername config)
                               (Main.JiraAPIToken config);
     Jira.baseURL := Main.JiraURL config |}.

(** What [UpdateJiraInfo] keeps of a PR: the fields that come from the code
    host, a blocked flag that is set, and the whole PR when it has no
    ticket. *)
Definition kept_by_update (pr pr' : Main.PullRequestInfo) : Prop :=
  Main.Number pr' = Main.Number pr ∧
  Main.Title pr' = Main.Title pr ∧
  Main.URL pr' = Main.URL pr ∧
  Main.Assignee pr' = Main.Assignee pr ∧
  Main.JiraTicket pr' = Main.JiraTicket pr ∧
  Main.JiraStatusID pr' = Main.JiraStatusID pr ∧
  Main.IsDraft pr' = Main.IsDraft pr ∧
  (Main.IsBlocked pr = true → Main.IsBlocked pr' = true) ∧
  (Main.JiraTicket pr = "" → pr' = pr).

Definition is_log (ev : Event) : Prop := ∃ line, ev = LogLine line.

(** What [cmd/middletier] keeps of a fetched PR when it hands it to the
    report: the fields of the code host; without ticket an empty status, the
    title as description and no blocked flag; with a ticket a status that is
    not empty; an assignee exactly when the fetched PR has one. *)
Definition handed_over (pr : Github.PRResult) (slackPR : Slack.PRInfo) : Prop :=
  Slack.Number slackPR = Github.Number pr ∧
  Slack.Title slackPR = Github.Title pr ∧
  Slack.JiraTicket slackPR = Github.JiraTicket pr ∧
  Slack.IsDraft slackPR = Github.IsDraft pr ∧
  (Github.JiraTicket pr = "" →
   Slack.JiraStatus slackPR = "" ∧
   Slack.Description slackPR = Github.Title pr ∧
   Slack.IsBlocked slackPR = false) ∧
  (Github.JiraTicket pr ≠ "" → Slack.JiraStatus slackPR ≠ "") ∧
  (Slack.Assignee slackPR = "" ↔ Github.Assignee pr = "").

(** The options that [cmd/middletier] gives to [FetchPRs]. *)
Definition middletier_labels (env : Middletier.Env) : list string :=
  if negb (is_empty (Middletier.Getenv env "MIDDLETIER_LABELS")) then
    Middletier.parse_labels
      (Split (Middletier.Getenv env "MIDDLETIER_LABELS") ",")
  else [].

Definition middletier_opts (env : Middletier.Env) : Github.FetchOptions :=
  {| Github.Token := Middletier.Getenv env "GITHUB_TOKEN";
     Github.Owner := Middletier.Getenv env "GITHUB_OWNER";
     Github.Repo := "fips-poker-web-mt";
     Github.Labels := middletier_labels env;
     Github.AllowedUsers := [];
     Github.DebugMode :=
       Middletier.is_true (Middletier.Getenv env "DEBUG") |}.

(** The channel and the options that [cmd/middletier] gives to
    [SendPRReport]. *)
Definition middletier_channel (env : Middletier.Env) : string :=
  if is_empty (Middletier.Getenv env "MIDDLETIER_SLACK_CHANNEL") then
    Middletier.Getenv env "SLACK_CHANNEL"
  else Middletier.Getenv env "MIDDLETIER_SLACK_CHANNEL".

Definition middletier_slack_opts (env : Middletier.Env)
  : Slack.MessageOptions :=
  {| Slack.Token := Middletier.Getenv env "SLACK_TOKEN";
     Slack.Channel := middletier_channel env;
     Slack.GithubOwner := Middletier.Getenv env "GITHUB_OWNER";
     Slack.GithubRepo := "fips-poker-web-mt";
     Slack.JiraURL := Middletier.Getenv env "JIRA_URL";
     Slack.TeamGroup := Middletier.Getenv env "MIDDLETIER_TEAM_GROUP";
     Slack.MentionUsers := Middletier.Getenv env "MIDDLETIER_MENTION_USERS";
     Slack.ReportTitle := "Middletier Report";
     Slack.DebugMode :=
       Middletier.is_true (Middletier.Getenv env "DEBUG") |}.

(** A code host that refuses the token. *)
Definition closed_host : Github.Host :=
  {| Github.UsersGet := fun _ => Err "401 Bad credentials";
     Github.OpenPulls := fun _ _ _ => Err "401 Bad credentials" |}.

(** [s] holds the byte [c]. *)
Fixpoint has_byte (c : ascii) (s : string) : bool :=
  match s with
  | EmptyString => false
  | String b r => Ascii.eqb b c || has_byte c r
  end.

Fixpoint has_space (s : string) : bool :=
  match s with
  | EmptyString => false
  | String b r => Ascii.is_space b || has_space r
  end.

(** A name that can stand in [USER_MAPPING] as it is: no comma, no colon,
    no white space. *)
Definition plain (s : string) : bool :=
  negb (has_byte "," s) && negb (has_byte ":" s) && negb (has_space s).

(** The format of [USER_MAPPING]:
    "slack_user:github_user,slack_user2:github_user2". *)
Definition encode_pair (kv : string * string) : string :=
  kv.1 +:+ ":" +:+ kv.2.

Definition encode_mapping (kvs : list (string * string)) : string :=
  Join (map encode_pair kvs) ",".

Definition plain_pairs (kvs : list (string * string)) : Prop :=
  Forall (λ kv, plain kv.1 = true ∧ plain kv.2 = true) kvs.

(** An environment with two tokens and a mapping of two users. *)
Definition mapped_env (name : string) : string :=
  if String.eqb name "TOKEN" then "ghp_token"
  else if String.eqb name "SLACK_TOKEN" then "xoxb-token"
  else if String.eqb name "USER_MAPPING" then "alice:al,bob:bo"
  else "".

(** The options of the modular collector that correspond to the single-file
    one: the given allow-list and a label filter with the one term
    [term]. *)
Definition poker_opts (allowedUsers : list string) (term : string)
  : Github.FetchOptions :=
  {| Github.Token := ""; Github.Owner := ""; Github.Repo := "";
     Github.Labels := [term]; Github.AllowedUsers := allowedUsers;
     Github.DebugMode := false |}.

(** [config] with another channel. *)
Definition with_channel (config : Main.Config) (channel : string)
  : Main.Config :=
  {| Main.GithubToken := Main.GithubToken config;
     Main.GithubOwner := Main.GithubOwner config;
     Main.GithubRepo := Main.GithubRepo config;
     Main.DebugMode := Main.DebugMode config;
     Main.JiraURL := Main.JiraURL config;
     Main.JiraUsername := Main.JiraUsername config;
     Main.JiraAPIToken := Main.JiraAPIToken config;
     Main.SlackToken := Main.SlackToken config;
     Main.SlackChannel := channel;
     Main.TeamGroup := Main.TeamGroup config;
     Main.UserMapping := Main.UserMapping config |}.

Definition not_found_message (channelName : string) : string :=
  "channel #" +:+ channelName +:+ " not found. Make sure the bot is added to the channel and has proper permissions (channels:read, groups:read)".

(** A typed listing that does not show the channel: it fails, or it holds no
    conversation of that name. *)
Definition hides (api : Slack.API) (token convType channelName : string)
  : Prop :=
  match Slack.GetConversations api token [convType] with
  | Ok conversations =>
      Forall (λ conv, Slack.ConvName conv ≠ channelName) conversations
  | Err _ => True
  | Panic => False
  end.

(** [user] is a member that the resolver counts: neither a bot nor
    deleted. *)
Definition human (user : Slack.SlackUser) : Prop :=
  Slack.IsBot user = false ∧ Slack.Deleted user = false.

(** A mapping in which no two chat users share a code-host user. *)
Definition one_to_one (userMapping : gmap string string) : Prop :=
  ∀ s1 s2 g, userMapping !! s1 = Some g → userMapping !! s2 = Some g → s1 = s2.

End CoverSpec.

(** * Properties *)

(** ** Strings *)

Section StringFacts.
Import Strings.

Lemma is_empty_true (s : string) : is_empty s = true ↔ s = "".
Proof. destruct s; simpl; split; congruence. Qed.

Lemma is_empty_false (s : string) : is_empty s = false ↔ s ≠ "".
Proof. destruct s; simpl; split; congruence. Qed.

Lemma sapp_cons (c : ascii) (s t : string) :
  String c s +:+ t = String c (s +:+ t).
Proof. reflexivity. Qed.

Lemma sapp_empty_l (s : string) : "" +:+ s = s.
Proof. reflexivity. Qed.

Lemma sapp_empty_r (s : string) : s +:+ "" = s.
Proof. induction s as [|c s IH]; [done|]. by rewrite sapp_cons, IH. Qed.

Lemma sapp_assoc (s t u : string) : (s +:+ t) +:+ u = s +:+ t +:+ u.
Proof. induction s as [|c s IH]; [done|]. by rewrite !sapp_cons, IH. Qed.

Lemma sapp_length (s t : string) :
  String.length (s +:+ t) = (String.length s + String.length t)%nat.
Proof. induction s as [|c s IH]; [done|]. rewrite sapp_cons. simpl. by rewrite IH. Qed.

Lemma sapp_inv_head (s t u : string) : s +:+ t = s +:+ u → t = u.
Proof.
  induction s as [|c s IH]; [done|].
  rewrite !sapp_cons. intros [= H]. by apply IH.
Qed.

Lemma eqb_refl (a : ascii) : Ascii.eqb a a = true.
Proof. by apply Ascii.eqb_eq. Qed.

Lemma HasPrefix_app (p r : string) : HasPrefix (p +:+ r) p = true.
Proof.
  induction p as [|c p IH]; [done|].
  rewrite sapp_cons. simpl. by rewrite eqb_refl, IH.
Qed.

Lemma HasPrefix_inv (s p : string) :
  HasPrefix s p = true → ∃ r, s = p +:+ r.
Proof.
  revert s. induction p as [|c p IH]; intros s H.
  - by exists s.
  - destruct s as [|b s]; [done|]. simpl in H.
    apply andb_true_iff in H as [Hc Hp].
    apply Ascii.eqb_eq in Hc as ->.
    destruct (IH _ Hp) as [r ->]. by exists r.
Qed.

Lemma slice_from_app (p r : string) : slice_from (String.length p) (p +:+ r) = r.
Proof. induction p as [|c p IH]; [by destruct r|]. by rewrite sapp_cons. Qed.

End StringFacts.

(** ** Ticket enrichment *)

Section JiraFacts.
Import Strings Jira JiraSpec.

Lemma is_blocking_text_mentions (text : string) :
  is_blocking_text (ToLower text) = true ↔ mentions text.
Proof.
  unfold is_blocking_text, mentions, vocabulary. split.
  - intros H. apply orb_true_iff in H as [H|H];
      [apply orb_true_iff in H as [H|H]|].
    + exists "block". split; [set_solver|done].
    + exists "impediment". split; [set_solver|done].
    + exists "pause". split; [set_solver|done].
  - intros (w & Hw & Hc).
    rewrite !elem_of_cons, elem_of_nil in Hw.
    destruct Hw as [->|[->|[->|[]]]]; rewrite Hc; by rewrite ?orb_true_r.
Qed.

Lemma check_status_blocked (st : option IssueStatus) (ti : TicketInfo) :
  IsBlocked (check_status st ti) = true ↔
  IsBlocked ti = true ∨ ∃ s, st = Some s ∧ mentions (Name s).
Proof.
  unfold check_status. destruct st as [s|].
  - destruct (is_empty (Name s)) eqn:He; simpl.
    + apply is_empty_true in He. split; [by left|].
      intros [H|(s' & [= <-] & Hm)]; [done|].
      apply is_blocking_text_mentions in Hm. by rewrite He in Hm.
    + destruct (is_blocking_text _) eqn:Hb; simpl.
      * split; [|done]. intros _. right. exists s. split; [done|].
        by apply is_blocking_text_mentions.
      * split; [by left|]. intros [H|(s' & [= <-] & Hm)]; [done|].
        apply is_blocking_text_mentions in Hm. congruence.
  - split; [by left|]. by intros [H|(s' & [=] & _)].
Qed.

Lemma check_labels_blocked (labels : list string) (ti : TicketInfo) :
  IsBlocked (check_labels labels ti) = true ↔
  IsBlocked ti = true ∨ ∃ label, label ∈ labels ∧ mentions label.
Proof.
  induction labels as [|l labels IH]; simpl.
  - split; [by left|]. intros [H|(l & Hl & _)]; [done|]. by apply elem_of_nil in Hl.
  - destruct (is_blocking_text (ToLower l)) eqn:Hb; simpl.
    + split; [|done]. intros _. right. exists l. split; [left|].
      by apply is_blocking_text_mentions.
    + rewrite IH. split.
      * intros [H|(l' & Hl & Hm)]; [by left|]. right. exists l'.
        split; [by right|done].
      * intros [H|(l' & Hl & Hm)]; [by left|].
        apply elem_of_cons in Hl as [->|Hl].
        -- apply is_blocking_text_mentions in Hm. congruence.
        -- right. by exists l'.
Qed.

Lemma ticket_of_issue_fields (ticketID : string) (fields : IssueFields) :
  ticket_of_issue ticketID (Some {| Fields := Some fields |}) =
  check_labels (FieldLabels fields)
    (check_status (FieldStatus fields) (initial_info ticketID fields)).
Proof.
  unfold ticket_of_issue, initial_info, status_name. simpl.
  destruct (FieldStatus fields) as [s|]; simpl;
    destruct (is_empty (FieldSummary fields)); simpl; try done;
    by destruct (is_empty (Name s)).
Qed.

Lemma mentions_empty : ¬ mentions "".
Proof. intros H. by apply is_blocking_text_mentions in H. Qed.

Lemma status_mentions (fields : IssueFields) :
  (∃ s, FieldStatus fields = Some s ∧ mentions (Name s)) ↔
  mentions (status_name fields).
Proof.
  unfold status_name. destruct (FieldStatus fields) as [s|]; simpl.
  - split; [by intros (s' & [= <-] & H)|]. intros H. by exists s.
  - split; [by intros (s' & [=] & _)|]. intros H. by apply mentions_empty in H.
Qed.

Lemma ticket_of_issue_blocked (ticketID : string) (iss : option Issue) :
  IsBlocked (ticket_of_issue ticketID iss) = true ↔
  ∃ fields, iss ≫= Fields = Some fields ∧
    (mentions (status_name fields) ∨
     ∃ label, label ∈ FieldLabels fields ∧ mentions label).
Proof.
  destruct iss as [[[fields|]]|].
  - rewrite ticket_of_issue_fields, check_labels_blocked, check_status_blocked.
    rewrite status_mentions. simpl. split.
    + intros [[H|H]|H]; [done| |]; exists fields; auto.
    + intros (f & [= <-] & [H|H]); auto.
  - simpl. split; [done|]. by intros (f & [=] & _).
  - simpl. split; [done|]. by intros (f & [=] & _).
Qed.

Lemma FetchTicketInfo_fetched (tr : Tracker) (opts : FetchOptions)
    (ticketID : string) (jiraClient : Client) :
  ticketID ≠ "" →
  credentials_missing opts = false →
  new_client tr opts = Ok jiraClient →
  err (IssueGet tr jiraClient ticketID) = None →
  FetchTicketInfo tr opts ticketID =
    Ok (ticket_of_issue ticketID (issue (IssueGet tr jiraClient ticketID))).
Proof.
  intros Hid Hcred Hcl Herr. unfold FetchTicketInfo.
  apply is_empty_false in Hid. rewrite Hid, Hcred, Hcl. simpl.
  by rewrite Herr.
Qed.

Lemma FetchTicketInfo_not_found (tr : Tracker) (opts : FetchOptions)
    (ticketID : string) (jiraClient : Client) (e : string) :
  ticketID ≠ "" →
  credentials_missing opts = false →
  new_client tr opts = Ok jiraClient →
  err (IssueGet tr jiraClient ticketID) = Some e →
  not_found (resp (IssueGet tr jiraClient ticketID)) = true →
  FetchTicketInfo tr opts ticketID =
    Ok {| TicketID := ticketID; Status := "Not Found";
          Summary := "Ticket not found"; IsBlocked := false |}.
Proof.
  intros Hid Hcred Hcl Herr Hnf. unfold FetchTicketInfo.
  apply is_empty_false in Hid. rewrite Hid, Hcred, Hcl. simpl.
  by rewrite Herr, Hnf.
Qed.

Lemma FetchTicketInfo_failure (tr : Tracker) (opts : FetchOptions)
    (ticketID : string) (jiraClient : Client) (e : string) :
  ticketID ≠ "" →
  credentials_missing opts = false →
  new_client tr opts = Ok jiraClient →
  err (IssueGet tr jiraClient ticketID) = Some e →
  not_found (resp (IssueGet tr jiraClient ticketID)) = false →
  FetchTicketInfo tr opts ticketID =
    Err ("error fetching JIRA ticket " +:+ ticketID +:+ ": " +:+ e).
Proof.
  intros Hid Hcred Hcl Herr Hnf. unfold FetchTicketInfo.
  apply is_empty_false in Hid. rewrite Hid, Hcred, Hcl. simpl.
  by rewrite Herr, Hnf.
Qed.

Lemma new_client_no_panic (tr : Tracker) (opts : FetchOptions) :
  new_client tr opts ≠ Panic.
Proof.
  unfold new_client. by destruct (UsePAT opts), (NewClient tr (URL opts)).
Qed.

Lemma FetchTicketInfo_no_panic (tr : Tracker) (opts : FetchOptions)
    (ticketID : string) :
  FetchTicketInfo tr opts ticketID ≠ Panic.
Proof.
  unfold FetchTicketInfo.
  destruct (is_empty ticketID); [done|].
  destruct (credentials_missing opts); [done|].
  destruct (new_client tr opts) as [c| |] eqn:Hc; simpl; [|done|].
  - destruct (err _); [|done]. by destruct (not_found _).
  - by apply new_client_no_panic in Hc.
Qed.

Lemma FetchTicketInfo_missing_credentials (tr : Tracker)
    (opts : FetchOptions) (ticketID : string) :
  ticketID ≠ "" →
  credentials_missing opts = true →
  FetchTicketInfo tr opts ticketID =
    Err "JIRA credentials not fully configured".
Proof.
  intros Hid Hcred. unfold FetchTicketInfo.
  apply is_empty_false in Hid. by rewrite Hid, Hcred.
Qed.

Lemma outcome_log_bind {A} (line : string) (p : prog A) :
  outcome (log line ≫= λ _, p) = outcome p.
Proof. done. Qed.

Lemma tickets_loop_lookup (tr : Tracker) (opts : FetchOptions)
    (ticketIDs : list string) (results : gmap string TicketInfo) :
  ∃ res,
    outcome (tickets_loop tr opts ticketIDs results) = Ok res ∧
    ∀ ticketID,
      res !! ticketID =
        if decide (ticketID ∈ ticketIDs ∧ ticketID ≠ "")
        then Some (expected_info tr opts ticketID)
        else results !! ticketID.
Proof.
  revert results.
  induction ticketIDs as [|a ids IH]; intros results; cbn [tickets_loop].
  - exists results. split; [done|]. intros id.
    case_decide as H; [|done]. destruct H as [H _]. by apply elem_of_nil in H.
  - destruct (is_empty a) eqn:Ha.
    + apply is_empty_true in Ha as ->.
      destruct (IH results) as (res & Hres & Hl). exists res. split; [done|].
      intros id. rewrite Hl. apply decide_ext.
      rewrite elem_of_cons.
          split; [intros [? ?]; auto | intros [[?|?] ?]; [done|auto]].
    + apply is_empty_false in Ha.
      assert (∃ res,
        outcome (tickets_loop tr opts ids
                   (<[a := expected_info tr opts a]> results)) = Ok res ∧
        ∀ id, res !! id =
          if decide (id ∈ a :: ids ∧ id ≠ "")
          then Some (expected_info tr opts id) else results !! id) as Hgoal.
      { destruct (IH (<[a := expected_info tr opts a]> results))
          as (res & Hres & Hl).
        exists res. split; [done|]. intros id. rewrite Hl.
        destruct (decide (id = a)) as [->|Hne].
        - rewrite lookup_insert_eq.
          rewrite (decide_True (P := a ∈ a :: ids ∧ a ≠ ""))
            by (split; [left|done]).
          by case_decide.
        - rewrite lookup_insert_ne by done. apply decide_ext.
          rewrite elem_of_cons.
          split; [intros [? ?]; auto | intros [[?|?] ?]; [done|auto]]. }
      unfold expected_info in Hgoal at 1.
      destruct (FetchTicketInfo tr opts a) as [ti|e|] eqn:Hf.
      * exact Hgoal.
      * rewrite outcome_log_bind. exact Hgoal.
      * by apply FetchTicketInfo_no_panic in Hf.
Qed.

(** C5.  For every list of ticket identifiers the batch lookup returns a
    map and no error.  Every non-empty identifier of the list is looked up
    on its own and has an entry: a lookup answered with 404 gives the
    status "Not Found"; a lookup that fails in any other way gives the
    status "Error" with the error text (after the prefix of the format
    string, "Error: ") as summary; a lookup that succeeds gives its ticket
    info, whatever happened to the other identifiers. *)
Theorem FetchTicketsInfo_isolates_failures (tr : Tracker)
    (opts : FetchOptions) (ticketIDs : list string) :
  ∃ results,
    outcome (FetchTicketsInfo tr opts ticketIDs) = Ok results ∧
    ∀ ticketID, ticketID ∈ ticketIDs → ticketID ≠ "" →
      (∀ jiraClient e,
         credentials_missing opts = false →
         new_client tr opts = Ok jiraClient →
         err (IssueGet tr jiraClient ticketID) = Some e →
         not_found (resp (IssueGet tr jiraClient ticketID)) = true →
         results !! ticketID =
           Some {| TicketID := ticketID; Status := "Not Found";
                   Summary := "Ticket not found"; IsBlocked := false |}) ∧
      (∀ jiraClient e,
         credentials_missing opts = false →
         new_client tr opts = Ok jiraClient →
         err (IssueGet tr jiraClient ticketID) = Some e →
         not_found (resp (IssueGet tr jiraClient ticketID)) = false →
         results !! ticketID =
           Some {| TicketID := ticketID; Status := "Error";
                   Summary := "Error: " +:+ "error fetching JIRA ticket "
                              +:+ ticketID +:+ ": " +:+ e;
                   IsBlocked := false |}) ∧
      (∀ e,
         FetchTicketInfo tr opts ticketID = Err e →
         results !! ticketID =
           Some {| TicketID := ticketID; Status := "Error";
                   Summary := "Error: " +:+ e; IsBlocked := false |}) ∧
      (∀ ticketInfo,
         FetchTicketInfo tr opts ticketID = Ok ticketInfo →
         results !! ticketID = Some ticketInfo).
Proof.
  destruct (tickets_loop_lookup tr opts ticketIDs ∅) as (res & Hres & Hl).
  exists res. split; [exact Hres|].
  intros id Hin Hid.
  assert (res !! id = Some (expected_info tr opts id)) as Hres_id.
  { rewrite Hl. by rewrite decide_True. }
  rewrite Hres_id. unfold expected_info. repeat split.
  - intros c e Hc Hn He Hnf.
    by rewrite (FetchTicketInfo_not_found tr opts id c e).
  - intros c e Hc Hn He Hnf.
    by rewrite (FetchTicketInfo_failure tr opts id c e).
  - intros e He. by rewrite He.
  - intros ti Hti. by rewrite Hti.
Qed.

Lemma FetchTicketsInfo_isolates_failures_witness :
  ∃ results,
    outcome (FetchTicketsInfo sample_tracker sample_opts
               ["POKER-1"; "POKER-2"; ""; "POKER-3"]) = Ok results ∧
    results !! "POKER-1" =
      Some {| TicketID := "POKER-1"; Status := "Not Found";
              Summary := "Ticket not found"; IsBlocked := false |} ∧
    results !! "POKER-2" =
      Some {| TicketID := "POKER-2"; Status := "Error";
              Summary := "Error: error fetching JIRA ticket POKER-2: Internal Server Error";
              IsBlocked := false |} ∧
    results !! "POKER-3" =
      Some {| TicketID := "POKER-3"; Status := "In Review";
              Summary := "Fix login"; IsBlocked := true |}.
Proof.
  destruct (FetchTicketsInfo_isolates_failures sample_tracker sample_opts
              ["POKER-1"; "POKER-2"; ""; "POKER-3"]) as (results & Hok & H).
  exists results. split; [exact Hok|]. split; [|split].
  - destruct (H "POKER-1") as (Hnf & _ & _ & _);
      [repeat constructor | discriminate |].
    apply (Hnf sample_client "Issue Does Not Exist"); reflexivity.
  - destruct (H "POKER-2") as (_ & Hfail & _ & _);
      [repeat constructor | discriminate |].
    apply (Hfail sample_client "Internal Server Error"); reflexivity.
  - destruct (H "POKER-3") as (_ & _ & _ & Hsucc);
      [repeat constructor | discriminate |].
    apply Hsucc. reflexivity.
Defined.



End JiraFacts.

(** ** Ticket identifiers in titles *)

Section ExtractFacts.
Import Strings ExtractSpec.

Variable literal : string.

Lemma take_digits_app (ds rest : string) :
  digits ds = true → take_digits (ds +:+ rest) = ds +:+ take_digits rest.
Proof.
  induction ds as [|c ds IH]; simpl; [done|].
  intros [Hc Hds]%andb_true_iff. rewrite sapp_cons. simpl.
  by rewrite Hc, IH.
Qed.

Lemma take_digits_digits (ds : string) :
  digits ds = true → take_digits ds = ds.
Proof.
  intros H. rewrite <- (sapp_empty_r ds) at 1.
  rewrite take_digits_app by done. simpl. apply sapp_empty_r.
Qed.

Lemma take_digits_prefix (s : string) :
  digits (take_digits s) = true ∧ ∃ rest, s = take_digits s +:+ rest.
Proof.
  induction s as [|c s [IH1 [rest IH2]]]; simpl.
  - split; [done|]. by exists "".
  - destruct (is_digit c) eqn:Hc; simpl.
    + rewrite Hc, IH1. split; [done|]. exists rest.
      by rewrite sapp_cons, <- IH2.
    + split; [done|]. by exists (String c s).
Qed.

Lemma match_here_sound (s m : string) :
  match_here literal s = Some m →
  is_match literal m ∧
  (∃ post, s = m +:+ post) ∧
  (∀ m' post', is_match literal m' → s = m' +:+ post' →
               (String.length m' ≤ String.length m)%nat).
Proof.
  unfold match_here. destruct (HasPrefix s literal) eqn:Hp; [|done].
  apply HasPrefix_inv in Hp as [r ->]. rewrite slice_from_app.
  destruct (take_digits_prefix r) as [Hd [rest Hr]].
  destruct (take_digits r) as [|c ds] eqn:Htd; [done|].
  intros [= <-]. split; [|split].
  - exists (String c ds). by split.
  - exists rest. by rewrite sapp_assoc, <- Hr.
  - intros m' post' (ds' & -> & Hne & Hds') Heq.
    rewrite sapp_assoc in Heq. apply sapp_inv_head in Heq.
    rewrite Heq, take_digits_app in Htd by done.
    rewrite !sapp_length. apply (f_equal String.length) in Htd.
    rewrite sapp_length in Htd. lia.
Qed.

Lemma match_here_complete (s : string) :
  match_here literal s = None →
  ∀ m post, is_match literal m → s ≠ m +:+ post.
Proof.
  unfold match_here. intros H m post (ds & -> & Hne & Hds) ->.
  rewrite sapp_assoc, HasPrefix_app, slice_from_app in H.
  rewrite take_digits_app in H by done.
  destruct ds as [|c ds]; [done|]. by rewrite sapp_cons in H.
Qed.

Lemma match_here_match (m : string) :
  is_match literal m → match_here literal m = Some m.
Proof.
  intros (ds & -> & Hne & Hds). unfold match_here.
  rewrite HasPrefix_app, slice_from_app, take_digits_digits by done.
  by destruct ds.
Qed.

Lemma FindStringSubmatch_unfold (s : string) :
  FindStringSubmatch literal s =
  match match_here literal s with
  | Some m => [m]
  | None =>
      match s with
      | EmptyString => []
      | String _ r => FindStringSubmatch literal r
      end
  end.
Proof. by destruct s. Qed.

Lemma occurs_at_zero (m t : string) :
  occurs_at m t 0 ↔ ∃ post, t = m +:+ post.
Proof.
  split.
  - intros (pre & post & -> & Hlen). destruct pre; [|done]. by exists post.
  - intros [post ->]. by exists "", post.
Qed.

Lemma occurs_at_succ (m : string) (c : ascii) (r : string) (n : nat) :
  occurs_at m (String c r) (S n) ↔ occurs_at m r n.
Proof.
  split.
  - intros (pre & post & Heq & Hlen). destruct pre as [|b pre]; [done|].
    rewrite sapp_cons in Heq. injection Heq as -> ->.
    exists pre, post. split; [done|]. simpl in Hlen. lia.
  - intros (pre & post & -> & <-). exists (String c pre), post.
    by rewrite sapp_cons.
Qed.

Lemma is_match_nonempty (m : string) : is_match literal m → m ≠ "".
Proof.
  intros (ds & -> & Hne & _) H. apply (f_equal String.length) in H.
  rewrite sapp_length in H. destruct ds; [done|]. simpl in H. lia.
Qed.

Lemma FindStringSubmatch_spec (t : string) :
  (FindStringSubmatch literal t = [] ∧ no_match literal t) ∨
  (∃ m, FindStringSubmatch literal t = [m] ∧ first_match literal t m).
Proof.
  induction t as [|c r IH]; rewrite FindStringSubmatch_unfold.
  - destruct (match_here literal "") as [m|] eqn:Hm.
    + apply match_here_sound in Hm as (Hm & [post Hpost] & _).
      apply is_match_nonempty in Hm. by destruct m.
    + left. split; [done|]. intros m n Hmm (pre & post & Heq & _).
      destruct pre; [|done]. by apply (match_here_complete "" Hm m post).
  - destruct (match_here literal (String c r)) as [m|] eqn:Hm.
    + right. exists m. split; [done|].
      apply match_here_sound in Hm as (Hm & Hpost & Hlong).
      split; [done|]. exists 0%nat. split; [by apply occurs_at_zero|].
      split; [intros; lia|].
      intros m' Hm' [post' Hpost']%occurs_at_zero. by eapply Hlong.
    + destruct IH as [[Hnil Hno]|(m & Hres & Hm' & n & Hocc & Hleft & Hlong)].
      * left. split; [done|]. intros m [|n] Hmm Hocc.
        -- apply occurs_at_zero in Hocc as [post Hpost].
           by apply (match_here_complete _ Hm m post).
        -- apply occurs_at_succ in Hocc. by apply (Hno m n).
      * right. exists m. split; [done|]. split; [done|].
        exists (S n). split; [by apply occurs_at_succ|]. split.
        -- intros m' [|n'] Hmm Hocc'.
           ++ apply occurs_at_zero in Hocc' as [post Hpost].
              by destruct (match_here_complete _ Hm m' post).
           ++ apply occurs_at_succ in Hocc'.
              specialize (Hleft m' n' Hmm Hocc'). lia.
        -- intros m' Hmm Hocc'. apply occurs_at_succ in Hocc'.
           by apply Hlong.
Qed.

(** C7.  Ticket extraction is total: for every title (also an absent one)
    it returns a string, which is empty when no substring of the title
    matches the pattern and is the first match otherwise.  It is
    idempotent: extracting from the extracted identifier gives the same
    identifier. *)
Theorem extract_ticket_total_idempotent (title : option string) :
  match title with
  | None => Github.extract_ticket literal title = ""
  | Some t =>
      (Github.extract_ticket literal title = "" ∧ no_match literal t) ∨
      first_match literal t (Github.extract_ticket literal title)
  end ∧
  Github.extract_ticket literal (Some (Github.extract_ticket literal title))
  = Github.extract_ticket literal title.
Proof.
  assert (Github.extract_ticket literal (Some "") = "") as Hempty.
  { unfold Github.extract_ticket.
    destruct (FindStringSubmatch_spec "") as [[-> _]|(m & _ & Hm & n & Hocc & _)];
      [done|].
    destruct Hocc as (pre & post & Heq & _).
    apply is_match_nonempty in Hm. destruct pre; [|done]. by destruct m. }
  destruct title as [t|]; [|by split].
  destruct (FindStringSubmatch_spec t) as [[Hnil Hno]|(m & Heq & Hm)].
  - assert (Github.extract_ticket literal (Some t) = "") as ->.
    { unfold Github.extract_ticket. by rewrite Hnil. }
    split; [by left|]. exact Hempty.
  - assert (Github.extract_ticket literal (Some t) = m) as ->.
    { unfold Github.extract_ticket. by rewrite Heq. }
    split; [by right|]. unfold Github.extract_ticket.
    rewrite FindStringSubmatch_unfold.
    by rewrite (match_here_match m) by apply Hm.
Qed.

End ExtractFacts.

(** ** PR collection *)

Section CollectorFacts.
Import Strings Github CollectorSpec.

Lemma userFound_spec (allowedUsers : list string) (login : string) :
  userFound allowedUsers login = true ↔
  ∃ entry, entry ∈ allowedUsers ∧ TrimSpace entry ≠ "" ∧
           EqualFold (TrimSpace entry) login = true.
Proof.
  induction allowedUsers as [|a l IH]; simpl.
  - split; [done|]. intros (e & He & _). by apply elem_of_nil in He.
  - destruct (is_empty (TrimSpace a)) eqn:Hempty.
    + apply is_empty_true in Hempty. rewrite IH. split.
      * intros (e & He & H). exists e. split; [by right|done].
      * intros (e & [->|He]%elem_of_cons & Hne & Heq); [done|]. by exists e.
    + apply is_empty_false in Hempty.
      destruct (EqualFold (TrimSpace a) login) eqn:Heq.
      * split; [|done]. intros _. exists a. split; [left|done].
      * rewrite IH. split.
        -- intros (e & He & H). exists e. split; [by right|done].
        -- intros (e & [->|He]%elem_of_cons & Hne & Heq'); [congruence|].
           by exists e.
Qed.

Lemma matches_filter_spec (filterLabels : list string) (name : string) :
  matches_filter filterLabels name = true ↔
  ∃ term, term ∈ filterLabels ∧
          Contains (ToLower name) (ToLower term) = true.
Proof.
  induction filterLabels as [|f l IH]; simpl.
  - split; [done|]. intros (t & Ht & _). by apply elem_of_nil in Ht.
  - destruct (Contains (ToLower name) (ToLower f)) eqn:Hc.
    + split; [|done]. intros _. exists f. split; [left|done].
    + rewrite IH. split.
      * intros (t & Ht & H). exists t. split; [by right|done].
      * intros (t & [->|Ht]%elem_of_cons & H); [congruence|]. by exists t.
Qed.

Lemma hasMatchingLabel_spec (labels : list Label) (filterLabels : list string) :
  hasMatchingLabel labels filterLabels = true ↔
  ∃ label name term,
    label ∈ labels ∧ Name label = Some name ∧ term ∈ filterLabels ∧
    Contains (ToLower name) (ToLower term) = true.
Proof.
  induction labels as [|a l IH]; simpl.
  - split; [done|]. intros (lb & ? & ? & Hl & _). by apply elem_of_nil in Hl.
  - destruct (Name a) as [name|] eqn:Hname.
    + destruct (matches_filter filterLabels name) eqn:Hm.
      * split; [|done]. intros _.
        apply matches_filter_spec in Hm as (t & Ht & Hc).
        exists a, name, t. by repeat split; [left|..].
      * rewrite IH. split.
        -- intros (lb & n & t & Hl & H). exists lb, n, t.
           split; [by right|done].
        -- intros (lb & n & t & [->|Hl]%elem_of_cons & Hn & Ht & Hc).
           ++ rewrite Hname in Hn. injection Hn as <-.
              assert (matches_filter filterLabels name = true) as Hm'
                by (apply matches_filter_spec; by exists t).
              congruence.
           ++ by exists lb, n, t.
    + rewrite IH. split.
      * intros (lb & n & t & Hl & H). exists lb, n, t. split; [by right|done].
      * intros (lb & n & t & [->|Hl]%elem_of_cons & Hn & Ht & Hc);
          [congruence|]. by exists lb, n, t.
Qed.

Lemma and_iff (A B C D : Prop) : (A ↔ B) → (C ↔ D) → (A ∧ C ↔ B ∧ D).
Proof. tauto. Qed.

Lemma passes_condition (opts : FetchOptions) (pr : PullRequest) :
  passes opts pr = true ↔ condition opts pr.
Proof.
  unfold passes, condition, author_ok, label_ok.
  destruct (login_of (pr_User pr)) as [login|].
  - rewrite andb_true_iff. apply and_iff.
    + destruct (AllowedUsers opts) as [|a l] eqn:Hal.
      * split; [|done]. intros _. exists login. split; [done|by left].
      * rewrite userFound_spec. split.
        -- intros H. exists login. split; [done|by right].
        -- by intros (lg & [= <-] & [?|H]).
    + destruct (Labels opts) as [|f l] eqn:Hl.
      * split; [by left|done].
      * rewrite hasMatchingLabel_spec. split; [by right|]. by intros [?|H].
  - split; [done|]. by intros [(lg & [=] & _) _].
Qed.

Lemma bind_Ok {A B} (a : A) (k : A → result B) : (Ok a ≫= k) = k a.
Proof. done. Qed.

Lemma deref_names_ok (labels : list Label) :
  Forall (λ label, is_Some (Name label)) labels → deref_names labels = Ok tt.
Proof.
  induction 1 as [|label l [name Hname] _ IH]; simpl; [done|].
  by rewrite Hname.
Qed.

Lemma debug_pr_info_ok (pr : PullRequest) :
  complete true pr → debug_pr_info pr = Ok tt.
Proof.
  intros ([n Hn] & [t Ht] & _ & [d Hd] & Hdebug).
  destruct Hdebug as [[login Hlogin] Hnames]; [done|].
  unfold debug_pr_info. rewrite Hn, Ht, Hd. simpl.
  unfold login_of in Hlogin. destruct (pr_User pr) as [u|]; [|done].
  simpl in *. rewrite Hlogin. simpl. by apply deref_names_ok.
Qed.

Lemma build (opts : FetchOptions) (pr : PullRequest) (login : string) :
  complete (DebugMode opts) pr →
  login_of (pr_User pr) = Some login →
  ∃ r,
    (number ← deref (pr_Number pr);
     title ← deref (pr_Title pr);
     url ← deref (pr_HTMLURL pr);
     draft ← deref (pr_Draft pr);
     mret (Some {| Number := number; Title := title; URL := url;
                   Assignee := default "" (login_of (pr_Assignee pr));
                   JiraTicket := extract_ticket jiraRegex (pr_Title pr);
                   IsDraft := draft;
                   PRLabels := label_names (pr_Labels pr);
                   Author := login |})) = Ok (Some r) ∧
    represents pr r.
Proof.
  intros ([n Hn] & [t Ht] & [u Hu] & [d Hd] & _) Hlogin.
  rewrite Hn, Ht, Hu, Hd. simpl. eexists. split; [done|].
  unfold represents. rewrite Hn, Ht, Hu, Hd. by repeat split.
Qed.

Lemma examine_complete (opts : FetchOptions) (pr : PullRequest) :
  complete (DebugMode opts) pr →
  if passes opts pr
  then ∃ r, examine opts pr = Ok (Some r) ∧ represents pr r
  else examine opts pr = Ok None.
Proof.
  intros Hc. unfold examine.
  assert ((if DebugMode opts then debug_pr_info pr else mret tt) = Ok tt)
    as ->.
  { destruct (DebugMode opts); [by apply debug_pr_info_ok|done]. }
  rewrite bind_Ok. unfold passes.
  destruct (login_of (pr_User pr)) as [login|] eqn:Hlogin; [|done].
  destruct (build opts pr login Hc Hlogin) as (r & Hr & Hrep).
  remember (userFound (AllowedUsers opts) login) as found.
  remember (hasMatchingLabel (pr_Labels pr) (Labels opts)) as matching.
  unfold nonempty.
  destruct (AllowedUsers opts), (Labels opts), found, matching;
    cbn [length Nat.ltb Nat.leb andb negb]; try reflexivity; by exists r.
Qed.

Lemma filter_loop_selected (opts : FetchOptions) (allPRs : list PullRequest)
    (filteredPRs : list PRResult) :
  Forall (complete (DebugMode opts)) allPRs →
  ∃ kept res,
    filter_loop opts allPRs filteredPRs = Ok (filteredPRs ++ res) ∧
    selected (condition opts) allPRs kept ∧
    Forall2 represents kept res.
Proof.
  intros Hall. revert filteredPRs.
  induction Hall as [|pr l Hpr _ IH]; intros acc; simpl.
  - exists [], []. rewrite app_nil_r. repeat split; constructor.
  - pose proof (examine_complete opts pr Hpr) as Hex.
    destruct (passes opts pr) eqn:Hp.
    + destruct Hex as (r & -> & Hr). rewrite bind_Ok.
      destruct (IH (acc ++ [r])) as (kept & res & -> & Hsel & Hrep).
      exists (pr :: kept), (r :: res). rewrite <- app_assoc.
      split; [done|]. split; [|by constructor].
      constructor; [|done]. by apply passes_condition.
    + rewrite Hex, bind_Ok.
      destruct (IH acc) as (kept & res & -> & Hsel & Hrep).
      exists kept, res. split; [done|]. split; [|done].
      constructor; [|done]. rewrite <- passes_condition. congruence.
Qed.




End CollectorFacts.

(** ** Report rendering *)

Section ReportFacts.
Import Strings Slack ReportSpec.

Lemma track_spec (opts : MessageOptions) (pr : PRInfo) (acc : Summary) :
  track opts pr acc =
  {| lines := lines acc;
     blockedPRs := blockedPRs acc ++ map (blocked_entry opts) (blocked_of [pr]);
     draftPRs := draftPRs acc ++ map (link_of opts) (draft_of [pr]) |}.
Proof.
  unfold track, blocked_entry, blocked_of, draft_of, link_of. simpl.
  destruct acc as [ls bs ds]. simpl.
  destruct (IsBlocked pr) eqn:Hb, (IsDraft pr) eqn:Hd; simpl;
    by rewrite ?Hd, ?app_nil_r.
Qed.

Lemma blocked_of_cons (pr : PRInfo) (prs : list PRInfo) :
  blocked_of (pr :: prs) = blocked_of [pr] ++ blocked_of prs.
Proof. unfold blocked_of. simpl. by destruct (IsBlocked pr). Qed.

Lemma draft_of_cons (pr : PRInfo) (prs : list PRInfo) :
  draft_of (pr :: prs) = draft_of [pr] ++ draft_of prs.
Proof. unfold draft_of. simpl. by destruct (IsDraft pr && negb (IsBlocked pr)). Qed.

Lemma pr_loop_spec (opts : MessageOptions) (prs : list PRInfo) (i : nat)
    (acc : Summary) :
  pr_loop opts i prs acc =
  {| lines := lines acc ++ pr_lines opts i prs;
     blockedPRs := blockedPRs acc ++ map (blocked_entry opts) (blocked_of prs);
     draftPRs := draftPRs acc ++ map (link_of opts) (draft_of prs) |}.
Proof.
  revert i acc. induction prs as [|pr prs IH]; intros i acc.
  - simpl. destruct acc. simpl. by rewrite !app_nil_r.
  - cbn [pr_loop]. rewrite IH, track_spec. cbn [lines blockedPRs draftPRs].
    rewrite (blocked_of_cons pr prs), (draft_of_cons pr prs).
    rewrite !map_app, <- !app_assoc. reflexivity.
Qed.

Lemma report_lines_shape (currentDate : string) (opts : MessageOptions)
    (prs : list PRInfo) :
  report_lines currentDate opts prs =
  before_date opts ++ date_line currentDate :: after_date opts prs.
Proof.
  unfold report_lines. rewrite pr_loop_spec. cbn [lines blockedPRs draftPRs].
  unfold before_date, after_date, footer, total_line.
  destruct (is_empty (ReportTitle opts)); simpl; by rewrite <- !app_assoc.
Qed.

Lemma filter_nonempty {A} (f : A → bool) (l : list A) :
  List.filter f l ≠ [] ↔ ∃ x, x ∈ l ∧ f x = true.
Proof.
  induction l as [|a l IH]; simpl.
  - split; [done|]. intros (x & Hx & _). by apply elem_of_nil in Hx.
  - destruct (f a) eqn:Hf.
    + split; [|done]. intros _. exists a. split; [left|done].
    + rewrite IH. split.
      * intros (x & Hx & H). exists x. split; [by right|done].
      * intros (x & [->|Hx]%elem_of_cons & H); [congruence|]. by exists x.
Qed.

Lemma filter_elem {A} (f : A → bool) (l : list A) (x : A) :
  x ∈ List.filter f l ↔ x ∈ l ∧ f x = true.
Proof. rewrite !list_elem_of_In. apply filter_In. Qed.

Lemma map_nonempty {A B} (f : A → B) (l : list A) : map f l ≠ [] ↔ l ≠ [].
Proof. by destruct l. Qed.

Lemma summary_lines_cases (blockedPRs draftPRs : list string) :
  summary_lines blockedPRs draftPRs =
  match blockedPRs, draftPRs with
  | [], [] => [na_line]
  | _ :: _, [] => [blocked_line blockedPRs]
  | [], _ :: _ => [draft_line draftPRs]
  | _ :: _, _ :: _ => [blocked_line blockedPRs; draft_line draftPRs]
  end.
Proof. by destruct blockedPRs, draftPRs. Qed.

Lemma mention_lines_cases (opts : MessageOptions) :
  (MentionUsers opts ≠ "" →
   mention_lines opts = "" :: explicit_mention (MentionUsers opts)) ∧
  (MentionUsers opts = "" → TeamGroup opts ≠ "" →
   mention_lines opts = [""; team_line (TeamGroup opts)]) ∧
  (MentionUsers opts = "" → TeamGroup opts = "" → mention_lines opts = []).
Proof.
  unfold mention_lines, explicit_mention. repeat split.
  - intros H%is_empty_false. rewrite H. simpl.
    by destruct (mentions_of _).
  - intros H1%is_empty_true H2%is_empty_false. by rewrite H1, H2.
  - intros H1%is_empty_true H2%is_empty_true. by rewrite H1, H2.
Qed.

Lemma SendPRReport_posts (api : API) (currentDate : string)
    (opts : MessageOptions) (prs : list PRInfo) (ev : Event) :
  ev ∈ trace (SendPRReport api currentDate opts prs) →
  ev = SlackPost (Channel opts) (message currentDate opts prs).
Proof.
  unfold SendPRReport.
  destruct (is_empty (Token opts)); [by intros ?%elem_of_nil|].
  destruct (is_empty (Channel opts)); [by intros ?%elem_of_nil|].
  destruct (_ || _); [by intros ?%elem_of_nil|].
  destruct (DebugMode opts); [destruct (AuthTest api (Token opts))|];
    simpl; try by intros ?%elem_of_nil.
  - by intros ->%list_elem_of_singleton.
  - by intros ->%list_elem_of_singleton.
Qed.

End ReportFacts.

Section MainReportFacts.
Import Strings Main MainSpec.

Lemma main_track_spec (config : Config) (pr : PullRequestInfo)
    (acc : Slack.Summary) :
  track config pr acc =
  {| Slack.lines := Slack.lines acc;
     Slack.blockedPRs :=
       Slack.blockedPRs acc ++ map (blocked_entry config) (blocked_of [pr]);
     Slack.draftPRs :=
       Slack.draftPRs acc ++ map (link_of config) (draft_of [pr]) |}.
Proof.
  unfold track, blocked_entry, blocked_of, draft_of, link_of. simpl.
  destruct acc as [ls bs ds]. simpl.
  destruct (IsBlocked pr) eqn:Hb, (IsDraft pr) eqn:Hd; simpl;
    by rewrite ?Hd, ?app_nil_r.
Qed.

Lemma main_pr_loop_spec (config : Config) (prs : list PullRequestInfo)
    (i : nat) (acc : Slack.Summary) :
  pr_loop config i prs acc =
  {| Slack.lines := Slack.lines acc ++ pr_lines config i prs;
     Slack.blockedPRs :=
       Slack.blockedPRs acc ++ map (blocked_entry config) (blocked_of prs);
     Slack.draftPRs :=
       Slack.draftPRs acc ++ map (link_of config) (draft_of prs) |}.
Proof.
  revert i acc. induction prs as [|pr prs IH]; intros i acc.
  - simpl. destruct acc. simpl. by rewrite !app_nil_r.
  - cbn [pr_loop]. rewrite IH, main_track_spec.
    cbn [Slack.lines Slack.blockedPRs Slack.draftPRs].
    assert (blocked_of (pr :: prs) = blocked_of [pr] ++ blocked_of prs) as ->.
    { unfold blocked_of. simpl. by destruct (IsBlocked pr). }
    assert (draft_of (pr :: prs) = draft_of [pr] ++ draft_of prs) as ->.
    { unfold draft_of. simpl. by destruct (IsDraft pr && negb (IsBlocked pr)). }
    rewrite !map_app, <- !app_assoc. reflexivity.
Qed.

Lemma main_report_lines_shape (date : string) (config : Config)
    (prs : list PullRequestInfo) :
  report_lines date config prs =
  Slack.date_line date :: after_date config prs.
Proof.
  unfold report_lines. rewrite main_pr_loop_spec.
  cbn [Slack.lines Slack.blockedPRs Slack.draftPRs].
  unfold after_date, footer, total_line. simpl. by rewrite <- !app_assoc.
Qed.

Lemma main_summary_lines_cases (blockedPRs draftPRs : list string) :
  summary_lines blockedPRs draftPRs =
  match blockedPRs, draftPRs with
  | [], [] => [na_line]
  | _ :: _, [] => [blocked_line blockedPRs]
  | [], _ :: _ => [draft_line draftPRs]
  | _ :: _, _ :: _ => [blocked_line blockedPRs; draft_line draftPRs]
  end.
Proof. by destruct blockedPRs, draftPRs. Qed.

End MainReportFacts.


Section Rendering.
Import Strings.

(** C8.  Rendering is deterministic: for fixed options and PRs the lines
    of the report are a fixed list before the date line and a fixed list
    after it, the message is their join, and the message is what is
    posted; two renderings differ in the date line only.  This holds for
    [SendPRReport] and for [SendSlackMessage]. *)
Theorem report_differs_in_date_line_only :
  (∀ (opts : Slack.MessageOptions) (prs : list Slack.PRInfo),
     ∃ before after, ∀ currentDate,
       Slack.report_lines currentDate opts prs =
         before ++ Slack.date_line currentDate :: after ∧
       Slack.message currentDate opts prs =
         Join (before ++ Slack.date_line currentDate :: after) newline ∧
       ∀ api ev,
         ev ∈ trace (Slack.SendPRReport api currentDate opts prs) →
         ev = SlackPost (Slack.Channel opts)
                (Slack.message currentDate opts prs)) ∧
  (∀ (config : Main.Config) (prs : list Main.PullRequestInfo),
     ∃ after, ∀ w,
       Main.report_lines (Main.currentDate w) config prs =
         Slack.date_line (Main.currentDate w) :: after ∧
       Main.message (Main.currentDate w) config prs =
         Join (Slack.date_line (Main.currentDate w) :: after) newline ∧
       trace (Main.SendSlackMessage w config prs) =
         [SlackPost (Main.SlackChannel config)
            (Main.message (Main.currentDate w) config prs)]).
Proof.
  split.
  - intros opts prs.
    exists (ReportSpec.before_date opts), (ReportSpec.after_date opts prs).
    intros d. split; [apply report_lines_shape|]. split.
    + unfold Slack.message. by rewrite report_lines_shape.
    + intros api ev. apply SendPRReport_posts.
  - intros config prs. exists (MainSpec.after_date config prs).
    intros w. split; [apply main_report_lines_shape|]. split; [|done].
    unfold Main.message. by rewrite main_report_lines_shape.
Qed.





End Rendering.

(** ** The pipeline *)

Section PipelineFacts.
Import Strings.

Lemma PullRequestsList_first_page (host : Github.Host)
    (token owner repo : string) (all : list Github.PullRequest) :
  Github.OpenPulls host token owner repo = Ok all →
  Github.PullRequestsList host token owner repo CollectorSpec.first_page
    = Ok (take 100 all).
Proof. intros H. unfold Github.PullRequestsList. by rewrite H. Qed.

(** C1, at the failing input.  The repository has 101 open pull requests
    and every one of them passes the filters.  [FetchPRs] returns 100
    results, none of them built from the last pull request, and so does
    [FetchPullRequests]: both read the first page of the listing only. *)
Theorem FetchPRs_reads_first_page_only :
  length CollectorSpec.crowded = 101%nat ∧
  CollectorSpec.last_of_crowded ∈ CollectorSpec.crowded ∧
  CollectorSpec.condition CollectorSpec.plain_opts
    CollectorSpec.last_of_crowded ∧
  (∃ res,
     Github.FetchPRs (CollectorSpec.host_of CollectorSpec.crowded)
       CollectorSpec.plain_opts = Ok res ∧
     length res = 100%nat ∧
     ∀ r, r ∈ res → ¬ CollectorSpec.represents CollectorSpec.last_of_crowded r) ∧
  (∃ prs,
     outcome (Main.FetchPullRequests MainSpec.crowded_world
                MainSpec.sample_config) = Ok prs ∧
     length prs = 100%nat ∧
     ∀ pr, pr ∈ prs → Main.Number pr ≠ 101).
Proof.
  split; [reflexivity|]. split.
  { apply list_elem_of_In. vm_compute. do 100 right. by left. }
  split; [apply passes_condition; reflexivity|]. split.
  - exists (map (λ n, {| Github.Number := Z.of_nat n;
                         Github.Title := "Work in progress";
                         Github.URL := "https://github.com/acme/app/pull/"
                                       +:+ Itoa (Z.of_nat n);
                         Github.Assignee := ""; Github.JiraTicket := "";
                         Github.IsDraft := false;
                         Github.PRLabels := ["Poker"];
                         Github.Author := "alice" |}) (seq 1 100)).
    split; [vm_compute; reflexivity|]. split; [reflexivity|].
    intros r Hin (Hn & _). apply list_elem_of_fmap in Hin as (n & -> & Hn').
    apply elem_of_seq in Hn'. simpl in Hn. injection Hn as Hn. lia.
  - exists (map (λ n, {| Main.Number := Z.of_nat n;
                         Main.Title := "Work in progress";
                         Main.URL := "https://github.com/acme/app/pull/"
                                     +:+ Itoa (Z.of_nat n);
                         Main.Assignee := "unassigned";
                         Main.JiraTicket := ""; Main.JiraStatus := "";
                         Main.JiraStatusID := ""; Main.Description := "";
                         Main.IsDraft := false; Main.IsBlocked := false |})
                (seq 1 100)).
    split; [vm_compute; reflexivity|]. split; [reflexivity|].
    intros pr Hin Hn. apply list_elem_of_fmap in Hin as (n & -> & Hn').
    apply elem_of_seq in Hn'. simpl in Hn. lia.
Qed.

Lemma FetchTicketsInfo_missing_credentials (tr : Jira.Tracker)
    (opts : Jira.FetchOptions) (ticketIDs : list string) :
  Jira.credentials_missing opts = true →
  ∃ results,
    outcome (Jira.FetchTicketsInfo tr opts ticketIDs) = Ok results ∧
    ∀ ticketID, ticketID ∈ ticketIDs → ticketID ≠ "" →
      results !! ticketID =
        Some (Jira.error_info ticketID "JIRA credentials not fully configured").
Proof.
  intros Hc.
  destruct (tickets_loop_lookup tr opts ticketIDs ∅) as (res & Hres & Hl).
  exists res. split; [exact Hres|]. intros id Hin Hid.
  rewrite Hl, decide_True by done. unfold JiraSpec.expected_info.
  by rewrite FetchTicketInfo_missing_credentials.
Qed.

(** The single-file program skips the enrichment when the credentials are
    not configured: the PRs are left as they are, the function returns no
    error and writes the warning when some PR has a ticket. *)
Lemma UpdateJiraInfo_missing_credentials (tr : Jira.Tracker)
    (config : Main.Config) (prs : list Main.PullRequestInfo) :
  is_empty (Main.JiraUsername config) || is_empty (Main.JiraAPIToken config)
    || is_empty (Main.JiraURL config) = true →
  outcome (Main.UpdateJiraInfo tr config prs) = Ok prs ∧
  trace (Main.UpdateJiraInfo tr config prs) =
    if Main.hasJiraTickets prs
    then [LogLine MainSpec.missing_credentials_warning] else [].
Proof.
  intros Hc. unfold Main.UpdateJiraInfo. rewrite Hc.
  by destruct (Main.hasJiraTickets prs).
Qed.

(** C2, at the failing input.  No tracker variable is set and one fetched
    PR carries the ticket POKER-42: the modular program looks the ticket
    up all the same, stores the lookup's error, and hands the PR to the
    report with the status "Error". *)
Theorem enrich_without_credentials :
  Jira.credentials_missing
    {| Jira.URL := Middletier.Getenv MiddletierSpec.bare_env "JIRA_URL";
       Jira.Username := Middletier.Getenv MiddletierSpec.bare_env "JIRA_USERNAME";
       Jira.APIToken := Middletier.Getenv MiddletierSpec.bare_env "JIRA_API_TOKEN";
       Jira.UsePAT := false; Jira.DebugMode := false |} = true ∧
  Middletier.enrich JiraSpec.sample_tracker MiddletierSpec.bare_env
    [MiddletierSpec.fetched_pr] =
  Prog [LogLine "Fetching JIRA info for 1 tickets";
        LogLine "Warning: Error fetching JIRA ticket POKER-42: JIRA credentials not fully configured"]
       (Ok [{| Slack.Number := 7;
               Slack.Title := "Fix login bug POKER-42";
               Slack.Assignee := "";
               Slack.JiraTicket := "POKER-42";
               Slack.JiraStatus := "Error";
               Slack.Description := "Error: JIRA credentials not fully configured";
               Slack.IsDraft := false;
               Slack.IsBlocked := false |}]).
Proof. split; reflexivity. Qed.

Lemma members_loop_no_humans (api : Slack.API) (config : Main.Config)
    (members allowedUsers : list string) (slackUserMap : gmap string string) :
  Forall (λ memberID,
            match Slack.GetUserInfo api (Main.SlackToken config) memberID with
            | Ok user => Slack.IsBot user || Slack.Deleted user = true
            | Err _ => True
            | Panic => False
            end) members →
  Main.members_loop api config members allowedUsers slackUserMap
    = Ok (allowedUsers, slackUserMap).
Proof.
  induction 1 as [|memberID l H _ IH]; simpl; [done|].
  destruct (Slack.GetUserInfo _ _ _) as [user| |]; [|done|done].
  by rewrite H.
Qed.

(** C3, as amended.  When the resolved set of permitted users is empty,
    [FetchPullRequests] returns no PR and no error and writes one warning;
    [RunReport] goes on, posts the report of zero PRs to the channel and
    ends with the outcome of that post. *)
Theorem RunReport_empty_membership (w : Main.World) (config : Main.Config)
    (slackUserMap : gmap string string) :
  Main.GetSlackChannelUsers (Main.slack w) config = Ok ([], slackUserMap) →
  Main.FetchPullRequests w config =
    Prog [LogLine MainSpec.empty_channel_warning] (Ok []) ∧
  MainSpec.published (trace (Main.RunReport w config)) =
    [(Main.SlackChannel config, Main.message (Main.currentDate w) config [])] ∧
  Main.report_lines (Main.currentDate w) config [] =
    [Slack.date_line (Main.currentDate w); "";
     ":bar_chart: *Total Open PRs: 0*"; ""; ""; Main.na_line; "";
     Slack.team_line (Main.TeamGroup config)] ∧
  Main.RunReport w config =
    Prog ([LogLine "Starting PR report generation...";
           LogLine MainSpec.empty_channel_warning;
           LogLine "Found 0 PRs matching criteria";
           SlackPost (Main.SlackChannel config)
             (Main.message (Main.currentDate w) config [])]
          ++ match MainSpec.post_error w config [] with
             | None => [LogLine "PR report sent successfully!"]
             | Some _ => []
             end)
         (match MainSpec.post_error w config [] with
          | None => Ok tt
          | Some e => Err ("error sending Slack message: " +:+ e)
          end).
Proof.
  intros H.
  assert (Main.FetchPullRequests w config =
          Prog [LogLine MainSpec.empty_channel_warning] (Ok [])) as Hfetch.
  { unfold Main.FetchPullRequests. by rewrite H. }
  assert (Main.RunReport w config =
    Prog ([LogLine "Starting PR report generation...";
           LogLine MainSpec.empty_channel_warning;
           LogLine "Found 0 PRs matching criteria";
           SlackPost (Main.SlackChannel config)
             (Main.message (Main.currentDate w) config [])]
          ++ match MainSpec.post_error w config [] with
             | None => [LogLine "PR report sent successfully!"]
             | Some _ => []
             end)
         (match MainSpec.post_error w config [] with
          | None => Ok tt
          | Some e => Err ("error sending Slack message: " +:+ e)
          end)) as Hrun.
  { unfold Main.RunReport. rewrite Hfetch. unfold MainSpec.post_error.
    unfold Main.SendSlackMessage, Main.wrap_prog, Main.UpdateJiraInfo.
    unfold log, mbind, prog_bind. simpl.
    destruct (Slack.PostMessage _ _ _ _); reflexivity. }
  split; [exact Hfetch|]. split; [|split; [reflexivity|exact Hrun]].
  rewrite Hrun. by destruct (MainSpec.post_error w config []).
Qed.

Lemma RunReport_empty_membership_witness :
  MainSpec.published
    (trace (Main.RunReport MainSpec.quiet_world MainSpec.sample_config)) =
  [("#reviews",
    Main.message "2024-05-06" MainSpec.sample_config [])].
Proof.
  destruct (RunReport_empty_membership MainSpec.quiet_world
              MainSpec.sample_config ∅) as (_ & Hpub & _).
  - reflexivity.
  - exact Hpub.
Defined.

(** C3, counterexample.  The channel has the reporting bot as its only
    member, so the permitted set is empty; the run is not an error and a
    message is posted to the channel. *)
Lemma RunReport_publishes_on_empty_channel :
  Main.GetSlackChannelUsers (Main.slack MainSpec.quiet_world)
    MainSpec.sample_config = Ok ([], ∅) ∧
  outcome (Main.RunReport MainSpec.quiet_world MainSpec.sample_config)
    = Ok tt ∧
  MainSpec.published
    (trace (Main.RunReport MainSpec.quiet_world MainSpec.sample_config))
    ≠ [].
Proof. split; [reflexivity|]. split; [reflexivity|]. discriminate. Qed.

End PipelineFacts.

(** ** The scenarios of the specification *)

Section Scenarios.
Import Strings.

Example scenario_label_filter :
  Github.FetchPRs (CollectorSpec.host_of [CollectorSpec.sample_pr])
    CollectorSpec.sample_opts =
  Ok [{| Github.Number := 7; Github.Title := "Fix login bug POKER-42";
         Github.URL := "https://github.com/acme/app/pull/7";
         Github.Assignee := ""; Github.JiraTicket := "POKER-42";
         Github.IsDraft := false; Github.PRLabels := ["poker"; "bug"];
         Github.Author := "alice" |}].
Proof. reflexivity. Qed.

Example scenario_blocked_status :
  Jira.ticket_of_issue "POKER-42"
    (Some {| Jira.Fields := Some
       {| Jira.FieldStatus := Some {| Jira.Name := "Blocked - Waiting" |};
          Jira.FieldSummary := "Fix login"; Jira.FieldLabels := [] |} |}) =
  {| Jira.TicketID := "POKER-42"; Jira.Status := "Blocked - Waiting";
     Jira.Summary := "Fix login"; Jira.IsBlocked := true |}.
Proof. reflexivity. Qed.

Example scenario_unmapped_assignee :
  Slack.MapGitHubUserToMention ∅ "alice" = "@alice".
Proof. reflexivity. Qed.

Example scenario_missing_credentials :
  Main.UpdateJiraInfo JiraSpec.sample_tracker MainSpec.no_jira_config
    [MainSpec.sample_info 7 "SCRUM-1" false false] =
  Prog [LogLine MainSpec.missing_credentials_warning]
       (Ok [MainSpec.sample_info 7 "SCRUM-1" false false]).
Proof. reflexivity. Qed.

End Scenarios.

(** * Further properties of the code *)

(** ** FetchPRs *)

Section FetchPRsFacts.
Import Strings Github CollectorSpec CoverSpec.

Lemma deref_names_cases (labels : list Label) :
  (Forall (λ label, is_Some (Name label)) labels ∧ deref_names labels = Ok tt) ∨
  (¬ Forall (λ label, is_Some (Name label)) labels ∧ deref_names labels = Panic).
Proof.
  induction labels as [|[[name|]] ls IH]; simpl.
  - left. by split.
  - destruct IH as [[Hall Hok]|[Hnot Hp]].
    + left. split; [|done]. constructor; [by eexists|done].
    + right. split; [|done]. intros H. apply Hnot. by inversion H.
  - right. split; [|done]. intros H. inversion H as [|? ? [? Hx]]. done.
Qed.

Lemma debug_pr_info_cases (pr : PullRequest) :
  (debug_readable pr ∧ debug_pr_info pr = Ok tt) ∨
  (¬ debug_readable pr ∧ debug_pr_info pr = Panic).
Proof.
  unfold debug_readable, debug_pr_info, login_of.
  destruct (pr_Number pr) as [n|]; simpl;
    [|right; split; [by intros ([? ?] & _)|done]].
  destruct (pr_Title pr) as [t|]; simpl;
    [|right; split; [by intros (_ & [? ?] & _)|done]].
  destruct (pr_User pr) as [[[login|]]|]; simpl;
    try (right; split; [by intros (_ & _ & [? ?] & _)|done]).
  destruct (pr_Draft pr) as [d|]; simpl;
    [|right; split; [by intros (_ & _ & _ & [? ?] & _)|done]].
  destruct (deref_names_cases (pr_Labels pr)) as [[Hall Hok]|[Hnot Hp]].
  - left. by repeat split; try by eexists.
  - right. split; [|done]. by intros (_ & _ & _ & _ & H).
Qed.

Lemma examine_quiet (opts : FetchOptions) (pr : PullRequest) :
  examine opts pr =
  (if DebugMode opts then debug_pr_info pr else mret tt)
    ≫= λ _, examine (quiet opts) pr.
Proof. reflexivity. Qed.

Lemma passes_quiet (opts : FetchOptions) (pr : PullRequest) :
  passes (quiet opts) pr = passes opts pr.
Proof. reflexivity. Qed.

Lemma examine_body_cases (opts : FetchOptions) (pr : PullRequest) :
  DebugMode opts = false →
  (passes opts pr = true ∧ result_readable pr ∧
   ∃ r, examine opts pr = Ok (Some r) ∧ represents pr r) ∨
  (passes opts pr = true ∧ ¬ result_readable pr ∧ examine opts pr = Panic) ∨
  (passes opts pr = false ∧ examine opts pr = Ok None).
Proof.
  intros Hd. unfold examine, passes. rewrite Hd, bind_Ok.
  destruct (login_of (pr_User pr)) as [login|] eqn:Hlogin;
    [|right; right; by split].
  assert (result_readable pr ∧
            (∃ r,
              (number ← deref (pr_Number pr);
               title ← deref (pr_Title pr);
               url ← deref (pr_HTMLURL pr);
               draft ← deref (pr_Draft pr);
               mret (Some {| Number := number; Title := title; URL := url;
                     Assignee := default "" (login_of (pr_Assignee pr));
                     JiraTicket := extract_ticket jiraRegex (pr_Title pr);
                     IsDraft := draft;
                     PRLabels := label_names (pr_Labels pr);
                     Author := login |})) = Ok (Some r) ∧ represents pr r)
          ∨ ¬ result_readable pr ∧
            (number ← deref (pr_Number pr);
             title ← deref (pr_Title pr);
             url ← deref (pr_HTMLURL pr);
             draft ← deref (pr_Draft pr);
             mret (Some {| Number := number; Title := title; URL := url;
                   Assignee := default "" (login_of (pr_Assignee pr));
                   JiraTicket := extract_ticket jiraRegex (pr_Title pr);
                   IsDraft := draft;
                   PRLabels := label_names (pr_Labels pr);
                   Author := login |})) = Panic) as Hbuild.
  { unfold result_readable, represents. rewrite Hlogin.
    destruct (pr_Number pr) as [n|]; simpl;
      [|right; split; [by intros ([? ?] & _)|done]].
    destruct (pr_Title pr) as [t|]; simpl;
      [|right; split; [by intros (_ & [? ?] & _)|done]].
    destruct (pr_HTMLURL pr) as [u|]; simpl;
      [|right; split; [by intros (_ & _ & [? ?] & _)|done]].
    destruct (pr_Draft pr) as [d|]; simpl;
      [|right; split; [by intros (_ & _ & _ & [? ?])|done]].
    left. split; [by repeat split; eexists|].
    eexists. split; [reflexivity|]. by repeat split. }
  remember (userFound (AllowedUsers opts) login) as found.
  remember (hasMatchingLabel (pr_Labels pr) (Labels opts)) as matching.
  unfold nonempty.
  destruct (AllowedUsers opts), (Labels opts), found, matching;
    cbn [length Nat.ltb Nat.leb andb negb];
    try (right; right; by split);
    (destruct Hbuild as [[Hr Hex]|[Hr Hp]];
     [left; split; [done|]; split; [exact Hr|exact Hex]
     |right; left; split; [done|]; split; [exact Hr|exact Hp]]).
Qed.

Lemma examine_cases (opts : FetchOptions) (pr : PullRequest) :
  (readable opts pr ∧ passes opts pr = true ∧
   ∃ r, examine opts pr = Ok (Some r) ∧ represents pr r) ∨
  (readable opts pr ∧ passes opts pr = false ∧ examine opts pr = Ok None) ∨
  (¬ readable opts pr ∧ examine opts pr = Panic).
Proof.
  rewrite examine_quiet. unfold readable.
  assert (DebugMode (quiet opts) = false) as Hq by done.
  pose proof (examine_body_cases (quiet opts) pr Hq) as Hbody.
  rewrite passes_quiet in Hbody.
  destruct (DebugMode opts) eqn:Hd.
  - destruct (debug_pr_info_cases pr) as [[Hdr ->]|[Hdr ->]].
    + rewrite bind_Ok.
      destruct Hbody as [(Hp & Hr & Hex)|[(Hp & Hr & Hex)|(Hp & Hex)]].
      * left. split; [|by split]. split; [done|]. by intros _.
      * right. right. split; [|done]. intros [_ H]. by apply Hr, H.
      * right. left. split; [|by split]. split; [done|]. intros H. congruence.
    + right. right. split; [|done]. intros [H _]. by apply Hdr, H.
  - rewrite bind_Ok.
    destruct Hbody as [(Hp & Hr & Hex)|[(Hp & Hr & Hex)|(Hp & Hex)]].
    + left. split; [|by split]. split; [done|]. by intros _.
    + right. right. split; [|done]. intros [_ H]. by apply Hr, H.
    + right. left. split; [|by split]. split; [done|]. intros H. congruence.
Qed.

Lemma filter_loop_cases (opts : FetchOptions) (allPRs : list PullRequest)
    (filteredPRs : list PRResult) :
  (Forall (readable opts) allPRs ∧
   ∃ kept new,
     filter_loop opts allPRs filteredPRs = Ok (filteredPRs ++ new) ∧
     selected (condition opts) allPRs kept ∧ Forall2 represents kept new) ∨
  (¬ Forall (readable opts) allPRs ∧
   filter_loop opts allPRs filteredPRs = Panic).
Proof.
  revert filteredPRs. induction allPRs as [|pr l IH]; intros acc; simpl.
  - left. split; [constructor|]. exists [], []. rewrite app_nil_r.
    repeat split; constructor.
  - destruct (examine_cases opts pr)
      as [(Hr & Hp & r & -> & Hrep)|[(Hr & Hp & ->)|(Hr & ->)]].
    + rewrite bind_Ok. destruct (IH (acc ++ [r]))
        as [(Hall & kept & new & -> & Hsel & Hreps)|(Hnot & ->)].
      * left. split; [by constructor|]. exists (pr :: kept), (r :: new).
        rewrite <- app_assoc. split; [done|]. split; [|by constructor].
        constructor; [|done]. by apply passes_condition.
      * right. split; [|done]. intros H. apply Hnot. by inversion H.
    + rewrite bind_Ok. destruct (IH acc)
        as [(Hall & kept & new & -> & Hsel & Hreps)|(Hnot & ->)].
      * left. split; [by constructor|]. exists kept, new.
        split; [done|]. split; [|done].
        constructor; [|done]. rewrite <- passes_condition. congruence.
      * right. split; [|done]. intros H. apply Hnot. by inversion H.
    + right. split; [|done]. intros H. apply Hr. by inversion H.
Qed.

Lemma FetchPRs_loop (host : Host) (opts : FetchOptions)
    (allPRs : list PullRequest) :
  Token opts ≠ "" → Owner opts ≠ "" → Repo opts ≠ "" →
  (DebugMode opts = true →
   verify_authentication host (Token opts) = Ok tt) →
  PullRequestsList host (Token opts) (Owner opts) (Repo opts) first_page
    = Ok allPRs →
  FetchPRs host opts = filter_loop opts allPRs [].
Proof.
  intros Ht Ho Hr Hauth Hlist. unfold FetchPRs.
  apply is_empty_false in Ht, Ho, Hr. rewrite Ht, Ho, Hr.
  assert ((if DebugMode opts then verify_authentication host (Token opts)
           else mret tt) = Ok tt) as ->.
  { destruct (DebugMode opts); [by apply Hauth|done]. }
  rewrite bind_Ok. fold first_page. by rewrite Hlist, bind_Ok.
Qed.

Lemma FetchPRs_Ok_inv (host : Host) (opts : FetchOptions)
    (res : list PRResult) :
  FetchPRs host opts = Ok res →
  Token opts ≠ "" ∧ Owner opts ≠ "" ∧ Repo opts ≠ "" ∧
  (DebugMode opts = true →
   verify_authentication host (Token opts) = Ok tt) ∧
  ∃ all,
    OpenPulls host (Token opts) (Owner opts) (Repo opts) = Ok all ∧
    filter_loop opts (take 100 all) [] = Ok res.
Proof.
  unfold FetchPRs.
  destruct (is_empty (Token opts)) eqn:Ht; [done|].
  destruct (is_empty (Owner opts)) eqn:Ho; [done|].
  destruct (is_empty (Repo opts)) eqn:Hr; [done|].
  apply is_empty_false in Ht, Ho, Hr.
  destruct (DebugMode opts).
  - destruct (verify_authentication host (Token opts)) as [[]| |] eqn:Hv;
      [|done|done].
    rewrite bind_Ok. unfold PullRequestsList.
    destruct (OpenPulls host _ _ _) as [all| |]; [|done|done].
    simpl. intros H. repeat split; try done. by exists all.
  - rewrite bind_Ok. unfold PullRequestsList.
    destruct (OpenPulls host _ _ _) as [all| |]; [|done|done].
    simpl. intros H. repeat split; try done. by exists all.
Qed.

Lemma selected_length {A} (P : A → Prop) (l kept : list A) :
  selected P l kept → (length kept ≤ length l)%nat.
Proof. induction 1; simpl; lia. Qed.





End FetchPRsFacts.

(** ** Ticket lookups *)

Section LookupFacts.
Import Strings Jira JiraSpec CoverSpec.

Lemma check_status_keeps (st : option IssueStatus) (ti : TicketInfo) :
  TicketID (check_status st ti) = TicketID ti ∧
  Status (check_status st ti) = Status ti ∧
  Summary (check_status st ti) = Summary ti.
Proof.
  unfold check_status. destruct st as [s|]; [|done].
  destruct (negb _); [|done]. by destruct (is_blocking_text _).
Qed.

Lemma check_labels_keeps (labels : list string) (ti : TicketInfo) :
  TicketID (check_labels labels ti) = TicketID ti ∧
  Status (check_labels labels ti) = Status ti ∧
  Summary (check_labels labels ti) = Summary ti.
Proof.
  induction labels as [|l labels IH]; simpl; [done|].
  by destruct (is_blocking_text _).
Qed.

Lemma ticket_of_issue_key (ticketID : string) (iss : option Issue) :
  TicketID (ticket_of_issue ticketID iss) = ticketID ∧
  Status (ticket_of_issue ticketID iss) ≠ "".
Proof.
  destruct iss as [[[fields|]]|]; [|done|done].
  rewrite ticket_of_issue_fields.
  destruct (check_labels_keeps (FieldLabels fields)
              (check_status (FieldStatus fields) (initial_info ticketID fields)))
    as (-> & -> & _).
  destruct (check_status_keeps (FieldStatus fields)
              (initial_info ticketID fields)) as (-> & -> & _).
  split; [done|]. simpl.
  destruct (is_empty (status_name fields)) eqn:He; [done|].
  by apply is_empty_false.
Qed.

Lemma expected_info_key (tr : Tracker) (opts : FetchOptions)
    (ticketID : string) :
  TicketID (expected_info tr opts ticketID) = ticketID ∧
  Status (expected_info tr opts ticketID) ≠ "".
Proof.
  unfold expected_info, FetchTicketInfo.
  destruct (is_empty ticketID); [done|].
  destruct (credentials_missing opts); [done|].
  destruct (new_client tr opts) as [c| |]; simpl; [|done|done].
  destruct (err _).
  - by destruct (not_found _).
  - apply ticket_of_issue_key.
Qed.

(** X3.  The map that the batch lookup returns has an entry exactly for
    the non-empty identifiers of the list, never for the empty identifier;
    the [TicketID] of every entry is its key and its [Status] is not
    empty. *)
Theorem FetchTicketsInfo_entries (tr : Tracker) (opts : FetchOptions)
    (ticketIDs : list string) :
  ∃ results,
    outcome (FetchTicketsInfo tr opts ticketIDs) = Ok results ∧
    (∀ ticketID,
       is_Some (results !! ticketID) ↔ ticketID ∈ ticketIDs ∧ ticketID ≠ "") ∧
    (∀ ticketID ticketInfo,
       results !! ticketID = Some ticketInfo →
       TicketID ticketInfo = ticketID ∧ Status ticketInfo ≠ "").
Proof.
  destruct (tickets_loop_lookup tr opts ticketIDs ∅) as (res & Hres & Hl).
  exists res. split; [exact Hres|]. split.
  - intros id. rewrite Hl. case_decide as H.
    + split; [done|]. intros _. by eexists.
    + rewrite lookup_empty. split; [by intros [? ?]|done].
  - intros id ti. rewrite Hl. case_decide as H; [|by rewrite lookup_empty].
    intros [= <-]. apply expected_info_key.
Qed.

Lemma FetchTicketsInfo_entries_witness :
  ∃ results,
    outcome (FetchTicketsInfo sample_tracker sample_opts ["POKER-1"; ""])
      = Ok results ∧
    results !! "" = None ∧
    is_Some (results !! "POKER-1").
Proof.
  destruct (FetchTicketsInfo_entries sample_tracker sample_opts
              ["POKER-1"; ""]) as (results & Hok & Hdom & _).
  exists results. split; [exact Hok|]. split.
  - destruct (results !! "") eqn:Hl; [|reflexivity].
    destruct (Hdom "") as [H _]. destruct H as [_ H]; [by eexists|done].
  - apply Hdom. split; [left|discriminate].
Defined.

Lemma tickets_loop_trace (tr : Tracker) (opts : FetchOptions)
    (ticketIDs : list string) (results : gmap string TicketInfo) :
  trace (tickets_loop tr opts ticketIDs results) = warnings tr opts ticketIDs.
Proof.
  revert results. induction ticketIDs as [|a ids IH]; intros results; simpl;
    [done|].
  destruct (is_empty a); [apply IH|].
  destruct (FetchTicketInfo tr opts a) as [ti|e|] eqn:Hf.
  - apply IH.
  - unfold mbind, prog_bind. simpl. by rewrite IH.
  - by apply FetchTicketInfo_no_panic in Hf.
Qed.



Lemma check_status_flag (st : option IssueStatus) (ti : TicketInfo) :
  IsBlocked (check_status st ti) = Main.blocked_by_status st (IsBlocked ti).
Proof.
  unfold check_status, Main.blocked_by_status. destruct st as [s|]; [|done].
  destruct (negb _); [|done]. by destruct (is_blocking_text _).
Qed.

Lemma check_labels_flag (labels : list string) (ti : TicketInfo) :
  IsBlocked (check_labels labels ti) =
  Main.blocked_by_labels labels (IsBlocked ti).
Proof.
  induction labels as [|l labels IH]; simpl; [done|].
  by destruct (is_blocking_text _).
Qed.

Lemma blocked_by_status_or (st : option IssueStatus) (b : bool) :
  Main.blocked_by_status st b = b || Main.blocked_by_status st false.
Proof.
  unfold Main.blocked_by_status. destruct st as [s|]; [|by rewrite orb_false_r].
  destruct (negb _); [|by rewrite orb_false_r].
  destruct (is_blocking_text _); [by rewrite orb_true_r|by rewrite orb_false_r].
Qed.

Lemma blocked_by_labels_or (labels : list string) (b1 b2 : bool) :
  Main.blocked_by_labels labels (b1 || b2) =
  b1 || Main.blocked_by_labels labels b2.
Proof.
  induction labels as [|l labels IH]; simpl; [done|].
  destruct (is_blocking_text _); [by rewrite orb_true_r|done].
Qed.

Lemma apply_issue_agrees (ticketID : string) (iss : option Issue)
    (pr : Main.PullRequestInfo) :
  Main.JiraStatus (Main.apply_issue iss pr) =
    Status (ticket_of_issue ticketID iss) ∧
  Main.IsBlocked (Main.apply_issue iss pr) =
    Main.IsBlocked pr || IsBlocked (ticket_of_issue ticketID iss) ∧
  (is_Some (iss ≫= Fields) →
   Main.Description (Main.apply_issue iss pr) =
     Summary (ticket_of_issue ticketID iss)).
Proof.
  destruct iss as [[[fields|]]|];
    try (simpl; split; [done|]; split;
         [by rewrite orb_false_r|by intros [? ?]]).
  rewrite ticket_of_issue_fields.
  destruct (check_labels_keeps (FieldLabels fields)
              (check_status (FieldStatus fields)
                 (initial_info ticketID fields))) as (_ & -> & ->).
  destruct (check_status_keeps (FieldStatus fields)
              (initial_info ticketID fields)) as (_ & -> & ->).
  rewrite check_labels_flag, check_status_flag.
  unfold Main.apply_issue, initial_info, status_name. simpl.
  split; [|split].
  - destruct (FieldStatus fields) as [s|]; simpl; [|done].
    by destruct (is_empty (Name s)).
  - rewrite (blocked_by_status_or _ (Main.IsBlocked pr)).
    apply blocked_by_labels_or.
  - intros _. by destruct (is_empty (FieldSummary fields)).
Qed.

(** X5.  The two implementations of the ticket lookup agree.  For a PR with
    a ticket, one iteration of the loop of [UpdateJiraInfo] leaves in
    [JiraStatus] the status that [FetchTicketsInfo] stores for the ticket
    under the same basic-auth credentials, and in [IsBlocked] the flag the
    PR had or the stored flag; when the tracker returned issue fields,
    [Description] is the stored summary.  (After a failed lookup the
    single-file program keeps the description, the batch stores a
    text.) *)
Theorem update_pr_agrees_with_FetchTicketInfo (tr : Tracker)
    (config : Main.Config) (pr : Main.PullRequestInfo) :
  credentials_missing (jira_opts config) = false →
  NewClient tr (Main.JiraURL config) = None →
  Main.JiraTicket pr ≠ "" →
  let stored := expected_info tr (jira_opts config) (Main.JiraTicket pr) in
  let reply := IssueGet tr (basic_client config) (Main.JiraTicket pr) in
  ∃ pr',
    outcome (Main.update_pr tr (basic_client config) pr) = Ok pr' ∧
    Main.JiraStatus pr' = Status stored ∧
    Main.IsBlocked pr' = Main.IsBlocked pr || IsBlocked stored ∧
    (err reply = None → is_Some (issue reply ≫= Fields) →
     Main.Description pr' = Summary stored) ∧
    (is_Some (err reply) → Main.Description pr' = Main.Description pr).
Proof.
  intros Hc Hn Hid stored reply. subst stored.
  unfold expected_info, FetchTicketInfo, Main.update_pr.
  apply is_empty_false in Hid. rewrite Hid, Hc.
  unfold new_client. simpl. rewrite Hn. simpl.
  fold (basic_client config). fold reply.
  destruct (err reply) as [e|] eqn:He.
  - destruct (not_found (resp reply)); eexists; (split; [reflexivity|]);
      simpl; rewrite orb_false_r; repeat split; try done.
  - eexists. split; [reflexivity|].
    destruct (apply_issue_agrees (Main.JiraTicket pr) (issue reply) pr)
      as (H1 & H2 & H3).
    split; [exact H1|]. split; [exact H2|]. split; [by intros _|].
    by intros [? ?].
Qed.

Lemma update_pr_agrees_with_FetchTicketInfo_witness :
  ∃ pr',
    outcome (Main.update_pr sample_tracker
               (basic_client MainSpec.sample_config)
               (MainSpec.sample_info 7 "POKER-3" false false)) = Ok pr' ∧
    Main.JiraStatus pr' = "In Review" ∧
    Main.IsBlocked pr' = true.
Proof.
  destruct (update_pr_agrees_with_FetchTicketInfo sample_tracker
              MainSpec.sample_config
              (MainSpec.sample_info 7 "POKER-3" false false))
    as (pr' & Hok & Hs & Hb & _); [reflexivity|reflexivity|discriminate|].
  exists pr'. split; [exact Hok|]. split; [exact Hs|exact Hb].
Defined.

Lemma prog_bind_Ok {A B} (p : prog A) (k : A → prog B) (a : A) :
  outcome p = Ok a →
  outcome (p ≫= k) = outcome (k a) ∧
  trace (p ≫= k) = trace p ++ trace (k a).
Proof. intros H. unfold mbind, prog_bind. by rewrite H. Qed.

Lemma set_jira_kept (pr : Main.PullRequestInfo) (status description : string)
    (b : bool) :
  Main.JiraTicket pr ≠ "" →
  kept_by_update pr (Main.set_jira pr status description (Main.IsBlocked pr || b)).
Proof.
  intros Hid. unfold kept_by_update. simpl. repeat split; try done.
  by intros ->.
Qed.

Lemma update_pr_kept (tr : Tracker) (jiraClient : Client)
    (pr : Main.PullRequestInfo) :
  ∃ pr',
    outcome (Main.update_pr tr jiraClient pr) = Ok pr' ∧
    kept_by_update pr pr' ∧
    Forall is_log (trace (Main.update_pr tr jiraClient pr)).
Proof.
  unfold Main.update_pr.
  destruct (is_empty (Main.JiraTicket pr)) eqn:Hid.
  { exists pr. split; [done|]. split; [by repeat split|constructor]. }
  apply is_empty_false in Hid.
  destruct (err _) as [e|].
  - destruct (not_found _); eexists; (split; [reflexivity|]); split.
    + pose proof (set_jira_kept pr "Not Found" (Main.Description pr) false Hid)
        as H. by rewrite orb_false_r in H.
    + unfold mbind, prog_bind, log. simpl. repeat constructor. by eexists.
    + pose proof (set_jira_kept pr "Error" (Main.Description pr) false Hid)
        as H. by rewrite orb_false_r in H.
    + unfold mbind, prog_bind, log. simpl. repeat constructor. by eexists.
  - eexists. split; [reflexivity|]. split; [|constructor].
    unfold Main.apply_issue. destruct (_ ≫= Fields) as [fields|].
    + rewrite (blocked_by_status_or _ (Main.IsBlocked pr)).
      rewrite blocked_by_labels_or. by apply set_jira_kept.
    + pose proof (set_jira_kept pr "No Data" (Main.Description pr) false Hid)
        as H. by rewrite orb_false_r in H.
Qed.

Lemma update_loop_kept (tr : Tracker) (jiraClient : Client)
    (prs : list Main.PullRequestInfo) :
  ∃ prs',
    outcome (Main.update_loop tr jiraClient prs) = Ok prs' ∧
    Forall2 kept_by_update prs prs' ∧
    Forall is_log (trace (Main.update_loop tr jiraClient prs)).
Proof.
  induction prs as [|pr prs (prs' & Hok & Hkept & Hlog)]; simpl.
  - exists []. split; [done|]. split; constructor.
  - destruct (update_pr_kept tr jiraClient pr) as (pr' & Hpr & Hk & Hl).
    exists (pr' :: prs').
    destruct (prog_bind_Ok _ (λ pr', Main.update_loop tr jiraClient prs
                ≫= λ rest', mret (pr' :: rest')) _ Hpr) as [-> ->].
    destruct (prog_bind_Ok _ (λ rest', mret (pr' :: rest') : prog _) _ Hok)
      as [-> ->].
    split; [done|]. split; [by constructor|].
    simpl. rewrite app_nil_r. by apply Forall_app.
Qed.

Lemma kept_by_update_refl (prs : list Main.PullRequestInfo) :
  Forall2 kept_by_update prs prs.
Proof. induction prs; constructor; [by repeat split|done]. Qed.

Lemma UpdateJiraInfo_cases (tr : Tracker) (config : Main.Config)
    (prs : list Main.PullRequestInfo) :
  (outcome (Main.UpdateJiraInfo tr config prs) = Ok prs ∧
   Forall is_log (trace (Main.UpdateJiraInfo tr config prs))) ∨
  Main.UpdateJiraInfo tr config prs =
    Main.update_loop tr (basic_client config) prs.
Proof.
  unfold Main.UpdateJiraInfo.
  destruct (negb (Main.hasJiraTickets prs)); [left; split; [done|constructor]|].
  destruct (_ || _).
  { left. split; [done|]. repeat constructor. by eexists. }
  destruct (NewClient tr (Main.JiraURL config)) as [e|].
  { left. split; [done|]. repeat constructor. by eexists. }
  destruct (_ && _); [left; split; [done|constructor]|]. by right.
Qed.

Lemma UpdateJiraInfo_ok (tr : Tracker) (config : Main.Config)
    (prs : list Main.PullRequestInfo) :
  ∃ prs',
    outcome (Main.UpdateJiraInfo tr config prs) = Ok prs' ∧
    Forall is_log (trace (Main.UpdateJiraInfo tr config prs)).
Proof.
  destruct (UpdateJiraInfo_cases tr config prs) as [(H & Hlog)|Hloop].
  - by exists prs.
  - rewrite Hloop.
    destruct (update_loop_kept tr (basic_client config) prs)
      as (prs' & H & _ & Hlog). by exists prs'.
Qed.

(** X6.  [UpdateJiraInfo] never fails and never posts.  It returns as many
    PRs as it was given, in the same order; for every PR the number, title,
    URL, assignee, ticket and draft flag are as before, a blocked flag that
    was set stays set, and a PR without ticket is not changed at all. *)
Theorem UpdateJiraInfo_keeps (tr : Tracker) (config : Main.Config)
    (prs : list Main.PullRequestInfo) :
  ∃ prs',
    outcome (Main.UpdateJiraInfo tr config prs) = Ok prs' ∧
    Forall2 kept_by_update prs prs' ∧
    Forall is_log (trace (Main.UpdateJiraInfo tr config prs)).
Proof.
  destruct (UpdateJiraInfo_cases tr config prs) as [(-> & Hlog)|Hloop].
  - exists prs. split; [done|]. split; [apply kept_by_update_refl|done].
  - rewrite Hloop. apply update_loop_kept.
Qed.

Lemma UpdateJiraInfo_keeps_witness :
  ∃ prs',
    outcome (Main.UpdateJiraInfo sample_tracker MainSpec.sample_config
               [MainSpec.sample_info 7 "" true true;
                MainSpec.sample_info 8 "POKER-1" false true]) = Ok prs' ∧
    Forall2 kept_by_update
      [MainSpec.sample_info 7 "" true true;
       MainSpec.sample_info 8 "POKER-1" false true] prs'.
Proof.
  destruct (UpdateJiraInfo_keeps sample_tracker MainSpec.sample_config
              [MainSpec.sample_info 7 "" true true;
               MainSpec.sample_info 8 "POKER-1" false true])
    as (prs' & Hok & Hkept & _).
  by exists prs'.
Defined.

End LookupFacts.

(** ** Membership resolution *)

Section MembershipFacts.
Import Strings CoverSpec.

Lemma EqualFold_ToLower (s t : string) :
  EqualFold s t = true → ToLower s = ToLower t.
Proof.
  revert t. induction s as [|a s IH]; intros [|b t]; simpl; try done.
  intros [Hc Hs]%andb_true_iff. apply Ascii.eqb_eq in Hc. rewrite Hc.
  f_equal. by apply IH.
Qed.

Lemma Contains_refl (s : string) : Contains s s = true.
Proof.
  assert (HasPrefix s s = true) as H.
  { rewrite <- (sapp_empty_r s) at 1. apply HasPrefix_app. }
  destruct s; simpl in *; [done|]. by rewrite H.
Qed.

Lemma hasPokerLabel_spec (labels : list Github.Label) :
  Main.hasPokerLabel labels = true ↔
  ∃ label name, label ∈ labels ∧ Github.Name label = Some name ∧
                EqualFold name "Poker" = true.
Proof.
  induction labels as [|a l IH]; simpl.
  - split; [done|]. intros (lb & ? & Hl & _). by apply elem_of_nil in Hl.
  - destruct (Github.Name a) as [name|] eqn:Hname.
    + destruct (EqualFold name "Poker") eqn:He.
      * split; [|done]. intros _. exists a, name. by split; [left|].
      * rewrite IH. split.
        -- intros (lb & n & Hl & H). exists lb, n. split; [by right|done].
        -- intros (lb & n & [->|Hl]%elem_of_cons & Hn & Hf); [congruence|].
           by exists lb, n.
    + rewrite IH. split.
      * intros (lb & n & Hl & H). exists lb, n. split; [by right|done].
      * intros (lb & n & [->|Hl]%elem_of_cons & Hn & Hf); [congruence|].
        by exists lb, n.
Qed.

Lemma main_examine_inv (config : Main.Config) (allowedUsers : list string)
    (githubToSlackMap slackUserMap : gmap string string)
    (pr : Github.PullRequest) (prInfo : Main.PullRequestInfo) :
  Main.examine config allowedUsers githubToSlackMap slackUserMap pr
    = Ok (Some prInfo) →
  ∃ login,
    Github.login_of (Github.pr_User pr) = Some login ∧
    Github.userFound allowedUsers login = true ∧
    Main.hasPokerLabel (Github.pr_Labels pr) = true.
Proof.
  unfold Main.examine.
  destruct (if Main.DebugMode config then _ else _) as [[]| |]; [|done|done].
  rewrite bind_Ok.
  destruct (Github.login_of (Github.pr_User pr)) as [login|]; [|done].
  destruct (Github.userFound allowedUsers login) eqn:Hfound; [|done].
  destruct (Main.hasPokerLabel (Github.pr_Labels pr)) eqn:Hpoker; [|done].
  intros _. exists login. by repeat split.
Qed.



Lemma TrimPrefix_hash (name : string) : TrimPrefix ("#" +:+ name) "#" = name.
Proof. reflexivity. Qed.

Lemma TrimPrefix_none (s prefix : string) :
  HasPrefix s prefix = false → TrimPrefix s prefix = s.
Proof. intros H. unfold TrimPrefix. by rewrite H. Qed.

Lemma members_loop_channel (api : Slack.API) (config : Main.Config)
    (channel : string) (members allowedUsers : list string)
    (slackUserMap : gmap string string) :
  Main.members_loop api (with_channel config channel) members allowedUsers
    slackUserMap =
  Main.members_loop api config members allowedUsers slackUserMap.
Proof.
  revert allowedUsers slackUserMap.
  induction members as [|memberID l IH]; intros allowed m; simpl; [done|].
  destruct (Slack.GetUserInfo api _ memberID) as [user| |]; [|done|done].
  destruct (_ || _); apply IH.
Qed.

Lemma result_bind_ext {A B} (r : result A) (k1 k2 : A → result B) :
  (∀ a, k1 a = k2 a) → r ≫= k1 = r ≫= k2.
Proof. intros H. destruct r; simpl; [apply H|done|done]. Qed.

(** X8.  The channel may be written with or without the leading "#": both
    resolvers strip one "#" from the configured name before they search, so
    the two spellings give the same result, errors included. *)
Theorem channel_hash_is_optional (api : Slack.API) (config : Main.Config)
    (name : string) :
  HasPrefix name "#" = false →
  Main.GetSlackChannelUsers api (with_channel config ("#" +:+ name)) =
    Main.GetSlackChannelUsers api (with_channel config name) ∧
  ∀ token debugMode,
    SlackUsers.GetChannelUsers api token ("#" +:+ name) debugMode =
    SlackUsers.GetChannelUsers api token name debugMode.
Proof.
  intros H. split.
  - unfold Main.GetSlackChannelUsers.
    cbn [with_channel Main.SlackChannel Main.SlackToken Main.DebugMode].
    rewrite TrimPrefix_hash, (TrimPrefix_none name "#" H).
    apply result_bind_ext. intros _.
    apply result_bind_ext. intros channelID.
    apply result_bind_ext. intros channelID'.
    destruct (is_empty channelID'); [done|].
    apply result_bind_ext. intros members.
    by rewrite !members_loop_channel.
  - intros token debug. unfold SlackUsers.GetChannelUsers.
    by rewrite TrimPrefix_hash, (TrimPrefix_none name "#" H).
Qed.

Lemma channel_hash_is_optional_witness :
  Main.GetSlackChannelUsers (MainSpec.chat [MainSpec.alice])
    (with_channel MainSpec.sample_config "#reviews") =
  Main.GetSlackChannelUsers (MainSpec.chat [MainSpec.alice])
    (with_channel MainSpec.sample_config "reviews").
Proof.
  apply (channel_hash_is_optional (MainSpec.chat [MainSpec.alice])
           MainSpec.sample_config "reviews"). reflexivity.
Defined.

Lemma find_channel_absent (conversations : list Slack.Conversation)
    (channelName : string) :
  Forall (λ conv, Slack.ConvName conv ≠ channelName) conversations →
  Main.find_channel conversations channelName = "".
Proof.
  induction 1 as [|conv l Hne _ IH]; simpl; [done|].
  by apply String.eqb_neq in Hne as ->.
Qed.

Lemma search_types_hidden (api : Slack.API) (token : string)
    (conversationTypes : list string) (channelName : string) :
  Forall (λ convType, hides api token convType channelName)
    conversationTypes →
  Main.search_types api token conversationTypes channelName = Ok "".
Proof.
  induction 1 as [|convType l Hh _ IH]; simpl; [done|].
  unfold hides in Hh.
  destruct (Slack.GetConversations api token [convType]) as [convs| |];
    [|done|done].
  by rewrite find_channel_absent.
Qed.

(** X9.  When neither the public nor the private listing shows the channel
    (a listing that fails counts as not showing it) and the listing of all
    accessible conversations has no conversation of that name,
    [GetSlackChannelUsers] fails with the channel-not-found error and asks
    for no member. *)
Theorem GetSlackChannelUsers_channel_not_found (api : Slack.API)
    (config : Main.Config) (conversations : list Slack.Conversation) :
  let channelName := TrimPrefix (Main.SlackChannel config) "#" in
  (Main.DebugMode config = true →
   Slack.AuthTest api (Main.SlackToken config) = None) →
  hides api (Main.SlackToken config) "public_channel" channelName →
  hides api (Main.SlackToken config) "private_channel" channelName →
  Slack.GetConversations api (Main.SlackToken config) [] = Ok conversations →
  Forall (λ conv, Slack.ConvName conv ≠ channelName) conversations →
  Main.GetSlackChannelUsers api config = Err (not_found_message channelName).
Proof.
  intros name Hauth Hpub Hpriv Hall Habsent. unfold Main.GetSlackChannelUsers.
  assert ((if Main.DebugMode config
           then match Slack.AuthTest api (Main.SlackToken config) with
                | Some e => Err ("Slack authentication failed: " +:+ e)
                | None => mret tt
                end
           else mret tt) = Ok tt) as ->.
  { destruct (Main.DebugMode config); [by rewrite Hauth|done]. }
  rewrite bind_Ok. fold name.
  rewrite search_types_hidden by (by repeat constructor).
  rewrite bind_Ok. simpl. rewrite Hall. simpl.
  by rewrite find_channel_absent.
Qed.

Lemma GetSlackChannelUsers_channel_not_found_witness :
  Main.GetSlackChannelUsers (MainSpec.chat [MainSpec.alice])
    (with_channel MainSpec.sample_config "#releases") =
  Err (not_found_message "releases").
Proof.
  apply (GetSlackChannelUsers_channel_not_found
           (MainSpec.chat [MainSpec.alice])
           (with_channel MainSpec.sample_config "#releases") []).
  - discriminate.
  - unfold hides. simpl. repeat constructor. discriminate.
  - unfold hides. simpl. constructor.
  - reflexivity.
  - constructor.
Defined.

Lemma members_loop_inv (api : Slack.API) (config : Main.Config)
    (members allowedUsers allowed' : list string)
    (slackUserMap map' : gmap string string) :
  Main.members_loop api config members allowedUsers slackUserMap
    = Ok (allowed', map') →
  (∀ g, g ∈ allowedUsers →
     ∃ name, is_Some (slackUserMap !! name) ∧
             g = default name (Main.UserMapping config !! name)) →
  (∀ name id, slackUserMap !! name = Some id →
     ∃ memberID user,
       Slack.GetUserInfo api (Main.SlackToken config) memberID = Ok user ∧
       human user ∧ Slack.UserName user = name ∧ Slack.UserID user = id) →
  (length allowed' ≤ length allowedUsers + length members)%nat ∧
  (∀ g, g ∈ allowed' →
     ∃ name, is_Some (map' !! name) ∧
             g = default name (Main.UserMapping config !! name)) ∧
  (∀ name id, map' !! name = Some id →
     ∃ memberID user,
       Slack.GetUserInfo api (Main.SlackToken config) memberID = Ok user ∧
       human user ∧ Slack.UserName user = name ∧ Slack.UserID user = id).
Proof.
  revert allowedUsers slackUserMap.
  induction members as [|memberID l IH]; intros allowed m; simpl.
  - intros [= <- <-] H1 H2. split; [lia|]. by split.
  - destruct (Slack.GetUserInfo api _ memberID) as [user| |] eqn:Hinfo;
      [|intros H H1 H2; destruct (IH _ _ H H1 H2) as (? & ? & ?);
        split; [lia|by split]|done].
    destruct (Slack.IsBot user || Slack.Deleted user) eqn:Hbot.
    + intros H H1 H2. destruct (IH _ _ H H1 H2) as (? & ? & ?).
      split; [lia|by split].
    + apply orb_false_iff in Hbot as [Hb Hd]. intros H H1 H2.
      destruct (IH _ _ H) as (Hlen & ? & ?).
      * intros g [Hg|Hg]%elem_of_app.
        -- destruct (H1 g Hg) as (name & Hn & ->). exists name.
           split; [|done]. rewrite lookup_insert_is_Some.
           destruct (decide (Slack.UserName user = name)); auto.
        -- apply list_elem_of_singleton in Hg as ->.
           exists (Slack.UserName user). split; [|done].
           rewrite lookup_insert_eq. by eexists.
      * intros name id Hl.
        destruct (decide (Slack.UserName user = name)) as [<-|Hne].
        -- rewrite lookup_insert_eq in Hl. injection Hl as <-.
           exists memberID, user. by repeat split.
        -- rewrite lookup_insert_ne in Hl by done. by apply H2.
      * rewrite length_app in Hlen. simpl in Hlen. split; [lia|by split].
Qed.

Lemma GetSlackChannelUsers_Ok_inv (api : Slack.API) (config : Main.Config)
    (r : list string * gmap string string) :
  Main.GetSlackChannelUsers api config = Ok r →
  ∃ channelID members,
    channelID ≠ "" ∧
    Slack.GetUsersInConversation api (Main.SlackToken config) channelID
      = Ok members ∧
    Main.members_loop api config members [] ∅ = Ok r.
Proof.
  unfold Main.GetSlackChannelUsers.
  destruct (if Main.DebugMode config then _ else _) as [[]| |]; [|done|done].
  rewrite bind_Ok.
  destruct (Main.search_types _ _ _ _) as [cid| |]; [|done|done].
  rewrite bind_Ok.
  destruct (if is_empty cid then _ else _) as [cid'| |]; [|done|done].
  rewrite bind_Ok.
  destruct (is_empty cid') eqn:He; [done|]. apply is_empty_false in He.
  destruct (Slack.GetUsersInConversation _ _ _) as [members| |] eqn:Hm;
    [|done|done].
  simpl. intros H. by exists cid', members.
Qed.



Lemma reverse_mapping_inv (userMapping : gmap string string) :
  (∀ g s, Main.reverse_mapping userMapping !! g = Some s →
          userMapping !! s = Some g) ∧
  (∀ s g, userMapping !! s = Some g →
          is_Some (Main.reverse_mapping userMapping !! g)).
Proof.
  unfold Main.reverse_mapping.
  apply (map_fold_weak_ind
           (λ (r m : gmap string string),
              (∀ g s, r !! g = Some s → m !! s = Some g) ∧
              (∀ s g, m !! s = Some g → is_Some (r !! g)))).
  - split; intros ? ? H; by rewrite lookup_empty in H.
  - intros s g m r Hfresh [H1 H2]. split.
    + intros g' s' Hl. destruct (decide (g = g')) as [<-|Hne].
      * rewrite lookup_insert_eq in Hl. injection Hl as <-.
        by rewrite lookup_insert_eq.
      * rewrite lookup_insert_ne in Hl by done. apply H1 in Hl.
        rewrite lookup_insert_ne; [done|]. intros <-. congruence.
    + intros s' g' Hl. rewrite lookup_insert_is_Some.
      destruct (decide (g = g')) as [|Hne]; [by left|right]. split; [done|].
      destruct (decide (s = s')) as [<-|Hs].
      * rewrite lookup_insert_eq in Hl. congruence.
      * rewrite lookup_insert_ne in Hl by done. by apply (H2 s').
Qed.



Lemma search_types_same (api : Slack.API) (token : string)
    (conversationTypes : list string) (channelName : string) :
  SlackUsers.search_types api token conversationTypes channelName =
  Main.search_types api token conversationTypes channelName.
Proof.
  assert (∀ convs, SlackUsers.find_channel convs channelName =
                   Main.find_channel convs channelName) as Hfind.
  { induction convs as [|c l IH]; simpl; [done|]. by rewrite IH. }
  induction conversationTypes as [|t l IH]; simpl; [done|].
  destruct (Slack.GetConversations api token [t]); [|done|done].
  by rewrite Hfind, IH.
Qed.

(** X12.  The two resolvers find the same channel.  When [GetChannelUsers]
    of the [slack] package returns the member IDs of the configured
    channel, [GetSlackChannelUsers] of the single-file program resolves
    exactly these members: its result is that of its loop over them. *)
Theorem resolvers_find_same_members (api : Slack.API) (config : Main.Config)
    (members : list string) :
  SlackUsers.GetChannelUsers api (Main.SlackToken config)
    (Main.SlackChannel config) (Main.DebugMode config) = Ok members →
  Main.GetSlackChannelUsers api config =
    Main.members_loop api config members [] ∅.
Proof.
  unfold SlackUsers.GetChannelUsers, Main.GetSlackChannelUsers.
  destruct (if Main.DebugMode config then _ else _) as [[]| |]; [|done|done].
  rewrite !bind_Ok, search_types_same.
  destruct (Main.search_types _ _ _ _) as [cid| |]; [|done|done].
  rewrite !bind_Ok.
  assert (∀ convs name, SlackUsers.find_channel convs name =
                        Main.find_channel convs name) as Hfind.
  { induction convs as [|c l IH]; intros name; simpl; [done|]. by rewrite IH. }
  destruct (is_empty cid).
  - destruct (Slack.GetConversations _ _ []) as [convs| |]; [|done|done].
    simpl. rewrite Hfind. destruct (is_empty _); [done|].
    destruct (Slack.GetUsersInConversation _ _ _); simpl; [|done|done].
    by intros [= ->].
  - rewrite !bind_Ok. destruct (is_empty cid); [done|].
    destruct (Slack.GetUsersInConversation _ _ _); simpl; [|done|done].
    by intros [= ->].
Qed.

Lemma resolvers_find_same_members_witness :
  Main.GetSlackChannelUsers (MainSpec.chat [MainSpec.bot; MainSpec.alice])
    MainSpec.sample_config =
  Main.members_loop (MainSpec.chat [MainSpec.bot; MainSpec.alice])
    MainSpec.sample_config ["UBOT"; "U01"] [] ∅.
Proof.
  apply (resolvers_find_same_members
           (MainSpec.chat [MainSpec.bot; MainSpec.alice])
           MainSpec.sample_config ["UBOT"; "U01"]). reflexivity.
Defined.

End MembershipFacts.

(** ** Publishing *)

Section PublishFacts.
Import Strings CoverSpec.

Lemma published_app (l1 l2 : list Event) :
  MainSpec.published (l1 ++ l2) =
  MainSpec.published l1 ++ MainSpec.published l2.
Proof.
  induction l1 as [|[line|channel text] l1 IH]; simpl; [done|done|].
  by rewrite IH.
Qed.

Lemma published_logs (l : list Event) :
  Forall is_log l → MainSpec.published l = [].
Proof. induction 1 as [|ev l [line ->] _ IH]; simpl; done. Qed.



Lemma FetchPullRequests_logs (w : Main.World) (config : Main.Config) :
  Forall is_log (trace (Main.FetchPullRequests w config)).
Proof.
  unfold Main.FetchPullRequests.
  destruct (Main.GetSlackChannelUsers (Main.slack w) config)
    as [[allowed m]| |]; simpl; try constructor.
  destruct allowed; simpl.
  - repeat constructor. by eexists.
  - unfold mbind, prog_bind. simpl. constructor.
Qed.

Lemma RunReport_cases (w : Main.World) (config : Main.Config) :
  match outcome (Main.FetchPullRequests w config) with
  | Ok prs =>
      ∃ prs',
        outcome (Main.UpdateJiraInfo (Main.jira w) config prs) = Ok prs' ∧
        Main.RunReport w config =
          Prog (LogLine "Starting PR report generation..."
                :: trace (Main.FetchPullRequests w config)
                ++ LogLine ("Found " +:+ Itoa (Z.of_nat (length prs))
                            +:+ " PRs matching criteria")
                :: trace (Main.UpdateJiraInfo (Main.jira w) config prs)
                ++ SlackPost (Main.SlackChannel config)
                     (Main.message (Main.currentDate w) config prs')
                :: match MainSpec.post_error w config prs' with
                   | None => [LogLine "PR report sent successfully!"]
                   | Some _ => []
                   end)
               (match MainSpec.post_error w config prs' with
                | None => Ok tt
                | Some e => Err ("error sending Slack message: " +:+ e)
                end)
  | Err e =>
      Main.RunReport w config =
        Prog (LogLine "Starting PR report generation..."
              :: trace (Main.FetchPullRequests w config))
             (Err ("error fetching pull requests: " +:+ e))
  | Panic =>
      Main.RunReport w config =
        Prog (LogLine "Starting PR report generation..."
              :: trace (Main.FetchPullRequests w config)) Panic
  end.
Proof.
  unfold Main.RunReport.
  destruct (Main.FetchPullRequests w config) as [tF [prs|e|]]; simpl;
    [|done|done].
  destruct (UpdateJiraInfo_ok (Main.jira w) config prs) as (prs' & HU & _).
  exists prs'. split; [exact HU|].
  unfold mbind, prog_bind, Main.wrap_prog, Main.SendSlackMessage,
    MainSpec.post_error, log. simpl. rewrite HU.
  by destruct (Slack.PostMessage _ _ _ _).
Qed.



End PublishFacts.

(** ** The hand-over from the code host to the report ([cmd/middletier]) *)

Section HandoverFacts.
Import Strings CoverSpec.

Lemma collect_ticket_ids_elem (prs : list Github.PRResult)
    (pr : Github.PRResult) :
  pr ∈ prs → Github.JiraTicket pr ≠ "" →
  Github.JiraTicket pr ∈ Middletier.collect_ticket_ids prs.
Proof.
  induction prs as [|a prs IH]; [by intros ?%elem_of_nil|].
  intros [->|Hin]%elem_of_cons Hne; simpl.
  - destruct (is_empty (Github.JiraTicket a)) eqn:He.
    + by apply is_empty_true in He.
    + left.
  - destruct (is_empty (Github.JiraTicket a)); simpl; [|right]; by apply IH.
Qed.

Lemma warnings_logs (tr : Jira.Tracker) (opts : Jira.FetchOptions)
    (ticketIDs : list string) :
  Forall is_log (warnings tr opts ticketIDs).
Proof.
  induction ticketIDs as [|a ids IH]; simpl; [constructor|].
  apply Forall_app. split; [|done].
  destruct (is_empty a); [constructor|].
  destruct (Jira.FetchTicketInfo tr opts a); repeat constructor. by eexists.
Qed.

Lemma fetch_jira_info_ok (tr : Jira.Tracker) (opts : Jira.FetchOptions)
    (ticketIDs : list string) :
  ∃ jiraInfo,
    outcome (Middletier.fetch_jira_info tr opts ticketIDs) = Ok jiraInfo ∧
    Forall is_log (trace (Middletier.fetch_jira_info tr opts ticketIDs)) ∧
    ∀ ticketID, ticketID ∈ ticketIDs → ticketID ≠ "" →
      ∃ ticketInfo,
        jiraInfo ≫= (λ m, m !! ticketID) = Some ticketInfo ∧
        Jira.Status ticketInfo ≠ "".
Proof.
  destruct ticketIDs as [|a l].
  { exists None. split; [done|]. split; [constructor|].
    by intros id ?%elem_of_nil. }
  destruct (tickets_loop_lookup tr opts (a :: l) ∅) as (res & Hres & Hl).
  pose proof (tickets_loop_trace tr opts (a :: l) ∅) as Ht.
  pose proof (warnings_logs tr opts (a :: l)) as Hw.
  exists (Some res). unfold Middletier.fetch_jira_info, Jira.FetchTicketsInfo.
  unfold mbind at 1, prog_bind at 1. cbn [log outcome trace].
  rewrite Hres. cbn [outcome trace]. rewrite Ht.
  split; [done|]. split.
  { constructor; [by eexists|exact Hw]. }
  intros id Hin Hne. exists (JiraSpec.expected_info tr opts id).
  split; [|apply expected_info_key].
  simpl. rewrite Hl. by rewrite decide_True.
Qed.

Lemma mention_nonempty (githubToSlackMap : gmap string string)
    (githubUsername : string) :
  Slack.MapGitHubUserToMention githubToSlackMap githubUsername = "" ↔
  githubUsername = "".
Proof.
  unfold Slack.MapGitHubUserToMention.
  destruct githubUsername as [|c s]; [done|]. simpl.
  destruct (githubToSlackMap !! String c s); split; done.
Qed.

Lemma to_slack_pr_handed_over (jiraInfo : option (gmap string Jira.TicketInfo))
    (githubToSlackMap : gmap string string) (pr : Github.PRResult) :
  (Github.JiraTicket pr ≠ "" →
   ∃ ticketInfo,
     jiraInfo ≫= (λ m, m !! Github.JiraTicket pr) = Some ticketInfo ∧
     Jira.Status ticketInfo ≠ "") →
  handed_over pr (Middletier.to_slack_pr jiraInfo githubToSlackMap pr).
Proof.
  intros H. unfold handed_over, Middletier.to_slack_pr. cbn.
  do 4 (split; [done|]). split; [|split].
  - by intros ->.
  - intros Hne. destruct (H Hne) as (ti & Hti & Hst).
    destruct (is_empty (Github.JiraTicket pr)) eqn:He.
    { by apply is_empty_true in He. }
    cbn. by rewrite Hti.
  - destruct (is_empty (Github.Assignee pr)) eqn:He; cbn.
    + apply is_empty_true in He. by rewrite He.
    + apply is_empty_false in He. rewrite mention_nonempty. done.
Qed.

Lemma enrich_ok (tr : Jira.Tracker) (env : Middletier.Env)
    (githubPRs : list Github.PRResult) :
  ∃ slackPRs,
    outcome (Middletier.enrich tr env githubPRs) = Ok slackPRs ∧
    Forall2 handed_over githubPRs slackPRs ∧
    Forall is_log (trace (Middletier.enrich tr env githubPRs)).
Proof.
  unfold Middletier.enrich.
  match goal with
  | |- context [Middletier.fetch_jira_info tr ?o ?ids] =>
      destruct (fetch_jira_info_ok tr o ids) as (jiraInfo & Hok & Hlog & Hin)
  end.
  eexists. split; [|split].
  - unfold mbind at 1, prog_bind at 1. rewrite Hok. reflexivity.
  - apply Forall2_fmap_r, Forall_Forall2_diag, Forall_forall.
    intros pr Hpr. apply to_slack_pr_handed_over. intros Hne.
    apply Hin; [|done]. by apply collect_ticket_ids_elem.
  - unfold mbind at 1, prog_bind at 1. rewrite Hok. cbn [trace].
    by rewrite app_nil_r.
Qed.

(** X15.  The hand-over of [cmd/middletier] never fails and posts nothing.
    It gives the report one PR for every fetched PR, in the same order, with
    the number, title, ticket and draft flag of the code host.  A PR
    without ticket gets an empty status, its title as description and no
    blocked flag; a PR with a ticket always gets a status that is not empty,
    whatever the tracker answers; and the assignee is empty exactly when
    the fetched PR has none. *)
Theorem enrich_hands_over (tr : Jira.Tracker) (env : Middletier.Env)
    (githubPRs : list Github.PRResult) :
  ∃ slackPRs,
    outcome (Middletier.enrich tr env githubPRs) = Ok slackPRs ∧
    Forall2 handed_over githubPRs slackPRs ∧
    MainSpec.published (trace (Middletier.enrich tr env githubPRs)) = [].
Proof.
  destruct (enrich_ok tr env githubPRs) as (slackPRs & Hok & Hh & Hlog).
  exists slackPRs. split; [done|]. split; [done|]. by apply published_logs.
Qed.

Lemma main_unfold (host : Github.Host) (tr : Jira.Tracker) (api : Slack.API)
    (currentDate : string) (env : Middletier.Env) :
  ∃ intro : list Event,
    Forall is_log intro ∧
    Middletier.main host tr api currentDate env =
    match Github.FetchPRs host (middletier_opts env) with
    | Ok githubPRs =>
        let e := Middletier.enrich tr env githubPRs in
        match outcome e with
        | Ok slackPRs =>
            let p := Slack.SendPRReport api currentDate
                       (middletier_slack_opts env) slackPRs in
            Prog (intro
                  ++ [LogLine ("Fetched "
                        +:+ Itoa (Z.of_nat (length githubPRs)) +:+ " PRs from "
                        +:+ Middletier.Getenv env "GITHUB_OWNER" +:+ "/"
                        +:+ "fips-poker-web-mt")]
                  ++ trace e
                  ++ [LogLine ("Sending Middletier report to Slack channel: "
                               +:+ middletier_channel env)]
                  ++ trace p
                  ++ match outcome p with
                     | Ok _ =>
                         [LogLine "Middletier PR report sent to Slack successfully!"]
                     | Err e =>
                         [LogLine ("Error sending message to Slack: " +:+ e)]
                     | Panic => []
                     end)
                 (match outcome p with
                  | Ok _ => Ok tt
                  | Err e => Err ("Error sending message to Slack: " +:+ e)
                  | Panic => Panic
                  end)
        | Err m =>
            Prog (intro
                  ++ [LogLine ("Fetched "
                        +:+ Itoa (Z.of_nat (length githubPRs)) +:+ " PRs from "
                        +:+ Middletier.Getenv env "GITHUB_OWNER" +:+ "/"
                        +:+ "fips-poker-web-mt")]
                  ++ trace e) (Err m)
        | Panic =>
            Prog (intro
                  ++ [LogLine ("Fetched "
                        +:+ Itoa (Z.of_nat (length githubPRs)) +:+ " PRs from "
                        +:+ Middletier.Getenv env "GITHUB_OWNER" +:+ "/"
                        +:+ "fips-poker-web-mt")]
                  ++ trace e) Panic
        end
    | Err e =>
        let line := "Error fetching PRs from "
                    +:+ Middletier.Getenv env "GITHUB_OWNER" +:+ "/"
                    +:+ "fips-poker-web-mt" +:+ ": " +:+ e in
        Prog (intro ++ [LogLine line]) (Err line)
    | Panic => Prog intro Panic
    end.
Proof.
  exists ((if Middletier.dotenv_error env then
             [LogLine "Warning: .env file not found or could not be loaded. Using system environment variables."]
           else [])
          ++ [LogLine "Starting Middletier PR Report...";
              LogLine
                (match middletier_labels env with
                 | [] => "Fetching all PRs from "
                         +:+ Middletier.Getenv env "GITHUB_OWNER" +:+ "/"
                         +:+ "fips-poker-web-mt" +:+ " (no label filter)"
                 | _ => "Fetching PRs from "
                        +:+ Middletier.Getenv env "GITHUB_OWNER" +:+ "/"
                        +:+ "fips-poker-web-mt" +:+ " with labels: ["
                        +:+ Join (middletier_labels env) " " +:+ "]"
                 end)]).
  split.
  { destruct (Middletier.dotenv_error env); repeat constructor; by eexists. }
  unfold Middletier.main.
  fold (middletier_labels env). fold (middletier_channel env). cbv zeta.
  fold (middletier_opts env). fold (middletier_slack_opts env).
  destruct (Github.FetchPRs host (middletier_opts env)) as [prs|e|];
    destruct (Middletier.dotenv_error env);
    destruct (middletier_labels env) eqn:Hl;
    unfold mbind, prog_bind, log, fatal, lift, mret, prog_ret;
    cbn [outcome trace]; try reflexivity.
  all: destruct (outcome (Middletier.enrich tr env prs)) as [slackPRs|m|];
    cbn [outcome trace]; try by rewrite ?app_nil_r.
  all: destruct (outcome (Slack.SendPRReport api currentDate
                            (middletier_slack_opts env) slackPRs));
    cbn [outcome trace app]; by rewrite ?app_nil_r, <- ?app_assoc.
Qed.



End HandoverFacts.

(** ** The order of the report *)

Section OrderFacts.
Import Strings.

Lemma pr_lines_lookup (opts : Slack.MessageOptions) (prs : list Slack.PRInfo)
    (i k : nat) (pr : Slack.PRInfo) :
  prs !! k = Some pr →
  ReportSpec.pr_lines opts i prs !! k = Some (Slack.prLine opts (i + k) pr).
Proof.
  revert i k. induction prs as [|a prs IH]; intros i [|k]; simpl; try done.
  - intros [= ->]. by rewrite Nat.add_0_r.
  - intros H. rewrite (IH (S i) k H). do 2 f_equal. lia.
Qed.

Lemma main_pr_lines_lookup (config : Main.Config)
    (prs : list Main.PullRequestInfo) (i k : nat)
    (pr : Main.PullRequestInfo) :
  prs !! k = Some pr →
  MainSpec.pr_lines config i prs !! k = Some (Main.prLine config (i + k) pr).
Proof.
  revert i k. induction prs as [|a prs IH]; intros i [|k]; simpl; try done.
  - intros [= ->]. by rewrite Nat.add_0_r.
  - intros H. rewrite (IH (S i) k H). do 2 f_equal. lia.
Qed.

Lemma pr_lines_length (opts : Slack.MessageOptions) (prs : list Slack.PRInfo)
    (i : nat) :
  length (ReportSpec.pr_lines opts i prs) = length prs.
Proof. revert i. induction prs as [|a prs IH]; intros i; simpl; auto. Qed.

Lemma main_pr_lines_length (config : Main.Config)
    (prs : list Main.PullRequestInfo) (i : nat) :
  length (MainSpec.pr_lines config i prs) = length prs.
Proof. revert i. induction prs as [|a prs IH]; intros i; simpl; auto. Qed.

Lemma lookup_skip4 {A} (a b c d : A) (l : list A) (k : nat) :
  (a :: [b; c; d] ++ l) !! (4 + k)%nat = l !! k.
Proof. reflexivity. Qed.

(** X17.  Both reports list the PRs in the order in which they are given,
    one line each: the PR at index [k] is on line [4 + k] after the optional
    title block, its line begins with the number [k + 1], and the line after
    the last PR is empty. *)
Theorem reports_list_in_order (currentDate : string)
    (opts : Slack.MessageOptions) (config : Main.Config) (k : nat) :
  (∀ prs pr, prs !! k = Some pr →
     Slack.report_lines currentDate opts prs
       !! (length (ReportSpec.before_date opts) + 4 + k)%nat
       = Some (Slack.prLine opts k pr) ∧
     HasPrefix (Slack.prLine opts k pr) (Itoa (Z.of_nat k + 1) +:+ ". *")
       = true) ∧
  (∀ prs pr, prs !! k = Some pr →
     Main.report_lines currentDate config prs !! (4 + k)%nat
       = Some (Main.prLine config k pr) ∧
     HasPrefix (Main.prLine config k pr) (Itoa (Z.of_nat k + 1) +:+ ". *")
       = true) ∧
  (∀ prs, length prs = k →
     Slack.report_lines currentDate opts prs
       !! (length (ReportSpec.before_date opts) + 4 + k)%nat = Some "") ∧
  (∀ prs, length prs = k →
     Main.report_lines currentDate config prs !! (4 + k)%nat = Some "").
Proof.
  split; [|split; [|split]].
  - intros prs pr H. split.
    + rewrite report_lines_shape. unfold ReportSpec.after_date.
      rewrite lookup_app_r by lia.
      replace (length (ReportSpec.before_date opts) + 4 + k
               - length (ReportSpec.before_date opts))%nat
        with (4 + k)%nat by lia.
      rewrite lookup_skip4.
      rewrite lookup_app_l
        by (rewrite pr_lines_length; by apply lookup_lt_Some in H).
      by rewrite (pr_lines_lookup opts prs 0 k pr H).
    + unfold Slack.prLine. rewrite <- sapp_assoc. apply HasPrefix_app.
  - intros prs pr H. split.
    + rewrite main_report_lines_shape. unfold MainSpec.after_date.
      rewrite lookup_skip4.
      rewrite lookup_app_l
        by (rewrite main_pr_lines_length; by apply lookup_lt_Some in H).
      by rewrite (main_pr_lines_lookup config prs 0 k pr H).
    + unfold Main.prLine. rewrite <- sapp_assoc. apply HasPrefix_app.
  - intros prs <-.
    rewrite report_lines_shape. unfold ReportSpec.after_date.
    rewrite lookup_app_r by lia.
    replace (length (ReportSpec.before_date opts) + 4 + length prs
             - length (ReportSpec.before_date opts))%nat
      with (4 + length prs)%nat by lia.
    rewrite lookup_skip4.
    rewrite lookup_app_r by (rewrite pr_lines_length; lia).
    rewrite pr_lines_length, Nat.sub_diag. reflexivity.
  - intros prs <-.
    rewrite main_report_lines_shape. unfold MainSpec.after_date.
    rewrite lookup_skip4.
    rewrite lookup_app_r by (rewrite main_pr_lines_length; lia).
    rewrite main_pr_lines_length, Nat.sub_diag. reflexivity.
Qed.

Lemma reports_list_in_order_witness :
  Slack.report_lines "2024-05-06" (ReportSpec.sample_opts "S0REVIEW" "")
    [ReportSpec.sample_pr 7 false false; ReportSpec.sample_pr 8 true false]
    !! 5%nat
  = Some (Slack.prLine (ReportSpec.sample_opts "S0REVIEW" "") 1
            (ReportSpec.sample_pr 8 true false)).
Proof.
  destruct (reports_list_in_order "2024-05-06"
              (ReportSpec.sample_opts "S0REVIEW" "") MainSpec.sample_config 1)
    as (H & _).
  destruct (H [ReportSpec.sample_pr 7 false false;
               ReportSpec.sample_pr 8 true false]
              (ReportSpec.sample_pr 8 true false)) as [Hl _]; [reflexivity|].
  exact Hl.
Defined.

End OrderFacts.

(** ** Reading [USER_MAPPING] *)

Section MappingFacts.
Import Strings CoverSpec.

Lemma has_byte_app (c : ascii) (s t : string) :
  has_byte c (s +:+ t) = has_byte c s || has_byte c t.
Proof.
  induction s as [|b s IH]; [done|].
  rewrite sapp_cons. simpl. by rewrite IH, orb_assoc.
Qed.

Lemma has_space_app (s t : string) :
  has_space (s +:+ t) = has_space s || has_space t.
Proof.
  induction s as [|b s IH]; [done|].
  rewrite sapp_cons. simpl. by rewrite IH, orb_assoc.
Qed.

Lemma Split_nonempty (s : string) (sep : ascii) : Split s sep ≠ [].
Proof.
  induction s as [|c s IH]; simpl; [done|].
  destruct (Ascii.eqb c sep); [done|]. by destruct (Split s sep).
Qed.

Lemma Split_no_sep (s : string) (sep : ascii) :
  has_byte sep s = false → Split s sep = [s].
Proof.
  induction s as [|c s IH]; simpl; [done|].
  intros [Hc Hs]%orb_false_elim. rewrite Hc. by rewrite (IH Hs).
Qed.

Lemma Split_app_sep (a b : string) (sep : ascii) :
  has_byte sep a = false →
  Split (a +:+ String sep b) sep = a :: Split b sep.
Proof.
  induction a as [|c a IH].
  - intros _. change ("" +:+ String sep b) with (String sep b). simpl.
    by rewrite eqb_refl.
  - intros [Hc Ha]%orb_false_elim. rewrite sapp_cons.
    cbn [Split]. by rewrite Hc, (IH Ha).
Qed.

Lemma Split_Join (x : string) (xs : list string) (sep : ascii) :
  Forall (λ y, has_byte sep y = false) (x :: xs) →
  Split (Join (x :: xs) (String sep "")) sep = x :: xs.
Proof.
  revert x. induction xs as [|y xs IH]; intros x H.
  - apply Split_no_sep. by inversion H.
  - inversion H as [|? ? Hx Hrest]; subst.
    change (Join (x :: y :: xs) (String sep ""))
      with (x +:+ String sep "" +:+ Join (y :: xs) (String sep "")).
    change (String sep "" +:+ Join (y :: xs) (String sep ""))
      with (String sep (Join (y :: xs) (String sep ""))).
    by rewrite (Split_app_sep _ _ _ Hx), (IH y Hrest).
Qed.

Lemma TrimRight_no_space (s : string) :
  has_space s = false → TrimRight s = s.
Proof.
  induction s as [|c s IH]; simpl; [done|].
  intros [Hc Hs]%orb_false_elim. by rewrite Hc, (IH Hs).
Qed.

Lemma TrimSpace_no_space (s : string) :
  has_space s = false → TrimSpace s = s.
Proof.
  intros H. unfold TrimSpace.
  assert (TrimLeft s = s) as ->; [|by apply TrimRight_no_space].
  destruct s as [|c s]; [done|]. simpl in *.
  apply orb_false_elim in H as [-> _]. done.
Qed.

Lemma plain_inv (s : string) :
  plain s = true →
  has_byte "," s = false ∧ has_byte ":" s = false ∧ has_space s = false.
Proof.
  unfold plain. intros [[H1 H2]%andb_prop H3]%andb_prop.
  by rewrite !negb_true_iff in *.
Qed.

Lemma encode_pair_parts (kv : string * string) :
  plain kv.1 = true → plain kv.2 = true →
  has_byte "," (encode_pair kv) = false ∧
  TrimSpace (encode_pair kv) = encode_pair kv ∧
  Split (encode_pair kv) ":" = [kv.1; kv.2].
Proof.
  intros (Hc1 & Hk1 & Hs1)%plain_inv (Hc2 & Hk2 & Hs2)%plain_inv.
  unfold encode_pair. split; [|split].
  - rewrite !has_byte_app, Hc1, Hc2. reflexivity.
  - apply TrimSpace_no_space. rewrite !has_space_app, Hs1, Hs2. reflexivity.
  - change (":" +:+ kv.2) with (String ":" kv.2).
    by rewrite (Split_app_sep _ _ _ Hk1), (Split_no_sep _ _ Hk2).
Qed.

Lemma encode_mapping_split (kv : string * string)
    (kvs : list (string * string)) :
  plain_pairs (kv :: kvs) →
  Split (encode_mapping (kv :: kvs)) "," = map encode_pair (kv :: kvs) ∧
  is_empty (encode_mapping (kv :: kvs)) = false.
Proof.
  intros H. split.
  - unfold encode_mapping. cbn [map]. apply Split_Join.
    change (encode_pair kv :: map encode_pair kvs)
      with (map encode_pair (kv :: kvs)).
    apply Forall_fmap. eapply Forall_impl; [exact H|].
    intros x [Hx1 Hx2]. by apply encode_pair_parts.
  - destruct (encode_mapping (kv :: kvs)) eqn:He; [|done].
    exfalso. unfold encode_mapping in He. cbn [map] in He.
    assert (∀ t, encode_pair kv +:+ t ≠ "") as Hne.
    { intros t Ht. apply (f_equal (has_byte ":")) in Ht.
      unfold encode_pair in Ht. rewrite !has_byte_app in Ht. simpl in Ht.
      by rewrite orb_true_r in Ht. }
    destruct kvs as [|kv' kvs]; cbn [map Join] in He.
    + apply (Hne ""). by rewrite sapp_empty_r.
    + by apply Hne in He.
Qed.

Lemma foldl_insert_rev (kvs : list (string * string))
    (m : gmap string string) :
  foldl (λ acc kv, <[kv.1 := kv.2]> acc) m kvs = list_to_map (reverse kvs) ∪ m.
Proof.
  revert m. induction kvs as [|[k v] kvs IH]; intros m; simpl.
  - by rewrite (left_id_L ∅ (∪)).
  - rewrite IH, reverse_cons, list_to_map_app. simpl.
    rewrite <- (assoc_L (∪)). f_equal.
    rewrite <- insert_union_l. by rewrite (left_id_L ∅ (∪)).
Qed.

Lemma load_user_mapping_encoded (kvs : list (string * string))
    (m : gmap string string) :
  plain_pairs kvs →
  Startup.load_user_mapping (map encode_pair kvs) m =
  foldl (λ acc kv, <[kv.1 := kv.2]> acc) m kvs.
Proof.
  intros H. revert m. induction H as [|kv kvs [H1 H2] _ IH]; intros m; [done|].
  cbn [map Startup.load_user_mapping foldl].
  destruct (encode_pair_parts kv H1 H2) as (_ & -> & ->).
  destruct (plain_inv _ H1) as (_ & _ & Hs1).
  destruct (plain_inv _ H2) as (_ & _ & Hs2).
  rewrite (TrimSpace_no_space _ Hs1), (TrimSpace_no_space _ Hs2). apply IH.
Qed.

Lemma parse_user_mapping_encoded (kvs : list (string * string))
    (m : gmap string string) :
  plain_pairs kvs →
  Middletier.parse_user_mapping (map encode_pair kvs) m =
  foldl (λ acc kv, <[kv.1 := kv.2]> acc) m (map prod_swap kvs).
Proof.
  intros H. revert m. induction H as [|kv kvs [H1 H2] _ IH]; intros m; [done|].
  cbn [map Middletier.parse_user_mapping foldl].
  destruct (encode_pair_parts kv H1 H2) as (_ & -> & ->).
  destruct (plain_inv _ H1) as (_ & _ & Hs1).
  destruct (plain_inv _ H2) as (_ & _ & Hs2).
  rewrite (TrimSpace_no_space _ Hs1), (TrimSpace_no_space _ Hs2).
  destruct kv as [k v]. apply IH.
Qed.





End MappingFacts.
